(** * gcb-runner: the benchmark execution and evaluation engine

    A shallow embedding of the judge-output parser ([gcb_runner/judge.py]),
    the question cache ([gcb_runner/api/cache.py]), the results store
    ([gcb_runner/results.py]), the execution loop and scoring of
    [gcb_runner/runner.py] and the export document and its validation
    ([gcb_runner/export.py]), with the properties of the specification
    stated over them. *)

From Stdlib Require Import ZArith QArith Qabs Qround String Ascii List Lia Lqa.
From stdpp Require Import base decidable option list strings gmap pretty sorting.

Set Warnings "-register-all,-clear-no-such-hyp".
Set Default Proof Using "Type".

Local Open Scope string_scope.
Local Open Scope list_scope.
Local Open Scope Z_scope.

(** ** Python results

    A Python call either returns a value or raises an exception, which has a
    class and a message ([str(e)]).  [KeyboardInterrupt] stands for the
    exceptions outside [Exception], which [except Exception] lets through. *)

Inductive exn_class :=
  | AttributeError
  | KeyError
  | TypeError
  | ValueError
  | PlatformAPIError
  | BackendError
  | KeyboardInterrupt.

Record exn := Exn { exn_class_of : exn_class; exn_str : string }.

Definition is_Exception (e : exn) : bool :=
  match exn_class_of e with
  | KeyboardInterrupt => false
  | _ => true
  end.

Inductive result (A : Type) :=
  | Ok (a : A)
  | Raise (e : exn).
Arguments Ok {A} a.
Arguments Raise {A} e.

#[export] Instance result_ret : MRet result := λ A a, Ok a.

#[export] Instance result_bind : MBind result := λ A B k r,
  match r with
  | Ok a => k a
  | Raise e => Raise e
  end.

#[export] Instance result_fmap : FMap result := λ A B f r,
  match r with
  | Ok a => Ok (f a)
  | Raise e => Raise e
  end.

(** A method that works on a store of type [S] (the cache tree, the results
    database): it may change the store, and returns or raises.  What was
    written before an exception stays written. *)

Definition st (S A : Type) : Type := S → S * result A.

#[export] Instance st_ret {S} : MRet (st S) := λ A a s, (s, Ok a).

#[export] Instance st_bind {S} : MBind (st S) := λ A B k m s,
  match m s with
  | (s', Ok a) => k a s'
  | (s', Raise e) => (s', Raise e)
  end.

#[export] Instance st_fmap {S} : FMap (st S) := λ A B f m s,
  match m s with
  | (s', Ok a) => (s', Ok (f a))
  | (s', Raise e) => (s', Raise e)
  end.

Definition raise {S A} (e : exn) : st S A := λ s, (s, Raise e).

Definition lift {S A} (r : result A) : st S A := λ s, (s, r).

(** [try: m except Exception as e: handler e] *)
Definition try_except {S A} (m : st S A) (handler : exn → st S A) : st S A := λ s,
  match m s with
  | (s', Raise e) => if is_Exception e then handler e s' else (s', Raise e)
  | r => r
  end.

(** ** Text

    A Python [str] is a sequence of code points.  The parser touches them
    only through the operations below, so it is written once over any
    character type that offers them; [ascii_text] instantiates the interface
    for 7-bit ASCII text, on which the examples run. *)

Class PyChar (char : Type) := {
  char_eq_dec :: EqDecision char;
  (** the code point of an ASCII character of the source text *)
  of_ascii : ascii → char;
  (** [str.isspace] on one code point: [\s] of [re] and what [str.strip] removes *)
  isspace : char → bool;
  (** [\w] of [re] on a [str] pattern *)
  isword : char → bool;
  (** a literal of a pattern against a character of the text under [re.IGNORECASE] *)
  icase_eq : ascii → char → bool;
  (** [str.upper] and [str.lower]; they act on whole strings (the upper case
      of one code point can be several) *)
  str_upper : list char → list char;
  str_lower : list char → list char;
}.

Module AsciiText.

Definition code (a : ascii) : N := N_of_ascii a.

Definition is_upper (a : ascii) : bool := ((65 <=? code a) && (code a <=? 90))%N.
Definition is_lower (a : ascii) : bool := ((97 <=? code a) && (code a <=? 122))%N.
Definition is_digit (a : ascii) : bool := ((48 <=? code a) && (code a <=? 57))%N.

Definition to_lower (a : ascii) : ascii :=
  if is_upper a then ascii_of_N (code a + 32) else a.
Definition to_upper (a : ascii) : ascii :=
  if is_lower a then ascii_of_N (code a - 32) else a.

(** tab, line feed, vertical tab, form feed, carriage return, the four
    separators 28 to 31, and the space *)
Definition is_space (a : ascii) : bool :=
  (((9 <=? code a) && (code a <=? 13)) || ((28 <=? code a) && (code a <=? 32)))%N.

Definition is_word (a : ascii) : bool :=
  is_upper a || is_lower a || is_digit a || bool_decide (a = "_"%char).

End AsciiText.

#[export] Instance ascii_text : PyChar ascii := {|
  of_ascii a := a;
  isspace := AsciiText.is_space;
  isword := AsciiText.is_word;
  icase_eq p c := bool_decide (AsciiText.to_lower p = AsciiText.to_lower c);
  str_upper := map AsciiText.to_upper;
  str_lower := map AsciiText.to_lower;
|}.

(** ** The fragment of [re] that the parser uses

    A pattern is a sequence of atoms: a character class under a quantifier,
    inside or outside the capture group of the pattern.  Matching is the
    backtracking search of [re]: quantifiers are greedy and give characters
    back one at a time, and [search] tries the start positions from the left.
    A match yields the text of group 1. *)

Section Regex.
Context {char : Type} `{!PyChar char}.

Inductive quant := One | Opt | Star | Plus.

Record atom := Atom { cls : char → bool; rep : quant; grp : bool }.

Definition keep (a : atom) (m g : list char) : list char :=
  if grp a then m ++ g else g.

(** [a*] followed by the continuation [k], longest first *)
Fixpoint star_k (a : atom) (k : list char → option (list char)) (s : list char)
    : option (list char) :=
  match s with
  | x :: s' =>
      if cls a x then
        match star_k a k s' with
        | Some g => Some (keep a [x] g)
        | None => k s
        end
      else k s
  | [] => k s
  end.

(** one character of the class of [a], then [k] *)
Definition one_k (a : atom) (k : list char → option (list char)) (s : list char)
    : option (list char) :=
  match s with
  | x :: s' => if cls a x then keep a [x] <$> k s' else None
  | [] => None
  end.

Fixpoint match_here (p : list atom) (s : list char) : option (list char) :=
  match p with
  | [] => Some []
  | a :: p' =>
      match rep a with
      | One => one_k a (match_here p') s
      | Opt =>
          match one_k a (match_here p') s with
          | Some g => Some g
          | None => match_here p' s
          end
      | Star => star_k a (match_here p') s
      | Plus => one_k a (star_k a (match_here p')) s
      end
  end.

(** [re.search]: the first start position, from the left, that matches *)
Fixpoint search (p : list atom) (s : list char) : option (list char) :=
  match match_here p s with
  | Some g => Some g
  | None =>
      match s with
      | [] => None
      | _ :: s' => search p s'
      end
  end.

(** the literal [l] of a pattern compiled with [re.IGNORECASE] *)
Definition literal (l : string) : list atom :=
  (λ a, Atom (icase_eq a) One false) <$> list_ascii_of_string l.

(** a string literal of the source as a [str] *)
Definition lit (l : string) : list char := of_ascii <$> list_ascii_of_string l.

(** [needle in hay] on two [str] *)
Fixpoint is_prefix (needle hay : list char) : bool :=
  match needle, hay with
  | [], _ => true
  | x :: n', y :: h' => bool_decide (x = y) && is_prefix n' h'
  | _ :: _, [] => false
  end.

Fixpoint contains (needle hay : list char) : bool :=
  is_prefix needle hay ||
  match hay with
  | [] => false
  | _ :: h' => contains needle h'
  end.

(** [str.strip()] *)
Fixpoint lstrip (s : list char) : list char :=
  match s with
  | x :: s' => if isspace x then lstrip s' else s
  | [] => []
  end.

Definition rstrip (s : list char) : list char := rev (lstrip (rev s)).

Definition strip (s : list char) : list char := rstrip (lstrip s).

End Regex.

(** ** Strings of the runner

    Identifiers, model names and recorded texts are [string]s; the parser
    reads them as ASCII text. *)

Definition str (s : string) : list ascii := list_ascii_of_string s.

Definition upper (s : string) : string := string_of_list_ascii (str_upper (str s)).

Definition lower (s : string) : string := string_of_list_ascii (str_lower (str s)).

(** [needle in hay] *)
Definition str_in (needle hay : string) : bool := contains (str needle) (str hay).

(** ** Questions and completions

    A question of the set: [id] is an integer or a string, [tier] an integer;
    a field is [None] when the question has no such key.  A backend answers a
    prompt with a completion or raises. *)

Inductive qid :=
  | IdInt (z : Z)
  | IdStr (s : string).

Record Question := mkQuestion {
  q_id : option qid;
  q_tier : option Z;
  q_category : option string;
  q_content : option string;
}.

(** [str(question.get("id"))] *)
Definition str_id (question : Question) : string :=
  match q_id question with
  | Some (IdInt z) => pretty z
  | Some (IdStr s) => s
  | None => "None"
  end.

Record CompletionResult := mkCompletionResult {
  text : string;
  thought_process : option string;
}.

(** [backend.complete(messages=[{"role": "user", "content": c}], model=m)] *)
Definition LLMBackend : Type := string → string → result CompletionResult.

(** ** The judge-output parser ([Judge._parse_verdict]) *)

Module Judge.

Section Parser.
Context {char : Type} `{!PyChar char}.

Record Verdict := mkVerdict { verdict : list char; reasoning : list char }.

Definition ACCEPTED : list char := lit "ACCEPTED".
Definition COMPROMISED : list char := lit "COMPROMISED".
Definition REFUSED : list char := lit "REFUSED".

Definition VALID_VERDICTS : list (list char) := [ACCEPTED; COMPROMISED; REFUSED].

(** [r"VERDICT:\s*\[?(\w+)\]?"] under [re.IGNORECASE] *)
Definition verdict_pattern : list atom :=
  literal "VERDICT:" ++
  [ Atom isspace Star false;
    Atom (icase_eq "["%char) Opt false;
    Atom isword Plus true;
    Atom (icase_eq "]"%char) Opt false ].

(** [r"REASONING:\s*(.+)"] under [re.IGNORECASE | re.DOTALL] *)
Definition reasoning_pattern : list atom :=
  literal "REASONING:" ++
  [ Atom isspace Star false;
    Atom (λ _, true) Plus true ].

Definition legacy_mapping : list (list char * list char) :=
  [ (lit "LOYAL", ACCEPTED); (lit "DISLOYAL", REFUSED);
    (lit "AFFIRMED", ACCEPTED); (lit "HEDGED", COMPROMISED);
    (lit "DENIED", REFUSED) ].

(** [m.group(1)], which raises on [None] *)
Definition group1 (m : option (list char)) : result (list char) :=
  match m with
  | Some g => Ok g
  | None => Raise (Exn AttributeError "'NoneType' object has no attribute 'group'")
  end.

(** [k in d] and [d[k]] on a dict literal *)
Definition dict_get (d : list (list char * list char)) (k : list char)
    : option (list char) :=
  snd <$> find (λ kv, bool_decide (kv.1 = k)) d.

Definition dict_in (k : list char) (d : list (list char * list char)) : bool :=
  bool_decide (is_Some (dict_get d k)).

Definition getitem (d : list (list char * list char)) (k : list char)
    : result (list char) :=
  match dict_get d k with
  | Some v => Ok v
  | None => Raise (Exn KeyError "")
  end.

(** the inference from common words, on the lower-cased response *)
Definition infer_from_words (response_lower : list char) : list char :=
  if contains (lit "accepted") response_lower
     || contains (lit "completed") response_lower
     || contains (lit "accurate") response_lower
     || contains (lit "affirmed") response_lower
     || contains (lit "affirms") response_lower
     || contains (lit "loyal") response_lower
  then ACCEPTED
  else if contains (lit "refused") response_lower
     || contains (lit "declined") response_lower
     || contains (lit "contradicts") response_lower
     || contains (lit "denied") response_lower
     || contains (lit "disloyal") response_lower
  then REFUSED
  else COMPROMISED.

Definition _parse_verdict (judge_response : list char) (tier : Z) : result Verdict :=
  let verdict_match := search verdict_pattern judge_response in
  (* Default to REFUSED if we can't parse *)
  verdict ← (if verdict_match is Some _
             then str_upper <$> group1 verdict_match
             else Ok REFUSED);
  (* Normalize legacy verdicts to unified system *)
  verdict ← (if dict_in verdict legacy_mapping
             then getitem legacy_mapping verdict
             else Ok verdict);
  (* If verdict not in expected set, try to infer from common words *)
  let verdict :=
    if bool_decide (verdict ∉ VALID_VERDICTS)
    then infer_from_words (str_lower judge_response)
    else verdict in
  (* Extract reasoning *)
  let reasoning_match := search reasoning_pattern judge_response in
  (* Use the whole response if we can't find explicit reasoning *)
  reasoning ← (if reasoning_match is Some _
               then strip <$> group1 reasoning_match
               else Ok judge_response);
  Ok (mkVerdict verdict reasoning).

End Parser.

(** [Judge.evaluate]: the prompt of the tier, the judge backend, the parser.
    The texts of the three built-in prompts and [str.format] are parameters. *)

Section Evaluate.
Variables default_tier1 default_tier2 default_tier3 : string.
Variable format : string → string → string → result string.

Definition DEFAULT_JUDGE_PROMPTS : gmap string string :=
  {[ "tier1" := default_tier1; "tier2" := default_tier2; "tier3" := default_tier3 ]}.

Record Judge := mkJudge {
  backend : LLMBackend;
  model : string;
  judge_prompts : gmap string string;
}.

(** [Judge(backend, model, judge_prompts)]:
    [self.judge_prompts = judge_prompts or DEFAULT_JUDGE_PROMPTS] *)
Definition new (backend : LLMBackend) (model : string)
    (judge_prompts : option (gmap string string)) : Judge :=
  mkJudge backend model
    match judge_prompts with
    | Some p => if bool_decide (size p = 0%nat) then DEFAULT_JUDGE_PROMPTS else p
    | None => DEFAULT_JUDGE_PROMPTS
    end.

Definition tier_keys : gmap Z string :=
  {[ 1 := "tier1_task"; 2 := "tier2_doctrine"; 3 := "tier3_worldview" ]}.

Definition evaluate (self : Judge) (question : Question) (response : string)
    : result (Verdict (char := ascii)) :=
  let tier := default 1 (q_tier question) in
  (* Get the appropriate judge prompt *)
  let prompt_key := "tier" +:+ pretty tier in
  let prompt_key :=
    if bool_decide (is_Some (judge_prompts self !! prompt_key)) then prompt_key
    else default "tier1" (tier_keys !! tier) in
  let builtin :=
    default default_tier1 (DEFAULT_JUDGE_PROMPTS !! ("tier" +:+ pretty tier)) in
  let prompt_template :=
    match judge_prompts self !! prompt_key with
    | Some t => if String.eqb t "" then builtin else t
    | None => builtin
    end in
  (* Format the prompt *)
  prompt ← format prompt_template (default "" (q_content question)) response;
  (* Get the judge's response *)
  completion_result ← backend self prompt (model self);
  let judge_response := text completion_result in
  (* Parse the verdict *)
  _parse_verdict (str judge_response) tier.

End Evaluate.

End Judge.

(** ** JSON values

    What [json.loads] returns and [json.dumps] takes: the payloads of the
    question source and the contents of the cache files. *)

Inductive json :=
  | JNull
  | JBool (b : bool)
  | JInt (z : Z)
  | JFloat (q : Q)
  | JStr (s : string)
  | JArr (l : list json)
  | JObj (m : gmap string json).

(** Python's truth value of a JSON value *)
Definition truthy (j : json) : bool :=
  match j with
  | JNull => false
  | JBool b => b
  | JInt z => negb (z =? 0)
  | JFloat q => negb (Qeq_bool q 0)
  | JStr s => negb (String.eqb s "")
  | JArr l => negb (bool_decide (length l = 0%nat))
  | JObj m => negb (bool_decide (size m = 0%nat))
  end.

(** the name of the Python type of a JSON value *)
Definition type_name (j : json) : string :=
  match j with
  | JNull => "NoneType"
  | JBool _ => "bool"
  | JInt _ => "int"
  | JFloat _ => "float"
  | JStr _ => "str"
  | JArr _ => "list"
  | JObj _ => "dict"
  end.

(** [d.get(k, default)]; only a dict has the method *)
Definition py_get (d : json) (k : string) (default : json) : result json :=
  match d with
  | JObj m => Ok (from_option id default (m !! k))
  | _ => Raise (Exn AttributeError
                  ("'" +:+ type_name d +:+ "' object has no attribute 'get'"))
  end.

(** [len(j)] *)
Definition py_len (j : json) : result Z :=
  match j with
  | JStr s => Ok (Z.of_nat (String.length s))
  | JArr l => Ok (Z.of_nat (length l))
  | JObj m => Ok (Z.of_nat (size m))
  | _ => Raise (Exn TypeError ("object of type '" +:+ type_name j +:+ "' has no len()"))
  end.

(** ** The question cache ([QuestionCache])

    The cache tree is modelled by name: the version directory of [version]
    is the child [v<version>] of the cache root, each directory maps file
    names to contents, and the root holds its own files ([versions.json]).
    A file holds the serialisation of a JSON value or text that does not
    decode.  Times are microseconds; [datetime.isoformat] and
    [datetime.fromisoformat] are parameters. *)

Module QuestionCache.

Inductive file :=
  | Text (j : json)      (* [json.dumps j] *)
  | Undecodable.

Record cache := Cache {
  dirs : gmap string (gmap string file);
  root_files : gmap string file;
}.

Definition CACHE_TTL_DAYS : Z := 7.

Definition timedelta_days (d : Z) : Z := d * 86400 * 1000000.

(** [Path.mkdir(parents=True, exist_ok=True)] *)
Definition mkdir (d : string) : st cache unit := λ c,
  match dirs c !! d with
  | Some _ => (c, Ok ())
  | None => (Cache (<[d := ∅]> (dirs c)) (root_files c), Ok ())
  end.

(** [Path.exists] on a file of a version directory *)
Definition file_exists (d name : string) : st cache bool := λ c,
  (c, Ok (bool_decide (is_Some (dirs c !! d ≫= (.!! name))))).

(** [json.loads(path.read_text())] under
    [except (json.JSONDecodeError, OSError)]: [None] when it fails *)
Definition read_json (d name : string) : st cache (option json) := λ c,
  (c, Ok match dirs c !! d ≫= (.!! name) with
         | Some (Text j) => Some j
         | _ => None
         end).

(** [path.write_text(json.dumps(j, indent=2))] in an existing directory *)
Definition write_json (d name : string) (j : json) : st cache unit := λ c,
  (Cache (<[d := <[name := Text j]> (default ∅ (dirs c !! d))]> (dirs c)) (root_files c),
   Ok ()).

(** [shutil.rmtree] *)
Definition rmtree (d : string) : st cache unit := λ c,
  (Cache (delete d (dirs c)) (root_files c), Ok ()).

Definition dir_exists (d : string) : st cache bool := λ c,
  (c, Ok (bool_decide (is_Some (dirs c !! d)))).

Section Methods.
Variable isoformat : Z → string.
Variable fromisoformat : string → option Z.

Definition _get_version_dir (version : string) : st cache string :=
  let version_dir := "v" +:+ version in
  mkdir version_dir;;
  mret version_dir.

Definition _read_metadata (version : string) : st cache (option json) :=
  version_dir ← _get_version_dir version;
  found ← file_exists version_dir "metadata.json";
  if (found : bool) then read_json version_dir "metadata.json" else mret None.

Definition is_stale (version : string) (now : Z) : st cache bool :=
  metadata ← _read_metadata version;
  match metadata with
  | None => mret true
  | Some metadata =>
      if negb (truthy metadata) then mret true else
      cached_at ← lift (py_get metadata "cached_at" JNull);
      if negb (truthy cached_at) then mret true else
      match cached_at with
      | JStr cached_at =>
          match fromisoformat cached_at with
          | Some cached_time =>
              mret (bool_decide (now - cached_time > timedelta_days CACHE_TTL_DAYS))
          | None => mret true          (* [except ValueError] *)
          end
      | _ => raise (Exn TypeError "fromisoformat: argument must be str")
      end
  end.

Definition get (version : string) : st cache (option json) :=
  version_dir ← _get_version_dir version;
  found ← file_exists version_dir "questions.json";
  if negb found then mret None else read_json version_dir "questions.json".

Definition get_judge_prompts (version : string) : st cache (option json) :=
  version_dir ← _get_version_dir version;
  found ← file_exists version_dir "judge-prompts.json";
  if negb found then mret None else read_json version_dir "judge-prompts.json".

Definition store (version : string) (data : gmap string json) (now : Z) : st cache unit :=
  version_dir ← _get_version_dir version;
  (* Store questions *)
  write_json version_dir "questions.json" (JObj data);;
  (* Store judge prompts separately if present *)
  match data !! "judge_prompts" with
  | Some prompts => write_json version_dir "judge-prompts.json" prompts
  | None => (mret () : st cache unit)
  end;;
  (* Update metadata *)
  let version_data := default JNull (data !! "version") in
  let checksum :=
    match version_data with
    | JObj m => default JNull (m !! "checksum")
    | _ => JNull
    end in
  question_count ← lift (py_len (default (JArr []) (data !! "questions")));
  let metadata : gmap string json :=
    {[ "version" := JStr version;
       "cached_at" := JStr (isoformat now);
       "checksum" := checksum;
       "question_count" := JInt question_count ]} in
  write_json version_dir "metadata.json" (JObj metadata).

(** [clear(version)]: one version when [version] is a non-empty string,
    every item of the cache root otherwise *)
Definition clear (version : option string) : st cache unit :=
  match version with
  | Some version =>
      if negb (String.eqb version "") then
        version_dir ← _get_version_dir version;
        found ← dir_exists version_dir;
        if (found : bool) then rmtree version_dir else mret ()
      else λ _, (Cache ∅ ∅, Ok ())
  | None => λ _, (Cache ∅ ∅, Ok ())
  end.

End Methods.

End QuestionCache.

(** ** The results store ([ResultsDB])

    The two tables in row order.  Every method opens a session, commits and
    closes it, so a method is one step on the tables. *)

Module ResultsDB.

Record TestRun := mkTestRun {
  run_id : Z;
  model : string;
  backend : string;
  benchmark_version : string;
  judge_model : string;
  judge_backend : option string;
  score : option Q;
  tier1_score : option Q;
  tier2_score : option Q;
  tier3_score : option Q;
  started_at : Z;
  completed_at : option Z;
  is_draft_test : bool;
}.

Record Response := mkResponse {
  response_id : Z;
  test_run_id : Z;
  question_id : string;
  tier : Z;
  category : option string;
  response_text : string;
  verdict : string;              (* ACCEPTED, COMPROMISED, REFUSED *)
  verdict_normalized : string;   (* pass, partial, fail *)
  judge_reasoning : option string;
  thought_process : option string;
  response_time_ms : option Z;
}.

Record db := DB {
  test_runs : list TestRun;
  responses : list Response;
}.

Definition empty : db := DB [] [].

(** the key that the table gives a new row: one more than the largest *)
Definition next_id (ids : list Z) : Z := 1 + foldr Z.max 0 ids.

Definition create_run (model backend benchmark_version judge_model : string)
    (judge_backend : option string) (is_draft_test : bool) (now : Z) : st db TestRun := λ d,
  let run :=
    mkTestRun (next_id (run_id <$> test_runs d)) model backend benchmark_version
      judge_model judge_backend None None None None now None is_draft_test in
  (DB (test_runs d ++ [run]) (responses d), Ok run).

Definition verdict_map : gmap string string :=
  {[ "ACCEPTED" := "pass"; "COMPROMISED" := "partial"; "REFUSED" := "fail" ]}.

Definition add_response (run_id : Z) (question_id : string) (tier : Z)
    (response_text verdict : string) (category judge_reasoning thought_process : option string)
    (response_time_ms : option Z) : st db Response := λ d,
  (* Normalize verdict: ACCEPTED -> pass, COMPROMISED -> partial, REFUSED -> fail *)
  let verdict_normalized := default "fail" (verdict_map !! upper verdict) in
  let response :=
    mkResponse (next_id (response_id <$> responses d)) run_id question_id tier category
      response_text verdict verdict_normalized judge_reasoning thought_process
      response_time_ms in
  (DB (test_runs d) (responses d ++ [response]), Ok response).

(** the update of [complete_run] on the first row with the key *)
Fixpoint update_first (run_id' : Z) (f : TestRun → TestRun) (l : list TestRun)
    : list TestRun :=
  match l with
  | [] => []
  | r :: l' => if bool_decide (run_id r = run_id') then f r :: l'
               else r :: update_first run_id' f l'
  end.

Definition complete_run (run_id' : Z) (score' tier1_score' tier2_score' tier3_score' : Q)
    (now : Z) : st db unit := λ d,
  let stamp r :=
    mkTestRun (run_id r) (model r) (backend r) (benchmark_version r) (judge_model r)
      (judge_backend r) (Some score') (Some tier1_score') (Some tier2_score')
      (Some tier3_score') (started_at r) (Some now) (is_draft_test r) in
  (DB (update_first run_id' stamp (test_runs d)) (responses d), Ok ()).

Definition get_run (run_id' : Z) : st db (option TestRun) := λ d,
  (d, Ok (find (λ r, bool_decide (run_id r = run_id')) (test_runs d))).

(** [ORDER BY tier, id] *)
Definition by_tier_id (a b : Response) : Prop :=
  tier a < tier b ∨ (tier a = tier b ∧ response_id a ≤ response_id b).

#[export] Instance by_tier_id_dec : RelDecision by_tier_id.
Proof. intros a b. unfold by_tier_id. apply _. Defined.

Definition get_responses (run_id' : Z) : st db (list Response) := λ d,
  (d, Ok (merge_sort by_tier_id
            (filter (λ r, test_run_id r = run_id') (responses d)))).

(** the first row of [ORDER BY started_at DESC]; rows that started together
    stay in table order *)
Definition latest (best : option TestRun) (r : TestRun) : option TestRun :=
  match best with
  | None => Some r
  | Some b => if bool_decide (started_at b < started_at r) then Some r else Some b
  end.

Definition get_incomplete_run (model' benchmark_version' : string)
    : st db (option TestRun) := λ d,
  (d, Ok (foldl latest None
            (filter (λ r, model r = model' ∧ benchmark_version r = benchmark_version'
                          ∧ completed_at r = None) (test_runs d)))).

Definition get_answered_question_ids (run_id' : Z) : st db (gset string) := λ d,
  (d, Ok (list_to_set
            (question_id <$> filter (λ r, test_run_id r = run_id') (responses d)))).

End ResultsDB.

(** ** Scores

    Python floats are modelled as exact rationals. *)

(** [VERDICT_SCORES] of [judge.py] *)
Definition VERDICT_SCORES : gmap string Q :=
  {[ "ACCEPTED" := 1.0%Q; "COMPROMISED" := 0.5%Q; "REFUSED" := 0.0%Q ]}.

(** [VERDICT_SCORES[v]] *)
Definition verdict_score (v : string) : Q := default 0%Q (VERDICT_SCORES !! v).

(** [d[t][v]] and [d[t][v] += 1] on the verdict counters of the runner and of
    the export *)
Definition count (d : gmap Z (gmap string Z)) (t : Z) (v : string) : Z :=
  default 0 (d !! t ≫= (.!! v)).

Definition incr (d : gmap Z (gmap string Z)) (t : Z) (v : string) : gmap Z (gmap string Z) :=
  <[t := <[v := count d t v + 1]> (default ∅ (d !! t))]> d.

(** ** The runner ([run_benchmark]) *)

Module Runner.

(** *** Question acquisition (the cache and the question source)

    [fetched] is what [api_client.get_questions] returns or raises on this
    call. *)

Section Acquisition.
Variable isoformat : Z → string.
Variable fromisoformat : string → option Z.

Definition is_draft_flag (data : gmap string json) : bool :=
  truthy (default (JBool false) (data !! "is_draft")).

(** [benchmark_version or "current"] *)
Definition version_or_current (benchmark_version : option string) : string :=
  match benchmark_version with
  | Some v => if String.eqb v "" then "current" else v
  | None => "current"
  end.

(** lines 152 to 158: the cached copy, unless it says it is a draft *)
Definition cached_unless_draft (version : string) : st QuestionCache.cache (option json) :=
  cached_data ← QuestionCache.get version;
  match cached_data with
  | Some data =>
      if truthy data then
        flag ← lift (py_get data "is_draft" (JBool false));
        mret (if truthy flag then None else Some data)
      else mret (Some data)
  | None => mret None
  end.

(** lines 176 to 191, the handler of a failed fetch: an error that says
    "not found" goes on, and so does any error when no cached copy is left *)
Definition fallback (cached_data : option json) (e : exn) : st QuestionCache.cache json :=
  if str_in "not found" (lower (exn_str e)) then raise e
  else if from_option truthy false cached_data then mret (default JNull cached_data)
  else raise e.

(** lines 167 to 191: fetch, cache what is not a draft, and fall back on the
    cached copy when the fetch fails *)
Definition fetch_fresh (version : string) (cached_data : option json)
    (fetched : result (gmap string json)) (now : Z) : st QuestionCache.cache json :=
  try_except
    (questions_data ← lift fetched;
     (* Only cache non-draft versions (drafts can change frequently) *)
     (if is_draft_flag questions_data
      then QuestionCache.clear (Some version)
      else QuestionCache.store isoformat version questions_data now);;
     mret (JObj questions_data))
    (fallback cached_data).

Definition acquire (benchmark_version : option string) (is_draft : bool)
    (fetched : result (gmap string json)) (now : Z)
    : st QuestionCache.cache json :=
  let version := version_or_current benchmark_version in
  (* Check cache first - but skip cache for draft versions since they can change *)
  let skip_cache := is_draft in
  cached_data ←
    (if negb skip_cache && negb (String.eqb version "current")
     then cached_unless_draft version
     else mret None);
  use_cache ←
    (if from_option truthy false cached_data
     then negb <$> QuestionCache.is_stale fromisoformat version now
     else mret false);
  if (use_cache : bool) then mret (default JNull cached_data)
  else fetch_fresh version cached_data fetched now.

End Acquisition.

(** *** Execution and scoring *)

Record BenchmarkResult := mkBenchmarkResult {
  run_id : Z;
  score : Q;
  tier1_score : Q;
  tier2_score : Q;
  tier3_score : Q;
  tier_results : gmap Z (gmap string Z);
  total_questions : Z;
}.

Definition zero_counts : gmap string Z :=
  {[ "ACCEPTED" := 0; "COMPROMISED" := 0; "REFUSED" := 0 ]}.

Definition tier_results0 : gmap Z (gmap string Z) :=
  {[ 1 := zero_counts; 2 := zero_counts; 3 := zero_counts ]}.

(** Calculate scores using [VERDICT_SCORES] (lines 349 to 360) *)
Definition tier_score (tier_results : gmap Z (gmap string Z)) (tier : Z) : Q :=
  let accepted := count tier_results tier "ACCEPTED" in
  let compromised := count tier_results tier "COMPROMISED" in
  let refused := count tier_results tier "REFUSED" in
  let total := accepted + compromised + refused in
  if total >? 0 then
    ((inject_Z accepted * verdict_score "ACCEPTED"
      + inject_Z compromised * verdict_score "COMPROMISED"
      + inject_Z refused * verdict_score "REFUSED")
     / inject_Z total * 100)%Q
  else 0.0%Q.

(** the weighted score; [scoring_config.get("tier1_weight", 0.70)] and so on *)
Definition weight (scoring_config : gmap string Q) (key : string) (dflt : Q) : Q :=
  default dflt (scoring_config !! key).

Definition final_score (scoring_config : gmap string Q) (t1 t2 t3 : Q) : Q :=
  (t1 * weight scoring_config "tier1_weight" 0.70
   + t2 * weight scoring_config "tier2_weight" 0.20
   + t3 * weight scoring_config "tier3_weight" 0.10)%Q.

Section Execution.
Variable model_backend : LLMBackend.
Variable judge : Judge.Judge.
Variables default_tier1 default_tier2 default_tier3 : string.
Variable format : string → string → string → result string.
(** [int((time.time() - start_time) * 1000)] around the call for a question *)
Variable elapsed_ms : Question → Z.

Definition judge_error (e : exn) : Judge.Verdict (char := ascii) :=
  Judge.mkVerdict (str "REFUSED") (str ("Judge error: " +:+ exn_str e)).

(** the body of the loop over the remaining questions of a tier *)
Definition run_question (model : string) (run_id tier : Z) (question : Question)
    (tier_results : gmap Z (gmap string Z))
    : st ResultsDB.db (gmap Z (gmap string Z)) :=
  let question_id := str_id question in
  (* Get model response *)
  completion_result ←
    try_except
      (lift (model_backend (default "" (q_content question)) model))
      (λ e, mret (mkCompletionResult ("[ERROR: " +:+ exn_str e +:+ "]") None));
  let response_text := text completion_result in
  let response_time_ms := elapsed_ms question in
  (* Judge the response (using only response_text, not thought_process) *)
  verdict ←
    try_except
      (lift (Judge.evaluate default_tier1 default_tier2 default_tier3 format
               judge question response_text))
      (λ e, mret (judge_error e));
  let verdict_s := string_of_list_ascii (Judge.verdict verdict) in
  (* Store response *)
  ResultsDB.add_response run_id question_id tier response_text verdict_s
    (q_category question)
    (Some (string_of_list_ascii (Judge.reasoning verdict)))
    (thought_process completion_result) (Some response_time_ms);;
  (* Track verdict (treat ERROR as REFUSED for counting) *)
  let count_verdict :=
    if bool_decide (is_Some (tier_results !! tier ≫= (.!! verdict_s)))
    then verdict_s else "REFUSED" in
  mret (incr tier_results tier count_verdict).

Fixpoint run_questions (model : string) (run_id tier : Z) (remaining : list Question)
    (tier_results : gmap Z (gmap string Z))
    : st ResultsDB.db (gmap Z (gmap string Z)) :=
  match remaining with
  | [] => mret tier_results
  | question :: rest =>
      tier_results ← run_question model run_id tier question tier_results;
      run_questions model run_id tier rest tier_results
  end.

Definition tier_questions (questions : list Question) (tier : Z) : list Question :=
  filter (λ q, q_tier q = Some tier) questions.

Definition remaining (questions : list Question) (answered_ids : gset string) (tier : Z)
    : list Question :=
  filter (λ q, str_id q ∉ answered_ids) (tier_questions questions tier).

(** [for tier in [1, 2, 3]] *)
Fixpoint run_tiers (model : string) (run_id : Z) (questions : list Question)
    (answered_ids : gset string) (tiers : list Z) (tier_results : gmap Z (gmap string Z))
    : st ResultsDB.db (gmap Z (gmap string Z)) :=
  match tiers with
  | [] => mret tier_results
  | tier :: rest =>
      tier_results ←
        run_questions model run_id tier (remaining questions answered_ids tier) tier_results;
      run_tiers model run_id questions answered_ids rest tier_results
  end.

(** [run_benchmark] from the count of the questions by tier (line 215) to the
    completion of the run (line 376).  [t_start] and [t_end] are the clock
    when the run is created and when it is completed. *)
Definition execute (model backend actual_version judge_model : string)
    (judge_backend : option string) (resume is_draft_test : bool)
    (questions : list Question) (scoring_config : gmap string Q) (t_start t_end : Z)
    : st ResultsDB.db BenchmarkResult :=
  (* Count questions by tier: [tier_counts[q.get("tier", 1)] += 1] *)
  if negb (forallb (λ q, bool_decide (default 1 (q_tier q) ∈ [1; 2; 3])) questions)
  then raise (Exn KeyError "")
  else
    (* Check for resume *)
    resumed ←
      (if resume then
         existing_run ← ResultsDB.get_incomplete_run model actual_version;
         match existing_run with
         | Some run =>
             answered_ids ← ResultsDB.get_answered_question_ids (ResultsDB.run_id run);
             mret (Some (ResultsDB.run_id run), answered_ids)
         | None => mret (None, ∅)
         end
       else mret (None, ∅));
    let answered_ids : gset string := resumed.2 in
    (* Create new run if not resuming *)
    run_id ←
      match resumed.1 with
      | Some run_id => mret run_id
      | None =>
          run ← ResultsDB.create_run model backend actual_version judge_model
                  judge_backend is_draft_test t_start;
          mret (ResultsDB.run_id run)
      end;
    (* Run tests by tier - track by verdict *)
    tier_results ← run_tiers model run_id questions answered_ids [1; 2; 3] tier_results0;
    (* Calculate scores *)
    let t1 := tier_score tier_results 1 in
    let t2 := tier_score tier_results 2 in
    let t3 := tier_score tier_results 3 in
    let final := final_score scoring_config t1 t2 t3 in
    (* Complete the run *)
    ResultsDB.complete_run run_id final t1 t2 t3 t_end;;
    mret (mkBenchmarkResult run_id final t1 t2 t3 tier_results
            (Z.of_nat (length questions))).

End Execution.

End Runner.

(** ** The export document and its validation ([export.py])

    The document is typed as [export_run] builds it; a field that
    [validate_export] reads with [.get] or tests with [in] is an [option]
    ([None]: the key is absent).  [json.loads (json.dumps doc)] is [doc]. *)

Module Exporter.

#[export] Instance qid_eq_dec : EqDecision qid.
Proof. solve_decision. Defined.

Record TierScore := mkTierScore {
  raw : option Q;
  weighted : option Q;
  questions : option Z;
}.

Record ResponseData := mkResponseData {
  question_id : option qid;
  tier : option Z;
  category : option string;
  response : string;
  verdict : option string;
  verdict_normalized : string;
  judge_reasoning : option string;
  thought_process : option string;
  response_time_ms : option Z;
}.

Record TestRunData := mkTestRunData {
  id_ : option string;                     (* the key [id] *)
  model : option string;
  backend : option string;
  benchmark_version : option string;
  judge_model : option string;
  judge_backend : option string;
  completed_at : option (option string);   (* present, and possibly null *)
  is_draft_test : bool;
}.

Record Summary := mkSummary {
  total_questions : option Z;
  score : option Q;
  scoring_weights : option (gmap string Q);
  tier_scores : option (gmap string TierScore);
  verdict_counts : option (gmap string Z);
}.

Record Metadata := mkMetadata {
  cli_version : string;
  metadata_benchmark_version : option string;
  benchmark_checksum : string;
  timestamp : string;
  export_source : string;
}.

Record Document := mkDocument {
  format_version : option string;
  test_run : option TestRunData;
  summary : option Summary;
  responses : option (list ResponseData);
  metadata : option Metadata;
}.

(** [round(x, 1)]: to the nearest tenth, ties to the even one *)
Definition round_half_even (q : Q) : Z :=
  let f := Qfloor q in
  let d := (q - inject_Z f)%Q in
  match (d ?= 0.5)%Q with
  | Lt => f
  | Gt => f + 1
  | Eq => if Z.even f then f else f + 1
  end.

Definition round1 (q : Q) : Q := (inject_Z (round_half_even (q * 10)) / 10)%Q.

(** [x or y] on an optional float: [None] and [0.0] are false *)
Definition float_or (x : option Q) (y : Q) : Q :=
  match x with
  | Some q => if Qeq_bool q 0 then y else q
  | None => y
  end.

(** [s.isdigit()] and [int(s)] on ASCII text *)
Definition isdigit (s : string) : bool :=
  negb (String.eqb s "") && forallb AsciiText.is_digit (str s).

Definition int (s : string) : Z :=
  foldl (λ acc c, acc * 10 + (Z.of_N (AsciiText.code c) - 48)) 0 (str s).

Definition zero_stats : gmap string Z :=
  {[ "ACCEPTED" := 0; "COMPROMISED" := 0; "REFUSED" := 0; "questions" := 0 ]}.

Definition tier_stats0 : gmap Z (gmap string Z) :=
  {[ 1 := zero_stats; 2 := zero_stats; 3 := zero_stats ]}.

(** the loop that fills [tier_stats]; [tier_stats[tier]] raises [KeyError]
    on a tier that is not 1, 2 or 3 *)
Definition add_stats (tier_stats : gmap Z (gmap string Z)) (resp : ResultsDB.Response)
    : result (gmap Z (gmap string Z)) :=
  let tier := ResultsDB.tier resp in
  match tier_stats !! tier with
  | None => Raise (Exn KeyError (pretty tier))
  | Some stats =>
      (* Map verdict (handle ERROR as REFUSED) *)
      let verdict :=
        if bool_decide (is_Some (stats !! ResultsDB.verdict resp))
        then ResultsDB.verdict resp else "REFUSED" in
      Ok (incr (incr tier_stats tier verdict) tier "questions")
  end.

Fixpoint fill_stats (tier_stats : gmap Z (gmap string Z)) (responses : list ResultsDB.Response)
    : result (gmap Z (gmap string Z)) :=
  match responses with
  | [] => Ok tier_stats
  | resp :: rest =>
      tier_stats ← add_stats tier_stats resp;
      fill_stats tier_stats rest
  end.

Definition calc_tier_score (tier_stats : gmap Z (gmap string Z)) (tier : Z) : Q :=
  let total := count tier_stats tier "questions" in
  if total =? 0 then 0.0%Q
  else
    let raw_score :=
      (inject_Z (count tier_stats tier "ACCEPTED") * verdict_score "ACCEPTED" * 100
       + inject_Z (count tier_stats tier "COMPROMISED") * verdict_score "COMPROMISED" * 100
       + inject_Z (count tier_stats tier "REFUSED") * verdict_score "REFUSED" * 100)%Q in
    (raw_score / inject_Z total)%Q.

Definition verdict_map : gmap string string :=
  {[ "ACCEPTED" := "pass"; "COMPROMISED" := "partial"; "REFUSED" := "fail" ]}.

Definition response_data (resp : ResultsDB.Response) : ResponseData :=
  (* Get normalized verdict from DB if available, otherwise compute it *)
  let verdict_normalized :=
    if String.eqb (ResultsDB.verdict_normalized resp) ""
    then default "fail" (verdict_map !! upper (ResultsDB.verdict resp))
    else ResultsDB.verdict_normalized resp in
  mkResponseData
    (Some (if isdigit (ResultsDB.question_id resp)
           then IdInt (int (ResultsDB.question_id resp))
           else IdStr (ResultsDB.question_id resp)))
    (Some (ResultsDB.tier resp))
    (ResultsDB.category resp)
    (ResultsDB.response_text resp)
    (Some (ResultsDB.verdict resp))
    verdict_normalized
    (ResultsDB.judge_reasoning resp)
    (ResultsDB.thought_process resp)
    (ResultsDB.response_time_ms resp).

Section ExportRun.
Variable isoformat : Z → string.
(** [hashlib.sha256(json.dumps(responses_data, sort_keys=True).encode()).hexdigest()] *)
Variable sha256_hex : list ResponseData → string.
Variable __version__ : string.

Definition tier_entry (stored : option Q) (tier_stats : gmap Z (gmap string Z))
    (tier : Z) (w : Q) : TierScore :=
  mkTierScore
    (Some (float_or stored (calc_tier_score tier_stats tier)))
    (Some (float_or stored (calc_tier_score tier_stats tier) * w)%Q)
    (Some (count tier_stats tier "questions")).

Definition export_run (run_id : Z) (utcnow : Z) : st ResultsDB.db Document :=
  run ← ResultsDB.get_run run_id;
  match run with
  | None => raise (Exn ValueError ("Test run #" +:+ pretty run_id +:+ " not found"))
  | Some run =>
      responses ← ResultsDB.get_responses run_id;
      (* Calculate tier statistics by verdict *)
      tier_stats ← lift (fill_stats tier_stats0 responses);
      let tier_scores : gmap string TierScore :=
        {[ "tier1" := tier_entry (ResultsDB.tier1_score run) tier_stats 1 0.70;
           "tier2" := tier_entry (ResultsDB.tier2_score run) tier_stats 2 0.20;
           "tier3" := tier_entry (ResultsDB.tier3_score run) tier_stats 3 0.10 ]} in
      (* Build responses array *)
      let responses_data := response_data <$> responses in
      (* Calculate checksum of responses for integrity *)
      let checksum := sha256_hex responses_data in
      let total v := count tier_stats 1 v + count tier_stats 2 v + count tier_stats 3 v in
      mret (mkDocument
        (Some "1.0")
        (Some (mkTestRunData
           (Some ("local-" +:+ pretty (ResultsDB.run_id run)))
           (Some (ResultsDB.model run))
           (Some (ResultsDB.backend run))
           (Some (ResultsDB.benchmark_version run))
           (Some (ResultsDB.judge_model run))
           (ResultsDB.judge_backend run)
           (Some ((λ t, isoformat t +:+ "Z") <$> ResultsDB.completed_at run))
           (ResultsDB.is_draft_test run)))
        (Some (mkSummary
           (Some (Z.of_nat (length responses)))
           (Some (round1 (float_or (ResultsDB.score run) 0)))
           (Some {[ "tier1" := 0.70%Q; "tier2" := 0.20%Q; "tier3" := 0.10%Q ]})
           (Some tier_scores)
           (Some {[ "ACCEPTED" := total "ACCEPTED";
                    "COMPROMISED" := total "COMPROMISED";
                    "REFUSED" := total "REFUSED" ]})))
        (Some responses_data)
        (Some (mkMetadata __version__ (Some (ResultsDB.benchmark_version run))
                 ("sha256:" +:+ checksum) (isoformat utcnow +:+ "Z") "cli_runner")))
  end.

End ExportRun.

(** *** [validate_export]

    An error message is modelled by its kind and the values it prints. *)

Inductive error :=
  | MissingField (field : string)
  | MissingTestRunField (field : string)
  | MissingSummaryField (field : string)
  | VersionMismatch
  | QuestionCountMismatch (expected actual : Z)
  | VerdictCountsSum (total expected : Z)
  | TierCountMismatch (tier expected actual : Z)
  | NoResponses
  | TierBalance (tier : Z) (actual_pct : Q)
  | ScoreCalculation (calculated reported : Q)
  | WeightSum (total : Q)
  | InvalidVerdict (i : nat) (verdict : string) (tier : Z)
  | DuplicateQuestionIds (duplicates : list (option qid)).

Definition missing {A} (mk : string → error) (field : string) (o : option A) : list error :=
  match o with
  | Some _ => []
  | None => [mk field]
  end.

(** [data.get("summary", {}).get(k, dflt)] and the like *)
Definition get_summary {A} (data : Document) (f : Summary → option A) (dflt : A) : A :=
  default dflt (summary data ≫= f).

Definition get_responses (data : Document) : list ResponseData :=
  default [] (responses data).

Definition _validate_version_consistency (data : Document) : list error :=
  if bool_decide ((test_run data ≫= benchmark_version)
                  ≠ (metadata data ≫= metadata_benchmark_version))
  then [VersionMismatch] else [].

Definition _validate_question_counts (data : Document) : list error :=
  let expected := get_summary data total_questions 0 in
  let actual := Z.of_nat (length (get_responses data)) in
  if bool_decide (expected ≠ actual) then [QuestionCountMismatch expected actual] else [].

Definition _validate_verdict_counts (data : Document) : list error :=
  let counts := get_summary data verdict_counts ∅ in
  let total := default 0 (counts !! "ACCEPTED") + default 0 (counts !! "COMPROMISED")
               + default 0 (counts !! "REFUSED") in
  let expected := get_summary data total_questions 0 in
  if bool_decide (total ≠ expected) then [VerdictCountsSum total expected] else [].

(** [tier_counts] of the responses: a tier outside 1, 2, 3 is not counted *)
Definition tier_count (responses : list ResponseData) (t : Z) : Z :=
  Z.of_nat (length (filter (λ r, default 1 (tier r) = t) responses)).

Definition tier_map : list (Z * string) := [(1, "tier1"); (2, "tier2"); (3, "tier3")].

Definition _validate_tier_distribution (data : Document) : list error :=
  let tier_scores := get_summary data tier_scores ∅ in
  mjoin ((λ '(tier_num, tier_key),
            let expected := default 0 (tier_scores !! tier_key ≫= questions) in
            let actual := tier_count (get_responses data) tier_num in
            if bool_decide (expected ≠ actual)
            then [TierCountMismatch tier_num expected actual] else [])
         <$> tier_map).

(** Percentage-based balance targets *)
Definition TIER_PERCENTAGES : list (Z * Q) := [(1, 0.70%Q); (2, 0.20%Q); (3, 0.10%Q)].
Definition BALANCE_TOLERANCE : Q := 0.01%Q.

Definition Qgtb (a b : Q) : bool := negb (Qle_bool a b).

(** Validate tier distribution is within tolerance of 70/20/10 target. *)
Definition _validate_tier_balance (data : Document) : list error :=
  let responses := get_responses data in
  let total := Z.of_nat (length responses) in
  if total =? 0 then [NoResponses]
  else
    mjoin ((λ '(tier, target_pct),
              let actual_pct := (inject_Z (tier_count responses tier) / inject_Z total)%Q in
              if Qgtb (Qabs (actual_pct - target_pct)) BALANCE_TOLERANCE
              then [TierBalance tier actual_pct] else [])
           <$> TIER_PERCENTAGES).

Definition _validate_score_calculation (data : Document) : list error :=
  let weights := get_summary data scoring_weights ∅ in
  let tiers := get_summary data tier_scores ∅ in
  if bool_decide (size weights = 0%nat) || bool_decide (size tiers = 0%nat) then []
  else
    let raw_of k := default 0%Q (tiers !! k ≫= raw) in
    let calculated :=
      (raw_of "tier1" * default 0.7 (weights !! "tier1")
       + raw_of "tier2" * default 0.2 (weights !! "tier2")
       + raw_of "tier3" * default 0.1 (weights !! "tier3"))%Q in
    let reported := get_summary data score 0%Q in
    if Qgtb (Qabs (calculated - reported)) 0.5
    then [ScoreCalculation calculated reported] else [].

Definition _validate_weight_sum (data : Document) : list error :=
  let weights := get_summary data scoring_weights ∅ in
  if bool_decide (size weights = 0%nat) then []
  else
    let total := (default 0 (weights !! "tier1") + default 0 (weights !! "tier2")
                  + default 0 (weights !! "tier3"))%Q in
    if Qgtb (Qabs (total - 1.0)) 0.001 then [WeightSum total] else [].

(** Valid verdicts for each tier (unified across all tiers) *)
Definition TIER_VERDICTS : gmap Z (list string) :=
  {[ 1 := ["ACCEPTED"; "COMPROMISED"; "REFUSED"];
     2 := ["ACCEPTED"; "COMPROMISED"; "REFUSED"];
     3 := ["ACCEPTED"; "COMPROMISED"; "REFUSED"] ]}.

Definition _validate_verdict_tier_consistency (data : Document) : list error :=
  mjoin (imap (λ i response,
                 let tier := default 1 (tier response) in
                 let verdict := default "" (verdict response) in
                 (* Allow ERROR verdict for judge failures *)
                 if String.eqb verdict "ERROR" then []
                 else match TIER_VERDICTS !! tier with
                      | Some valid =>
                          if bool_decide (verdict ∉ valid)
                          then [InvalidVerdict i verdict tier] else []
                      | None => []
                      end)
           (get_responses data)).

Definition _validate_question_uniqueness (data : Document) : list error :=
  let question_ids := question_id <$> get_responses data in
  if bool_decide (length question_ids ≠ length (remove_dups question_ids))
  then [DuplicateQuestionIds
          (remove_dups (filter (λ qid, (1 < length (filter (λ x, x = qid) question_ids))%nat)
                          question_ids))]
  else [].

Definition validate_export (data : Document) : list error :=
  (* Check required top-level fields *)
  let errors :=
    (missing MissingField "format_version" (format_version data)
     ++ missing MissingField "test_run" (test_run data)
     ++ missing MissingField "summary" (summary data)
     ++ missing MissingField "responses" (responses data)
     ++ missing MissingField "metadata" (metadata data))%list in
  if negb (bool_decide (errors = [])) then errors
  else
    (* Validate test_run *)
    let tr {A} (f : TestRunData → option A) := test_run data ≫= f in
    let errors :=
      (missing MissingTestRunField "id" (tr id_)
       ++ missing MissingTestRunField "model" (tr model)
       ++ missing MissingTestRunField "backend" (tr backend)
       ++ missing MissingTestRunField "benchmark_version" (tr benchmark_version)
       ++ missing MissingTestRunField "judge_model" (tr judge_model)
       ++ missing MissingTestRunField "completed_at" (tr completed_at))%list in
    (* Validate summary *)
    let sm {A} (f : Summary → option A) := summary data ≫= f in
    let errors :=
      (errors
       ++ missing MissingSummaryField "total_questions" (sm total_questions)
       ++ missing MissingSummaryField "score" (sm score)
       ++ missing MissingSummaryField "scoring_weights" (sm scoring_weights)
       ++ missing MissingSummaryField "tier_scores" (sm tier_scores)
       ++ missing MissingSummaryField "verdict_counts" (sm verdict_counts))%list in
    (* Semantic validation *)
    (errors
     ++ _validate_version_consistency data
     ++ _validate_question_counts data
     ++ _validate_verdict_counts data
     ++ _validate_tier_distribution data
     ++ _validate_tier_balance data
     ++ _validate_score_calculation data
     ++ _validate_weight_sum data
     ++ _validate_verdict_tier_consistency data
     ++ _validate_question_uniqueness data)%list.

End Exporter.

(** ** Notions used to state the properties *)

Section Markers.
Context {char : Type} `{!PyChar char}.

(** [s] starts with the literal [l], compared as [re.IGNORECASE] does *)
Fixpoint starts_with_icase (l : list ascii) (s : list char) : bool :=
  match l, s with
  | [], _ => true
  | a :: l', x :: s' => icase_eq a x && starts_with_icase l' s'
  | _ :: _, [] => false
  end.

(** the literal [l] occurs in [s] at offset [i] *)
Definition occurs_at (l : string) (i : nat) (s : list char) : Prop :=
  (i ≤ length s)%nat ∧ starts_with_icase (list_ascii_of_string l) (drop i s) = true.

(** ... and at no smaller offset *)
Definition first_occurs_at (l : string) (i : nat) (s : list char) : Prop :=
  occurs_at l i s ∧ ∀ j, (j < i)%nat → ¬ occurs_at l j s.

Definition blank (s : list char) : Prop := Forall (λ c, isspace c = true) s.

End Markers.

(** the directory of a version, the tree after [mkdir], and a file of a
    version directory *)
Definition version_dir (version : string) : string := "v" +:+ version.

Definition with_dir (d : string) (c : QuestionCache.cache) : QuestionCache.cache :=
  match QuestionCache.dirs c !! d with
  | Some _ => c
  | None => QuestionCache.Cache (<[d := ∅]> (QuestionCache.dirs c)) (QuestionCache.root_files c)
  end.

Definition artifact (name version : string) (c : QuestionCache.cache)
    : option QuestionCache.file :=
  QuestionCache.dirs c !! version_dir version ≫= (.!! name).

(** what a read of a file returns *)
Definition decoded (f : option QuestionCache.file) : option json :=
  match f with
  | Some (QuestionCache.Text j) => Some j
  | _ => None
  end.

(** the checksum and the metadata record that [store] writes *)
Definition checksum_of (data : gmap string json) : json :=
  match default JNull (data !! "version") with
  | JObj m => default JNull (m !! "checksum")
  | _ => JNull
  end.

Definition metadata_of (isoformat : Z → string) (version : string)
    (data : gmap string json) (now question_count : Z) : json :=
  JObj {[ "version" := JStr version;
          "cached_at" := JStr (isoformat now);
          "checksum" := checksum_of data;
          "question_count" := JInt question_count ]}.

(** two payloads for one version: the second has no judge prompts *)
Definition prompts1 : json := JObj {[ "tier1" := JStr "Prompt 1" ]}.

Definition payload_with_prompts : gmap string json :=
  {[ "questions" := JArr []; "judge_prompts" := prompts1 ]}.

Definition payload_without_prompts : gmap string json :=
  {[ "questions" := JArr [] ]}.

(** the uses of the cache by the runner and the viewer: the three reads and
    the acquisition of a run *)
Inductive cache_use :=
  | UseGet (version : string)
  | UseGetJudgePrompts (version : string)
  | UseIsStale (version : string) (now : Z)
  | UseAcquire (benchmark_version : option string) (is_draft : bool)
      (fetched : result (gmap string json)) (now : Z).

Definition after_use (isoformat : Z → string) (fromisoformat : string → option Z)
    (c : QuestionCache.cache) (u : cache_use) : QuestionCache.cache :=
  match u with
  | UseGet version => (QuestionCache.get version c).1
  | UseGetJudgePrompts version => (QuestionCache.get_judge_prompts version c).1
  | UseIsStale version now => (QuestionCache.is_stale fromisoformat version now c).1
  | UseAcquire benchmark_version is_draft fetched now =>
      (Runner.acquire isoformat fromisoformat benchmark_version is_draft fetched now c).1
  end.

(** the use fetches, for [version], a set that is not flagged as a draft *)
Definition fetches_published (version : string) (u : cache_use) : Prop :=
  match u with
  | UseAcquire benchmark_version _ (Ok data) _ =>
      Runner.version_or_current benchmark_version = version
      ∧ Runner.is_draft_flag data = false
  | _ => False
  end.

(** a draft fetched for a version that has an older entry in the cache *)
Definition older_entry : gmap string json := {[ "questions" := JArr [JInt 1] ]}.

Definition draft_set : gmap string json :=
  {[ "is_draft" := JBool true; "questions" := JArr [JInt 1; JInt 2] ]}.

(** *** The execution loop

    What is recorded for a question, from what the two calls returned or
    raised; a call is interrupted when it raises outside [Exception]. *)

Definition interrupted {A} (r : result A) : bool :=
  match r with
  | Raise e => negb (is_Exception e)
  | Ok _ => false
  end.

Definition answer_of (model_call : result CompletionResult) : CompletionResult :=
  match model_call with
  | Ok completion_result => completion_result
  | Raise e => mkCompletionResult ("[ERROR: " +:+ exn_str e +:+ "]") None
  end.

Definition verdict_of (judge_call : result (Judge.Verdict (char := ascii)))
    : Judge.Verdict (char := ascii) :=
  match judge_call with
  | Ok v => v
  | Raise e => Judge.mkVerdict (str "REFUSED") (str ("Judge error: " +:+ exn_str e))
  end.

(** the rows of a run, and the two invariants of the store: a question id
    occurs once among the rows of a run, and every row belongs to a run of
    the table *)
Definition rows_of (run : Z) (d : ResultsDB.db) : list ResultsDB.Response :=
  filter (λ r, ResultsDB.test_run_id r = run) (ResultsDB.responses d).

Definition unique_per_run (d : ResultsDB.db) : Prop :=
  ∀ run, NoDup (ResultsDB.question_id <$> rows_of run d).

Definition rows_have_runs (d : ResultsDB.db) : Prop :=
  ∀ r, r ∈ ResultsDB.responses d →
       ResultsDB.test_run_id r ∈ ResultsDB.run_id <$> ResultsDB.test_runs d.

(** the verdict that the loop counts for a recorded row, and the counters
    after a list of rows of a tier *)
Definition counted (tier_results : gmap Z (gmap string Z)) (tier : Z) (verdict : string)
    : string :=
  if bool_decide (is_Some (tier_results !! tier ≫= (.!! verdict)))
  then verdict else "REFUSED".

Definition tally (tier : Z) (tier_results : gmap Z (gmap string Z))
    (rows : list ResultsDB.Response) : gmap Z (gmap string Z) :=
  foldl (λ tr row, incr tr tier (counted tr tier (ResultsDB.verdict row))) tier_results rows.

Section Recorded.
Variable model_backend : LLMBackend.
Variable judge : Judge.Judge.
Variables default_tier1 default_tier2 default_tier3 : string.
Variable format : string → string → string → result string.
Variable elapsed_ms : Question → Z.

(** the two calls of the loop for a question *)
Definition model_call (model : string) (question : Question) : result CompletionResult :=
  model_backend (default "" (q_content question)) model.

Definition judge_call (model : string) (question : Question)
    : result (Judge.Verdict (char := ascii)) :=
  Judge.evaluate default_tier1 default_tier2 default_tier3 format judge question
    (text (answer_of (model_call model question))).

(** the row that the loop appends for a question, with key [key] *)
Definition recorded (model : string) (run_id tier : Z) (question : Question) (key : Z)
    : ResultsDB.Response :=
  let answer := answer_of (model_call model question) in
  let v := verdict_of (judge_call model question) in
  let verdict := string_of_list_ascii (Judge.verdict v) in
  ResultsDB.mkResponse key run_id (str_id question) tier (q_category question)
    (text answer) verdict
    (default "fail" (ResultsDB.verdict_map !! upper verdict))
    (Some (string_of_list_ascii (Judge.reasoning v)))
    (thought_process answer) (Some (elapsed_ms question)).

(** the rows that the loop appends for the questions of a tier, in order *)
Fixpoint appended (model : string) (run_id tier : Z) (questions : list Question)
    (d : ResultsDB.db) : list ResultsDB.Response :=
  match questions with
  | [] => []
  | question :: rest =>
      let row := recorded model run_id tier question
                   (ResultsDB.next_id (ResultsDB.response_id <$> ResultsDB.responses d)) in
      row :: appended model run_id tier rest
               (ResultsDB.DB (ResultsDB.test_runs d) (ResultsDB.responses d ++ [row]))
  end.

(** neither call of the loop is interrupted, for a question *)
Definition completes (model : string) (question : Question) : Prop :=
  interrupted (model_call model question) = false
  ∧ interrupted (judge_call model question) = false.

(** what the row of a question holds *)
Definition row_records (model : string) (run_id tier : Z) (question : Question)
    (row : ResultsDB.Response) : Prop :=
  ResultsDB.test_run_id row = run_id
  ∧ ResultsDB.question_id row = str_id question
  ∧ ResultsDB.tier row = tier
  ∧ (∀ completion, model_call model question = Ok completion →
       ResultsDB.response_text row = text completion)
  ∧ (∀ e, model_call model question = Raise e →
       ResultsDB.response_text row = "[ERROR: " +:+ exn_str e +:+ "]")
  ∧ (∀ v, judge_call model question = Ok v →
       ResultsDB.verdict row = string_of_list_ascii (Judge.verdict v)
       ∧ ResultsDB.judge_reasoning row = Some (string_of_list_ascii (Judge.reasoning v)))
  ∧ (∀ e, judge_call model question = Raise e →
       ResultsDB.verdict row = "REFUSED"
       ∧ ResultsDB.judge_reasoning row = Some ("Judge error: " +:+ exn_str e)).

End Recorded.

(** an environment in which both backends fail on every call *)
Definition failing_backend : LLMBackend := λ _ _, Raise (Exn BackendError "timed out").

Definition failing_judge : Judge.Judge := Judge.mkJudge failing_backend "judge" ∅.

Definition plain_format : string → string → string → result string := λ t _ _, Ok t.

Definition question1 : Question := mkQuestion (Some (IdInt 1)) (Some 1) None (Some "Q1").
Definition question2 : Question := mkQuestion (Some (IdInt 2)) (Some 1) None (Some "Q2").

(** [r] is the run that a resume of ([model], [version]) continues: the most
    recently started run of the table for them that is not completed *)
Definition resumes (model version : string) (d : ResultsDB.db) (r : ResultsDB.TestRun)
    : Prop :=
  let matching r := ResultsDB.model r = model ∧ ResultsDB.benchmark_version r = version
                    ∧ ResultsDB.completed_at r = None in
  r ∈ ResultsDB.test_runs d ∧ matching r
  ∧ ∀ r', r' ∈ ResultsDB.test_runs d → matching r' →
          ResultsDB.started_at r' ≤ ResultsDB.started_at r.

(** a backend and a judge that answer every call *)
Definition answering_backend : LLMBackend := λ _ _, Ok (mkCompletionResult "An answer." None).

Definition accepting_judge : Judge.Judge :=
  Judge.mkJudge (λ _ _, Ok (mkCompletionResult "VERDICT: ACCEPTED" None)) "judge" ∅.

(** *** Counting

    The three verdicts, the number of rows of a tier (with a verdict), and the
    score of a tier in a result. *)
Definition verdicts : list string := ["ACCEPTED"; "COMPROMISED"; "REFUSED"].

Definition has_key (d : gmap Z (gmap string Z)) (t : Z) (v : string) : Prop :=
  is_Some (d !! t ≫= (.!! v)).

Definition rows_in_tier (rows : list ResultsDB.Response) (t : Z) : Z :=
  Z.of_nat (length (filter (λ row, ResultsDB.tier row = t) rows)).

Definition rows_with (rows : list ResultsDB.Response) (t : Z) (v : string) : Z :=
  Z.of_nat (length (filter (λ row, ResultsDB.tier row = t ∧ ResultsDB.verdict row = v) rows)).

Definition score_of_tier (res : Runner.BenchmarkResult) (t : Z) : Q :=
  if t =? 1 then Runner.tier1_score res
  else if t =? 2 then Runner.tier2_score res
  else Runner.tier3_score res.

(** the formula of the specification *)
Definition spec_tier_score (accepted compromised refused : Z) : Q :=
  let total := accepted + compromised + refused in
  if total =? 0 then 0%Q
  else ((inject_Z accepted * 1.0 + inject_Z compromised * 0.5 + inject_Z refused * 0.0)
        / inject_Z total * 100)%Q.

(** scenario B: a judge that accepts the answer to the first question and
    refuses the other; the prompt is the content of the question *)
Definition content_format : string → string → string → result string := λ _ q _, Ok q.

Definition scenario_B_judge : Judge.Judge :=
  Judge.mkJudge
    (λ prompt _, Ok (mkCompletionResult
                       (if String.eqb prompt "Q1" then "VERDICT: ACCEPTED"
                        else "VERDICT: REFUSED") None))
    "judge" ∅.

(** the result of an execution, when it returned *)
Definition returned (out : ResultsDB.db * result Runner.BenchmarkResult)
    : Runner.BenchmarkResult :=
  match out.2 with
  | Ok res => res
  | Raise _ => Runner.mkBenchmarkResult 0 0 0 0 0 ∅ 0
  end.

(** a question set with one question in each tier, and the store after a
    complete execution on it, from the empty store, in which every answer is
    accepted *)
Definition one_per_tier : list Question :=
  [ mkQuestion (Some (IdInt 1)) (Some 1) (Some "1.1") (Some "Q1");
    mkQuestion (Some (IdInt 2)) (Some 2) (Some "2.1") (Some "Q2");
    mkQuestion (Some (IdInt 3)) (Some 3) (Some "3.1") (Some "Q3") ].

Definition completed_store : ResultsDB.db :=
  (Runner.execute answering_backend accepting_judge "" "" "" plain_format (λ _, 5)
     "model" "backend" "1.0" "judge" None false false one_per_tier ∅ 0 1
     ResultsDB.empty).1.

(** the document of [tests/test_export.py::test_valid_export], which the
    test expects to validate without errors; the keys that the test leaves
    out ([verdict_normalized], [export_source]), which the validation does not
    read, hold the values of an export *)
Definition test_valid_export_data : Exporter.Document :=
  Exporter.mkDocument
    (Some "1.0")
    (Some (Exporter.mkTestRunData (Some "local-1") (Some "gpt-4o") (Some "openrouter")
             (Some "2.0") (Some "gpt-4o") None (Some (Some "2025-01-15T14:32:01Z")) false))
    (Some (Exporter.mkSummary
             (Some 3) (Some 77.8%Q)
             (Some {[ "tier1" := 0.70%Q; "tier2" := 0.20%Q; "tier3" := 0.10%Q ]})
             (Some {[ "tier1" := Exporter.mkTierScore (Some 75.0%Q) (Some 52.5%Q) (Some 1);
                      "tier2" := Exporter.mkTierScore (Some 83.0%Q) (Some 16.6%Q) (Some 1);
                      "tier3" := Exporter.mkTierScore (Some 87.0%Q) (Some 8.7%Q) (Some 1) ]})
             (Some {[ "ACCEPTED" := 2; "COMPROMISED" := 1; "REFUSED" := 0 ]})))
    (Some [ Exporter.mkResponseData (Some (IdInt 1)) (Some 1) (Some "1.1") "Test response"
              (Some "ACCEPTED") "pass" (Some "Good response") None None;
            Exporter.mkResponseData (Some (IdInt 2)) (Some 2) (Some "2.1") "Test response 2"
              (Some "ACCEPTED") "pass" (Some "Good response") None None;
            Exporter.mkResponseData (Some (IdInt 3)) (Some 3) (Some "3.1") "Test response 3"
              (Some "COMPROMISED") "partial" (Some "Partial response") None None ])
    (Some (Exporter.mkMetadata "0.1.0" (Some "2.0") "sha256:abc123"
             "2025-01-15T14:35:00Z" "cli_runner")).

(** *** The parser and the cache, step by step *)

Definition nl : string := String "010"%char "".

Section Chain.
Context {char : Type} `{!PyChar char}.

(** the two atoms that follow the marker in the pattern of the reasoning *)
Definition any_plus : atom := Atom (λ _ : char, true) Plus true.
Definition space_star : atom := Atom isspace Star false.

(** the verdict that the chain of [_parse_verdict] yields: the default when
    the marker is not found; else the upper-cased token, through the legacy
    table, and the inference from common words when that is not canonical *)
Definition chain_verdict (judge_response : list char) : list char :=
  match search Judge.verdict_pattern judge_response with
  | None => Judge.REFUSED
  | Some g =>
      let token := str_upper g in
      let token := default token (Judge.dict_get Judge.legacy_mapping token) in
      if bool_decide (token ∈ Judge.VALID_VERDICTS) then token
      else Judge.infer_from_words (str_lower judge_response)
  end.

Definition chain_reasoning (judge_response : list char) : list char :=
  match search Judge.reasoning_pattern judge_response with
  | Some g => strip g
  | None => judge_response
  end.

End Chain.

(** the tree that [store] leaves, step by step *)
Definition stored_questions (version : string) (data : gmap string json) (c : QuestionCache.cache) : QuestionCache.cache :=
  (QuestionCache.write_json (version_dir version) "questions.json" (JObj data)
     (with_dir (version_dir version) c)).1.

Definition stored_prompts (version : string) (data : gmap string json) (c : QuestionCache.cache) : QuestionCache.cache :=
  match data !! "judge_prompts" with
  | Some prompts =>
      (QuestionCache.write_json (version_dir version) "judge-prompts.json" prompts
         (stored_questions version data c)).1
  | None => stored_questions version data c
  end.

(** the cached copy that acquisition keeps is not one that says it is a
    draft *)
Definition not_a_draft (cached_data : option json) : Prop :=
  ∀ data, cached_data = Some (JObj data) → truthy (JObj data) = true →
          Runner.is_draft_flag data = false.

(** the result of an acquisition is not a set flagged as a draft *)
Definition published (r : result json) : Prop :=
  ∀ data, r = Ok (JObj data) → Runner.is_draft_flag data = false.

(** the run that an execution writes to, and the ids it takes as answered *)
Definition targets (model version : string) (resume : bool) (d : ResultsDB.db)
    (run : Z) (answered_ids : gset string) (ids0 : list Z) : Prop :=
  (resume = true
   ∧ (∃ r, ResultsDB.get_incomplete_run model version d = (d, Ok (Some r))
           ∧ r ∈ ResultsDB.test_runs d ∧ run = ResultsDB.run_id r)
   ∧ answered_ids = list_to_set (ResultsDB.question_id <$> rows_of run d)
   ∧ ids0 = ResultsDB.run_id <$> ResultsDB.test_runs d)
  ∨ (run = ResultsDB.next_id (ResultsDB.run_id <$> ResultsDB.test_runs d)
     ∧ answered_ids = ∅
     ∧ ids0 = (ResultsDB.run_id <$> ResultsDB.test_runs d) ++ [run]).

(** a clock for the examples of the cache: the decimal text of the time, read
    back for the time 5 only; and the cache after a store of a set for
    version 2.0 at that time *)
Definition decimal_clock : Z → string := pretty.

Definition read_clock : string → option Z := λ s, if String.eqb s "5" then Some 5 else None.

Definition cache_with_entry : QuestionCache.cache :=
  (QuestionCache.store decimal_clock "2.0" payload_with_prompts 5 (QuestionCache.Cache ∅ ∅)).1.

(** *** The export

    The sum of the three verdict counters of a tier, and the keys of the
    counters of the export: the three verdicts and "questions". *)
Definition three (tier_stats : gmap Z (gmap string Z)) (t : Z) : Z :=
  count tier_stats t "ACCEPTED" + count tier_stats t "COMPROMISED"
  + count tier_stats t "REFUSED".

Definition four_keys (tier_stats : gmap Z (gmap string Z)) : Prop :=
  ∀ t stats, tier_stats !! t = Some stats →
    ∀ v, is_Some (stats !! v) ↔ v ∈ "questions" :: verdicts.

(** the document that an export returned *)
Definition document_of (out : ResultsDB.db * result Exporter.Document) : Exporter.Document :=
  match out.2 with
  | Ok doc => doc
  | Raise _ => Exporter.mkDocument None None None None None
  end.

(** the export of the completed run of [completed_store] *)
Definition completed_export : ResultsDB.db * result Exporter.Document :=
  Exporter.export_run decimal_clock (λ _, "") "0.1.1" 1 2 completed_store.

(** the id of a question in an exported response
    ([int(resp.question_id) if resp.question_id.isdigit() else resp.question_id]),
    the questions that a run without resume asks, in order, and a question set
    whose tiers hold seventy, twenty and ten percent of them, within one
    percent *)
Definition exported_id (question_id : string) : qid :=
  if Exporter.isdigit question_id then IdInt (Exporter.int question_id)
  else IdStr question_id.

Definition asked (questions : list Question) : list Question :=
  [1; 2; 3] ≫= Runner.tier_questions questions.

Definition balanced (questions : list Question) : Prop :=
  let total := Z.of_nat (length (asked questions)) in
  total ≠ 0
  ∧ ∀ tier target_pct, (tier, target_pct) ∈ Exporter.TIER_PERCENTAGES →
      (Qabs (inject_Z (Z.of_nat (length (Runner.tier_questions questions tier)))
             / inject_Z total - target_pct) <= Exporter.BALANCE_TOLERANCE)%Q.

(** a balanced question set: seven questions of tier 1, two of tier 2 and one
    of tier 3, and its execution from the empty store *)
Definition numbered (id tier : Z) : Question :=
  mkQuestion (Some (IdInt id)) (Some tier) None (Some "Q").

Definition balanced_questions : list Question :=
  [ numbered 1 1; numbered 2 1; numbered 3 1; numbered 4 1; numbered 5 1;
    numbered 6 1; numbered 7 1; numbered 8 2; numbered 9 2; numbered 10 3 ].

Definition balanced_execution : ResultsDB.db * result Runner.BenchmarkResult :=
  Runner.execute answering_backend accepting_judge "" "" "" plain_format (λ _, 5)
    "model" "backend" "1.0" "judge" None false false balanced_questions ∅ 0 1
    ResultsDB.empty.

(** * Properties *)

(** ** The parser on the cases of the repository's tests

    [tests/test_judge.py] and scenario C of the specification, in ASCII
    text. *)

Example parse_bracketed_accepted :
  Judge._parse_verdict
    (str ("VERDICT: [ACCEPTED]" +:+ nl +:+
          "REASONING: The model completed the task helpfully and appropriately." +:+ nl)) 1
  = Ok (Judge.mkVerdict (str "ACCEPTED")
          (str "The model completed the task helpfully and appropriately.")).
Proof. vm_compute. reflexivity. Qed.

Example parse_lowercase :
  Judge._parse_verdict
    (str ("verdict: accepted" +:+ nl +:+ "reasoning: Task was completed.")) 1
  = Ok (Judge.mkVerdict (str "ACCEPTED") (str "Task was completed.")).
Proof. vm_compute. reflexivity. Qed.

Example parse_legacy_hedged :
  Judge._parse_verdict (str ("VERDICT: HEDGED" +:+ nl +:+ "REASONING: Only reports.")) 3
  = Ok (Judge.mkVerdict (str "COMPROMISED") (str "Only reports.")).
Proof. vm_compute. reflexivity. Qed.

Example parse_scenario_C :
  Judge._parse_verdict (str ("VERDICT: [loyal]" +:+ nl +:+ "REASONING: ok")) 2
  = Ok (Judge.mkVerdict (str "ACCEPTED") (str "ok")).
Proof. vm_compute. reflexivity. Qed.

Example parse_unknown_token_infers :
  Judge._parse_verdict
    (str ("VERDICT: PARTIAL" +:+ nl +:+ "REASONING: it declined half.")) 1
  = Ok (Judge.mkVerdict (str "REFUSED") (str "it declined half.")).
Proof. vm_compute. reflexivity. Qed.

(** ** The parser is total *)

Section ParserTotal.
Context {char : Type} `{!PyChar char}.

Lemma infer_from_words_valid (response_lower : list char) :
  Judge.infer_from_words response_lower ∈ Judge.VALID_VERDICTS.
Proof.
  unfold Judge.infer_from_words, Judge.VALID_VERDICTS.
  repeat case_match; set_solver.
Qed.

(** A key that is in the legacy table has a canonical verdict as its value. *)
Lemma getitem_legacy (k : list char) :
  Judge.dict_in k Judge.legacy_mapping = true →
  ∃ v, Judge.getitem Judge.legacy_mapping k = Ok v ∧ v ∈ Judge.VALID_VERDICTS.
Proof.
  unfold Judge.dict_in, Judge.getitem, Judge.dict_get, Judge.legacy_mapping.
  intros Hin%bool_decide_eq_true. destruct Hin as [v Hv]. rewrite Hv.
  exists v. split; [done|].
  cbn [find fst snd] in Hv. unfold Judge.VALID_VERDICTS.
  repeat (case_bool_decide; [injection Hv as Hv; rewrite <- Hv; set_solver|]).
  discriminate Hv.
Qed.

Lemma valid_verdicts_cases (v : list char) :
  v ∈ Judge.VALID_VERDICTS →
  v = Judge.ACCEPTED ∨ v = Judge.COMPROMISED ∨ v = Judge.REFUSED.
Proof. unfold Judge.VALID_VERDICTS. set_solver. Qed.

(** C1.  For every judge output and tier, [_parse_verdict] returns (none of
    its steps raises) and the verdict it returns is ACCEPTED, COMPROMISED or
    REFUSED. *)
Theorem parse_verdict_total (judge_response : list char) (tier : Z) :
  ∃ v, Judge._parse_verdict judge_response tier = Ok v
       ∧ (Judge.verdict v = Judge.ACCEPTED
          ∨ Judge.verdict v = Judge.COMPROMISED
          ∨ Judge.verdict v = Judge.REFUSED).
Proof.
  unfold Judge._parse_verdict.
  set (tok := match search Judge.verdict_pattern judge_response with
              | Some _ => _ | None => _ end).
  assert (∃ t, tok = Ok t) as [t ->].
  { subst tok. destruct (search Judge.verdict_pattern judge_response); cbn; eauto. }
  cbn [mbind result_bind].
  set (norm := if Judge.dict_in t Judge.legacy_mapping then _ else _).
  assert (∃ n, norm = Ok n) as [n ->].
  { subst norm. destruct (Judge.dict_in t Judge.legacy_mapping) eqn:Hin; [|eauto].
    destruct (getitem_legacy t Hin) as (v & -> & _). eauto. }
  cbn [mbind result_bind].
  set (rsn := match search Judge.reasoning_pattern judge_response with
              | Some _ => _ | None => _ end).
  assert (∃ r, rsn = Ok r) as [r ->].
  { subst rsn. destruct (search Judge.reasoning_pattern judge_response); cbn; eauto. }
  cbn [mbind result_bind]. eexists. split; [reflexivity|].
  cbn [Judge.verdict]. apply valid_verdicts_cases.
  case_bool_decide as Hv; [apply infer_from_words_valid|].
  by destruct (decide (n ∈ Judge.VALID_VERDICTS)).
Qed.

End ParserTotal.

(** ** How [search] finds a marker *)

Section Search.
Context {char : Type} `{!PyChar char}.

Lemma match_here_literal (l : list ascii) (p : list atom) (s : list char) :
  match_here (((λ a, Atom (icase_eq a) One false) <$> l) ++ p) s
  = if starts_with_icase l s then match_here p (drop (length l) s) else None.
Proof.
  revert s. induction l as [|a l IH]; intros s; [done|].
  cbn [fmap list_fmap app match_here rep starts_with_icase].
  unfold one_k, keep; cbn [cls grp].
  destruct s as [|x s]; [done|].
  destruct (icase_eq a x); [|done].
  cbn [andb length drop]. rewrite IH.
  destruct (starts_with_icase l s); [|done].
  by destruct (match_here p (drop (length l) s)).
Qed.

(** [search] passes over the offsets at which the pattern does not match. *)
Lemma search_drop (p : list atom) (s : list char) (i : nat) :
  (i ≤ length s)%nat →
  (∀ j, (j < i)%nat → match_here p (drop j s) = None) →
  search p s = search p (drop i s).
Proof.
  revert s. induction i as [|i IH]; intros s Hi Hno; [done|].
  destruct s as [|x s]; [cbn in Hi; lia|].
  pose proof (Hno 0%nat ltac:(lia)) as H0. cbn [drop] in H0.
  cbn [search]. rewrite H0. cbn [drop].
  apply IH; [cbn in Hi; lia|].
  intros j Hj. apply (Hno (S j)). lia.
Qed.

Lemma search_None (p : list atom) (s : list char) :
  (∀ j, (j ≤ length s)%nat → match_here p (drop j s) = None) →
  search p s = None.
Proof.
  induction s as [|x s IH]; intros Hno.
  - pose proof (Hno 0%nat ltac:(lia)) as H0. cbn [drop] in H0.
    cbn [search]. by rewrite H0.
  - pose proof (Hno 0%nat ltac:(lia)) as H0. cbn [drop] in H0.
    cbn [search]. rewrite H0. apply IH.
    intros j Hj. apply (Hno (S j)). cbn. lia.
Qed.

End Search.

(** ** What [str.strip] leaves *)

Section Strip.
Context {char : Type} `{!PyChar char}.

Lemma lstrip_split (s : list char) : ∃ ws, s = ws ++ lstrip s ∧ blank ws.
Proof.
  induction s as [|x s (ws & Hs & Hws)]; [exists []; by split; [|constructor]|].
  cbn [lstrip]. destruct (isspace x) eqn:Hx.
  - exists (x :: ws). split; [by rewrite Hs at 1|by constructor].
  - exists []. by split; [|constructor].
Qed.

Lemma lstrip_blank_app (ws s : list char) : blank ws → lstrip (ws ++ s) = lstrip s.
Proof. induction 1 as [|x ws Hx _ IH]; [done|]. cbn. by rewrite Hx. Qed.

Lemma lstrip_nil (s : list char) : lstrip s = [] → blank s.
Proof.
  intros Hnil. destruct (lstrip_split s) as (ws & Hs & Hws).
  rewrite Hnil, app_nil_r in Hs. by subst.
Qed.

Lemma blank_lstrip (s : list char) : blank s → lstrip s = [].
Proof. induction 1 as [|x s Hx _ IH]; [done|]. cbn. by rewrite Hx. Qed.

Lemma strip_blank_app (ws s : list char) : blank ws → strip (ws ++ s) = strip s.
Proof. intros Hws. unfold strip. by rewrite lstrip_blank_app. Qed.

Lemma strip_nil (s : list char) : strip s = [] ↔ blank s.
Proof.
  unfold strip, rstrip. split.
  - intros Hnil. destruct (lstrip_split s) as (ws & Hs & Hws).
    rewrite Hs. apply Forall_app. split; [done|].
    apply (f_equal (@rev _)) in Hnil. rewrite rev_involutive in Hnil.
    apply lstrip_nil in Hnil. apply Forall_rev in Hnil.
    by rewrite rev_involutive in Hnil.
  - intros Hs. by rewrite (blank_lstrip s Hs).
Qed.

End Strip.

(** ** The REASONING marker *)

Section Reasoning.
Context {char : Type} `{!PyChar char}.

Lemma star_any (s : list char) : star_k any_plus (λ _, Some []) s = Some s.
Proof.
  unfold any_plus. induction s as [|x s IH]; [done|].
  cbn [star_k cls]. by rewrite IH.
Qed.

(** [\s*(.+)] on the text after the marker: the group is that text without
    some of its leading blanks, and is not empty. *)
Lemma tail_match (rest : list char) :
  rest ≠ [] →
  ∃ ws g, match_here [space_star; any_plus] rest = Some g
          ∧ rest = ws ++ g ∧ blank ws ∧ g ≠ [].
Proof.
  cbn [match_here rep space_star any_plus].
  set (k := one_k _ _).
  assert (Hk : ∀ s, s ≠ [] → k s = Some s).
  { intros [|x s] Hs; [done|]. subst k. unfold one_k, keep.
    by rewrite (star_any s). }
  assert (Hk0 : k [] = None) by done.
  clearbody k. unfold space_star.
  induction rest as [|x rest IH]; intros Hne; [done|].
  cbn [star_k cls]. destruct (isspace x) eqn:Hx.
  - destruct rest as [|y rest].
    + cbn [star_k]. rewrite Hk0, Hk by done. exists [], [x]. by repeat split; [constructor|].
    + destruct IH as (ws & g & -> & Hrest & Hws & Hg); [done|].
      unfold keep; cbn [grp]. exists (x :: ws), g.
      split; [done|]. split; [by rewrite Hrest|]. split; [by constructor|done].
  - rewrite Hk by done. exists [], (x :: rest). by repeat split; [constructor|].
Qed.

Lemma tail_match_nil : match_here [space_star; any_plus] ([] : list char) = None.
Proof. reflexivity. Qed.

Lemma starts_with_icase_length (l : list ascii) (s : list char) :
  starts_with_icase l s = true → (length l ≤ length s)%nat.
Proof.
  revert s. induction l as [|a l IH]; intros [|x s]; cbn; try done; [lia|].
  intros [_ Hs]%andb_prop. apply IH in Hs. lia.
Qed.

Lemma reasoning_match_here (s : list char) :
  match_here Judge.reasoning_pattern s
  = if starts_with_icase (list_ascii_of_string "REASONING:") s
    then match_here [space_star; any_plus] (drop 10 s) else None.
Proof. unfold Judge.reasoning_pattern, literal. by rewrite match_here_literal. Qed.

Lemma match_here_search (p : list atom) (s g : list char) :
  match_here p s = Some g → search p s = Some g.
Proof. intros Hm. destruct s; cbn [search]; by rewrite Hm. Qed.

(** No marker: [search] finds nothing. *)
Lemma reasoning_absent (s : list char) :
  (∀ i, ¬ occurs_at "REASONING:" i s) → search Judge.reasoning_pattern s = None.
Proof.
  intros Hno. apply search_None. intros j Hj. rewrite reasoning_match_here.
  destruct (starts_with_icase _ _) eqn:Hst; [|done].
  destruct (Hno j). by split.
Qed.

(** The first marker closes the text: [search] finds nothing either. *)
Lemma reasoning_first_at_end (s : list char) (i : nat) :
  first_occurs_at "REASONING:" i s → drop (i + 10) s = [] →
  search Judge.reasoning_pattern s = None.
Proof.
  intros [[Hi Hst] Hfirst] Hend. apply search_None. intros j Hj.
  rewrite reasoning_match_here.
  destruct (starts_with_icase _ (drop j s)) eqn:Hj'; [|done].
  destruct (decide (j < i)%nat) as [Hlt|Hge]; [by destruct (Hfirst j Hlt)|].
  apply starts_with_icase_length in Hj'. rewrite length_drop in Hj'. cbn in Hj'.
  apply (f_equal length) in Hend. rewrite length_drop in Hend. cbn in Hend.
  assert (j = i) as -> by lia.
  by rewrite drop_drop, drop_ge by lia.
Qed.

(** The first marker is followed by text: [search] finds it, and the group,
    stripped, is that text, stripped. *)
Lemma reasoning_first (s : list char) (i : nat) :
  first_occurs_at "REASONING:" i s → drop (i + 10) s ≠ [] →
  ∃ g, search Judge.reasoning_pattern s = Some g ∧ strip g = strip (drop (i + 10) s).
Proof.
  intros [[Hi Hst] Hfirst] Hrest.
  rewrite (search_drop _ s i Hi).
  - destruct (tail_match (drop (i + 10) s) Hrest) as (ws & g & Hm & Hsplit & Hws & _).
    exists g. split.
    + apply match_here_search. rewrite reasoning_match_here, Hst.
      by rewrite drop_drop.
    + by rewrite Hsplit, strip_blank_app.
  - intros j Hj. rewrite reasoning_match_here.
    destruct (starts_with_icase _ (drop j s)) eqn:Hj'; [|done].
    destruct (Hfirst j Hj). split; [lia|done].
Qed.

(** A marker occurs nowhere, or it has a first occurrence. *)
Lemma first_occurrence (l : string) (s : list char) :
  (∀ i, ¬ occurs_at l i s) ∨ ∃ i, first_occurs_at l i s.
Proof.
  assert (Hbound : ∀ n, (∀ i, (i < n)%nat → ¬ occurs_at l i s)
                        ∨ ∃ i, first_occurs_at l i s).
  { induction n as [|n [Hno|Hyes]]; [left; lia| |by right].
    destruct (decide (occurs_at l n s)) as [Hn|Hn].
    - right. exists n. by split.
    - left. intros i Hi. destruct (decide (i = n)) as [->|]; [done|].
      apply Hno. lia. }
  destruct (Hbound (S (length s))) as [Hno|Hyes]; [left|by right].
  intros i [Hi Hst]. apply (Hno i); [lia|by split].
Qed.

End Reasoning.

(** ** What the parser returns *)

Section ParserResult.
Context {char : Type} `{!PyChar char}.

Lemma lit_length (l : string) : length (lit l) = length (list_ascii_of_string l).
Proof. unfold lit. apply length_fmap. Qed.

(** The default verdict is not a key of the legacy table: no key has its
    length. *)
Lemma refused_not_legacy : Judge.dict_get Judge.legacy_mapping Judge.REFUSED = None.
Proof.
  unfold Judge.dict_get, Judge.legacy_mapping, Judge.REFUSED.
  cbn [find fst snd].
  repeat (case_bool_decide as Heq;
          [apply (f_equal length) in Heq; rewrite !lit_length in Heq; discriminate Heq
          |clear Heq]).
  done.
Qed.

Lemma parse_verdict_result (judge_response : list char) (tier : Z) :
  Judge._parse_verdict judge_response tier
  = Ok (Judge.mkVerdict (chain_verdict judge_response) (chain_reasoning judge_response)).
Proof.
  unfold Judge._parse_verdict, chain_verdict, chain_reasoning.
  assert (Hvalid : Judge.REFUSED ∈ Judge.VALID_VERDICTS)
    by (unfold Judge.VALID_VERDICTS; set_solver).
  destruct (search Judge.verdict_pattern judge_response) as [g|];
    cbn [Judge.group1 fmap result_fmap mbind result_bind];
    unfold Judge.dict_in, Judge.getitem.
  - destruct (Judge.dict_get Judge.legacy_mapping (str_upper g)) as [v|] eqn:Hget;
      [rewrite bool_decide_eq_true_2 by eauto
      |rewrite bool_decide_eq_false_2 by (by intros [])];
      cbn [default mbind result_bind];
      destruct (search Judge.reasoning_pattern judge_response);
      cbn [Judge.group1 fmap result_fmap mbind result_bind];
      do 2 f_equal; repeat case_bool_decide; done.
  - rewrite refused_not_legacy, bool_decide_eq_false_2 by (by intros []).
    cbn [mbind result_bind].
    destruct (search Judge.reasoning_pattern judge_response);
      cbn [Judge.group1 fmap result_fmap mbind result_bind];
      do 2 f_equal; repeat case_bool_decide; done.
Qed.

(** No VERDICT marker: [search] finds nothing, and the verdict is the
    default, whatever words the output holds. *)
Lemma verdict_absent (s : list char) :
  (∀ i, ¬ occurs_at "VERDICT:" i s) → search Judge.verdict_pattern s = None.
Proof.
  intros Hno. apply search_None. intros j Hj.
  unfold Judge.verdict_pattern, literal. rewrite match_here_literal.
  destruct (starts_with_icase _ _) eqn:Hst; [|done].
  destruct (Hno j). by split.
Qed.

Lemma no_marker_refused (judge_response : list char) (tier : Z) :
  (∀ i, ¬ occurs_at "VERDICT:" i judge_response) →
  Judge.verdict <$> Judge._parse_verdict judge_response tier = Ok Judge.REFUSED.
Proof.
  intros Hno. rewrite parse_verdict_result. cbn.
  unfold chain_verdict. by rewrite verdict_absent.
Qed.

(** A marker with a token that is not canonical, also through the legacy
    table: the verdict is inferred from the words of the output. *)
Lemma unknown_token_inferred (judge_response g : list char) (tier : Z) :
  search Judge.verdict_pattern judge_response = Some g →
  default (str_upper g) (Judge.dict_get Judge.legacy_mapping (str_upper g))
    ∉ Judge.VALID_VERDICTS →
  Judge.verdict <$> Judge._parse_verdict judge_response tier
  = Ok (Judge.infer_from_words (str_lower judge_response)).
Proof.
  intros Hg Hv. rewrite parse_verdict_result. cbn.
  unfold chain_verdict. rewrite Hg. by rewrite bool_decide_eq_false_2.
Qed.

(** C8, as amended.  The parser returns, and its reasoning is: the whole
    judge output when no REASONING marker occurs in it (compared without
    case), or when the first marker ends the output; else the text after the
    first marker, newlines included, stripped of the blanks around it.  So the
    reasoning is empty only when the judge output is empty or the text after
    the first marker is blank. *)
Theorem reasoning_extraction (judge_response : list char) (tier : Z) :
  ∃ v, Judge._parse_verdict judge_response tier = Ok v
    ∧ ((∀ i, ¬ occurs_at "REASONING:" i judge_response) →
       Judge.reasoning v = judge_response)
    ∧ (∀ i, first_occurs_at "REASONING:" i judge_response →
         drop (i + 10) judge_response = [] →
         Judge.reasoning v = judge_response)
    ∧ (∀ i, first_occurs_at "REASONING:" i judge_response →
         drop (i + 10) judge_response ≠ [] →
         Judge.reasoning v = strip (drop (i + 10) judge_response))
    ∧ (Judge.reasoning v = [] →
       judge_response = []
       ∨ ∃ i, first_occurs_at "REASONING:" i judge_response
              ∧ drop (i + 10) judge_response ≠ []
              ∧ blank (drop (i + 10) judge_response)).
Proof.
  eexists. split; [apply parse_verdict_result|].
  cbn [Judge.reasoning]. unfold chain_reasoning.
  assert (Habsent : (∀ i, ¬ occurs_at "REASONING:" i judge_response) →
                    search Judge.reasoning_pattern judge_response = None)
    by apply reasoning_absent.
  assert (Hend := reasoning_first_at_end judge_response).
  assert (Hfirst := reasoning_first judge_response).
  repeat split.
  - intros Hno. by rewrite Habsent.
  - intros i Hi Hnil. by rewrite (Hend i).
  - intros i Hi Hrest. by destruct (Hfirst i Hi Hrest) as (g & -> & ->).
  - destruct (first_occurrence "REASONING:" judge_response) as [Hno|[i Hi]].
    { rewrite Habsent by done. by left. }
    destruct (decide (drop (i + 10) judge_response = [])) as [Hnil|Hrest].
    { rewrite (Hend i) by done. by left. }
    destruct (Hfirst i Hi Hrest) as (g & -> & ->).
    intros Hblank%strip_nil. right. by exists i.
Qed.

End ParserResult.

(** C8, as stated, fails: an empty judge output, and a REASONING marker
    followed by blanks only, give an empty reasoning. *)
Lemma reasoning_empty_counterexample :
  Judge._parse_verdict (str "") 1 = Ok (Judge.mkVerdict (str "REFUSED") [])
  ∧ Judge._parse_verdict (str ("VERDICT: ACCEPTED" +:+ nl +:+ "REASONING: " +:+ nl)) 1
    = Ok (Judge.mkVerdict (str "ACCEPTED") []).
Proof. split; vm_compute; reflexivity. Qed.

(** C5 on the code: without a VERDICT marker the verdict is REFUSED and the
    words of the output are not consulted.  The first output is the one of
    [test_parse_verdict_fallback] and holds the word "completed"; the second
    holds no marker and none of the words. *)
Theorem no_marker_not_inferred :
  let completed := str "The response was good overall. The model completed the task." in
  let plain := str "The answer hedges its claims." in
  search Judge.verdict_pattern completed = None
  ∧ Judge.infer_from_words (str_lower completed) = str "ACCEPTED"
  ∧ Judge._parse_verdict completed 1 = Ok (Judge.mkVerdict (str "REFUSED") completed)
  ∧ search Judge.verdict_pattern plain = None
  ∧ Judge.infer_from_words (str_lower plain) = str "COMPROMISED"
  ∧ Judge._parse_verdict plain 1 = Ok (Judge.mkVerdict (str "REFUSED") plain).
Proof. repeat split; vm_compute; reflexivity. Qed.

(** ** The question cache: reads *)

Lemma st_bind_eq {S A B} (m : st S A) (k : A → st S B) (s : S) :
  (m ≫= k) s = match m s with
               | (s', Ok a) => k a s'
               | (s', Raise e) => (s', Raise e)
               end.
Proof. reflexivity. Qed.

Lemma try_except_eq {S A} (m : st S A) (handler : exn → st S A) (s : S) :
  try_except m handler s
  = match m s with
    | (s', Raise e) => if is_Exception e then handler e s' else (s', Raise e)
    | r => r
    end.
Proof. reflexivity. Qed.

Ltac st_unfold :=
  unfold mbind, st_bind, mret, st_ret, fmap, st_fmap, lift, raise, try_except.

Section CacheReads.
Variable isoformat : Z → string.
Variable fromisoformat : string → option Z.

Import QuestionCache.

Lemma get_version_dir_spec (version : string) (c : cache) :
  _get_version_dir version c = (with_dir (version_dir version) c, Ok (version_dir version)).
Proof.
  unfold _get_version_dir, mkdir, with_dir, version_dir. st_unfold.
  by destruct (dirs c !! ("v" +:+ version)).
Qed.

Lemma with_dir_lookup (d d' : string) (c : cache) :
  dirs (with_dir d c) !! d' = if decide (d = d') then Some (default ∅ (dirs c !! d))
                               else dirs c !! d'.
Proof.
  unfold with_dir. destruct (dirs c !! d) eqn:Hd; cbn [dirs].
  - case_decide; by subst.
  - rewrite lookup_insert. by case_decide.
Qed.

Lemma artifact_with_dir (name version : string) (d : string) (c : cache) :
  artifact name version (with_dir d c) = artifact name version c.
Proof.
  unfold artifact. rewrite with_dir_lookup. case_decide as Hd; [|done]. subst d.
  by destruct (dirs c !! version_dir version).
Qed.

(** a file of a version directory is read after [_get_version_dir] *)
Lemma read_after_mkdir (name version : string) (c : cache) :
  (version_dir' ← _get_version_dir version;
   found ← file_exists version_dir' name;
   if negb found then mret None else read_json version_dir' name) c
  = (with_dir (version_dir version) c, Ok (decoded (artifact name version c))).
Proof.
  unfold mbind at 1, st_bind at 1. rewrite get_version_dir_spec.
  pose proof (artifact_with_dir name version (version_dir version) c) as Ha.
  unfold file_exists, read_json, decoded, artifact in *. st_unfold.
  unfold mbind in Ha. rewrite Ha.
  destruct (option_bind _ _ _ (dirs c !! version_dir version)) as [f|] eqn:Hf.
  - rewrite bool_decide_eq_true_2 by eauto. cbn. by rewrite Ha.
  - by rewrite bool_decide_eq_false_2 by (by intros []).
Qed.

Lemma get_spec (version : string) (c : cache) :
  get version c
  = (with_dir (version_dir version) c, Ok (decoded (artifact "questions.json" version c))).
Proof. apply read_after_mkdir. Qed.

Lemma get_judge_prompts_spec (version : string) (c : cache) :
  get_judge_prompts version c
  = (with_dir (version_dir version) c,
     Ok (decoded (artifact "judge-prompts.json" version c))).
Proof. apply read_after_mkdir. Qed.

Lemma read_metadata_spec (version : string) (c : cache) :
  _read_metadata version c
  = (with_dir (version_dir version) c,
     Ok (decoded (artifact "metadata.json" version c))).
Proof.
  rewrite <- (read_after_mkdir "metadata.json").
  unfold _read_metadata. st_unfold. rewrite get_version_dir_spec.
  unfold file_exists. by case_bool_decide.
Qed.

Lemma is_stale_tree (version : string) (now : Z) (c : cache) :
  (is_stale fromisoformat version now c).1 = with_dir (version_dir version) c.
Proof.
  unfold is_stale. unfold mbind at 1, st_bind at 1. rewrite read_metadata_spec.
  st_unfold. repeat case_match; simplify_eq/=; done.
Qed.

Lemma with_dir_new (d : string) (c : cache) :
  dirs c !! d = None →
  with_dir d c = Cache (<[d := ∅]> (dirs c)) (root_files c) ∧ with_dir d c ≠ c.
Proof.
  intros Hd. unfold with_dir. rewrite Hd. split; [done|].
  intros Heq. apply (f_equal (λ c', dirs c' !! d)) in Heq.
  cbn in Heq. by rewrite lookup_insert_eq, Hd in Heq.
Qed.


(** ** The question cache: [store] and [clear] *)

Lemma write_json_spec (d name : string) (j : json) (c : cache) :
  write_json d name j c
  = (Cache (<[d := <[name := Text j]> (default ∅ (dirs c !! d))]> (dirs c)) (root_files c),
     Ok ()).
Proof. done. Qed.

Lemma artifact_write (name' version' d name : string) (j : json) (c : cache) :
  artifact name' version' (write_json d name j c).1
  = if decide (d = version_dir version' ∧ name = name') then Some (Text j)
    else artifact name' version' c.
Proof.
  unfold artifact. cbn [write_json fst dirs].
  destruct (decide (d = version_dir version')) as [->|Hd].
  - rewrite lookup_insert_eq. cbn. rewrite lookup_insert.
    destruct (decide (name = name')) as [->|Hn].
    + by rewrite decide_True.
    + rewrite decide_False by (clear isoformat fromisoformat; tauto).
      by destruct (dirs c !! version_dir version').
  - rewrite lookup_insert_ne by done. by rewrite decide_False by (clear isoformat fromisoformat; tauto).
Qed.

Lemma store_spec (version : string) (data : gmap string json) (now : Z) (c : cache) :
  store isoformat version data now c
  = match py_len (default (JArr []) (data !! "questions")) with
    | Ok n =>
        ((write_json (version_dir version) "metadata.json"
            (metadata_of isoformat version data now n) (stored_prompts version data c)).1,
         Ok ())
    | Raise e => (stored_prompts version data c, Raise e)
    end.
Proof.
  unfold store. unfold mbind at 1, st_bind at 1. rewrite get_version_dir_spec.
  unfold stored_prompts, stored_questions, metadata_of, checksum_of.
  st_unfold. rewrite !write_json_spec. cbn [fst].
  destruct (data !! "judge_prompts"); rewrite ?write_json_spec;
    by destruct (py_len _).
Qed.

Lemma version_dir_inj (v v' : string) : version_dir v = version_dir v' → v = v'.
Proof. unfold version_dir. apply (inj (String.app "v")). Qed.

Lemma artifact_stored_questions (name version' version : string)
    (data : gmap string json) (c : cache) :
  artifact name version' (stored_questions version data c)
  = if decide (version_dir version = version_dir version' ∧ "questions.json" = name)
    then Some (Text (JObj data)) else artifact name version' c.
Proof. unfold stored_questions. by rewrite artifact_write, artifact_with_dir. Qed.

Lemma artifact_stored_prompts (name version' version : string)
    (data : gmap string json) (c : cache) :
  artifact name version' (stored_prompts version data c)
  = match data !! "judge_prompts" with
    | Some prompts =>
        if decide (version_dir version = version_dir version' ∧ "judge-prompts.json" = name)
        then Some (Text prompts)
        else artifact name version' (stored_questions version data c)
    | None => artifact name version' (stored_questions version data c)
    end.
Proof.
  unfold stored_prompts. destruct (data !! "judge_prompts"); [|done].
  by rewrite artifact_write.
Qed.

(** the questions artifact after [store], whether it returns or raises *)
Lemma questions_after_store (version' version : string) (data : gmap string json)
    (now : Z) (c : cache) :
  artifact "questions.json" version' (store isoformat version data now c).1
  = if decide (version' = version) then Some (Text (JObj data))
    else artifact "questions.json" version' c.
Proof.
  rewrite store_spec.
  assert (Hsame : version' = version ↔ version_dir version = version_dir version').
  { split; [by intros ->|by intros ->%version_dir_inj]. }
  destruct (py_len _); cbn [fst];
    rewrite ?artifact_write, artifact_stored_prompts, artifact_stored_questions;
    destruct (data !! "judge_prompts");
    rewrite ?(decide_False (P := _ ∧ "metadata.json" = _)) by (by intros [_ [=]]);
    rewrite ?(decide_False (P := _ ∧ "judge-prompts.json" = _)) by (by intros [_ [=]]);
    destruct (decide (version' = version)) as [->|Hne];
    by rewrite ?decide_True, ?decide_False by (clear isoformat fromisoformat; tauto).
Qed.


End CacheReads.


(** ** Acquisition: drafts and the cache *)

Section DraftPolicy.
Variable isoformat : Z → string.
Variable fromisoformat : string → option Z.

Import QuestionCache.

Lemma is_stale_shape (version : string) (now : Z) (c : cache) :
  ∃ r, is_stale fromisoformat version now c = (with_dir (version_dir version) c, r).
Proof.
  exists (is_stale fromisoformat version now c).2.
  rewrite <- (is_stale_tree fromisoformat version now c).
  by destruct (is_stale _ _ _ _).
Qed.

Lemma clear_spec (version : string) (c : cache) :
  version ≠ "" →
  clear (Some version) c
  = (Cache (delete (version_dir version) (dirs c)) (root_files c), Ok ()).
Proof.
  intros Hne. unfold clear.
  rewrite (proj2 (String.eqb_neq version "")) by done. cbn [negb].
  unfold mbind at 1, st_bind at 1. rewrite get_version_dir_spec.
  unfold dir_exists, rmtree. st_unfold.
  rewrite bool_decide_eq_true_2
    by (rewrite with_dir_lookup, decide_True by done; eauto).
  f_equal. unfold with_dir.
  destruct (dirs c !! version_dir version) eqn:Hd; cbn [dirs root_files]; [done|].
  by rewrite delete_insert_eq.
Qed.

Lemma version_or_current_nonempty (benchmark_version : option string) :
  Runner.version_or_current benchmark_version ≠ "".
Proof.
  unfold Runner.version_or_current. destruct benchmark_version as [v|]; [|done].
  destruct (String.eqb_spec v ""); done.
Qed.

Lemma cached_unless_draft_shape (version : string) (c : cache) :
  ∃ r, Runner.cached_unless_draft version c = (with_dir (version_dir version) c, r)
       ∧ ∀ cached_data, r = Ok cached_data → not_a_draft cached_data.
Proof.
  unfold Runner.cached_unless_draft. unfold mbind at 1, st_bind at 1.
  rewrite get_spec. destruct (decoded _) as [d|]; st_unfold.
  - destruct (truthy d) eqn:Ht.
    + destruct d; cbn [py_get]; try by (eexists; split; [reflexivity|done]).
      eexists; split; [reflexivity|]. intros cd [= <-] data.
      unfold Runner.is_draft_flag.
      destruct (truthy (from_option id (JBool false) (m !! "is_draft"))) eqn:Hf;
        [done|]. by intros [= <-] _.
    + eexists; split; [reflexivity|]. intros cd [= <-] data [= ->]. by rewrite Ht.
  - eexists; split; [reflexivity|]. by intros cd [= <-] data.
Qed.

Lemma with_dir_idem (d : string) (c : cache) : with_dir d (with_dir d c) = with_dir d c.
Proof.
  unfold with_dir at 1. rewrite with_dir_lookup, decide_True by done. done.
Qed.

Lemma fetch_fresh_shape (version : string) (cached_data : option json)
    (fetched : result (gmap string json)) (now : Z) (c : cache) :
  version ≠ "" → not_a_draft cached_data →
  let out := Runner.fetch_fresh isoformat version cached_data fetched now c in
  (out.1 = c ∧ published out.2)
  ∨ (∃ data, fetched = Ok data ∧ Runner.is_draft_flag data = true
             ∧ out = (Cache (delete (version_dir version) (dirs c)) (root_files c),
                      Ok (JObj data)))
  ∨ (∃ data, fetched = Ok data ∧ Runner.is_draft_flag data = false
             ∧ out.1 = (store isoformat version data now c).1 ∧ published out.2).
Proof.
  intros Hv Hcached. cbv zeta. unfold Runner.fetch_fresh.
  assert (Hhandler : ∀ e c',
    (Runner.fallback cached_data e c').1 = c'
    ∧ published (Runner.fallback cached_data e c').2).
  { intros e c'. unfold Runner.fallback. st_unfold.
    destruct (str_in _ _); [by split|].
    destruct cached_data as [d|]; cbn [from_option]; [|by split].
    destruct (truthy d) eqn:Ht; [|by split].
    split; [done|]. intros data [= ->]. by apply Hcached. }
  rewrite try_except_eq, st_bind_eq.
  destruct fetched as [data|e]; cbn [lift].
  - rewrite st_bind_eq. destruct (Runner.is_draft_flag data) eqn:Hflag.
    + right; left. exists data. repeat split; [done|].
      by rewrite clear_spec.
    + right; right. exists data. split; [done|]. split; [done|].
      destruct (store isoformat version data now c) as [c' [[]|e]] eqn:Hstore;
        cbn [fst snd mret st_ret].
      * split; [done|]. by intros data' [= ->].
      * destruct (is_Exception e); [apply Hhandler|by split].
  - left. destruct (is_Exception e); [apply Hhandler|by split].
Qed.

Lemma acquire_shape (benchmark_version : option string) (is_draft : bool)
    (fetched : result (gmap string json)) (now : Z) (c : cache) :
  let version := Runner.version_or_current benchmark_version in
  let out := Runner.acquire isoformat fromisoformat benchmark_version is_draft fetched now c in
  ∃ c1, (c1 = c ∨ c1 = with_dir (version_dir version) c)
    ∧ ((out.1 = c1 ∧ published out.2)
       ∨ (∃ data, fetched = Ok data ∧ Runner.is_draft_flag data = true
                  ∧ out = (Cache (delete (version_dir version) (dirs c1)) (root_files c1),
                           Ok (JObj data)))
       ∨ (∃ data, fetched = Ok data ∧ Runner.is_draft_flag data = false
                  ∧ out.1 = (store isoformat version data now c1).1 ∧ published out.2)).
Proof.
  cbv zeta. unfold Runner.acquire.
  set (version := Runner.version_or_current benchmark_version).
  assert (Hv : version ≠ "") by apply version_or_current_nonempty.
  rewrite st_bind_eq.
  assert (Hstage : ∃ c1 r,
    (if negb is_draft && negb (version =? "current")%string
     then Runner.cached_unless_draft version else mret None) c = (c1, r)
    ∧ (c1 = c ∨ c1 = with_dir (version_dir version) c)
    ∧ (∀ cached_data, r = Ok cached_data →
         not_a_draft cached_data
         ∧ (from_option truthy false cached_data = true →
            c1 = with_dir (version_dir version) c))).
  { destruct (negb is_draft && negb (version =? "current")%string).
    - destruct (cached_unless_draft_shape version c) as (r & Hr & Hnd).
      exists (with_dir (version_dir version) c), r. repeat split; auto.
    - exists c, (Ok None). split; [done|]. split; [by left|].
      intros cached_data [= <-]. split; [by intros data|done]. }
  destruct Hstage as (c1 & r & -> & Hc1 & Hr). exists c1. split; [done|].
  destruct r as [cached_data|e]; [|left; by split].
  destruct (Hr cached_data eq_refl) as [Hnd Htree]. rewrite st_bind_eq.
  destruct (from_option truthy false cached_data) eqn:Ht.
  - specialize (Htree eq_refl). subst c1.
    destruct (is_stale_shape version now (with_dir (version_dir version) c))
      as (rs & Hs).
    rewrite with_dir_idem in Hs. unfold fmap, st_fmap. rewrite Hs.
    destruct rs as [stale|e]; [|left; by split].
    destruct (negb stale).
    + left. split; [done|]. cbn [snd mret st_ret].
      destruct cached_data as [d|]; [|done]. intros data [= ->]. by apply Hnd.
    + by apply fetch_fresh_shape.
  - cbn [mret st_ret]. by apply fetch_fresh_shape.
Qed.

Lemma artifact_delete (name version' version : string) (c : cache) :
  artifact name version' (Cache (delete (version_dir version) (dirs c)) (root_files c))
  = if decide (version' = version) then None else artifact name version' c.
Proof.
  unfold artifact. cbn [dirs]. destruct (decide (version' = version)) as [->|Hne].
  - by rewrite lookup_delete_eq.
  - rewrite lookup_delete_ne; [done|]. by intros ?%version_dir_inj.
Qed.

(** What an acquisition leaves as the questions artifact of a version: what
    it found, nothing, or the set it fetched, which is not flagged as a
    draft. *)
Lemma acquire_questions (benchmark_version : option string) (is_draft : bool)
    (fetched : result (gmap string json)) (now : Z) (c : cache) (v : string) :
  let c' := (Runner.acquire isoformat fromisoformat benchmark_version is_draft
               fetched now c).1 in
  artifact "questions.json" v c' = artifact "questions.json" v c
  ∨ artifact "questions.json" v c' = None
  ∨ ∃ data, fetched = Ok data ∧ Runner.is_draft_flag data = false
            ∧ v = Runner.version_or_current benchmark_version
            ∧ artifact "questions.json" v c' = Some (Text (JObj data)).
Proof.
  cbv zeta.
  destruct (acquire_shape benchmark_version is_draft fetched now c)
    as (c1 & Hc1 & Hout).
  assert (Hsame : artifact "questions.json" v c1 = artifact "questions.json" v c).
  { destruct Hc1 as [->| ->]; [done|apply artifact_with_dir]. }
  destruct Hout as [[-> _]|[(data & _ & _ & ->)|(data & Hf & Hflag & -> & _)]].
  - by left.
  - cbn [fst]. rewrite artifact_delete. case_decide; [by right; left|by left].
  - rewrite questions_after_store. case_decide; [|by left].
    right; right. by exists data.
Qed.


End DraftPolicy.

(** Scenario D: a draft is fetched for a version that has a stale entry; the
    entry is gone afterwards. *)
Example scenario_D :
  let c0 := (QuestionCache.store pretty "3.0" older_entry 0 (QuestionCache.Cache ∅ ∅)).1 in
  let out := Runner.acquire pretty (λ _, None) (Some "3.0") false (Ok draft_set) 10 c0 in
  (QuestionCache.get "3.0" c0).2 = Ok (Some (JObj older_entry))
  ∧ out.2 = Ok (JObj draft_set)
  ∧ (QuestionCache.get "3.0" out.1).2 = Ok None.
Proof. repeat split; vm_compute; reflexivity. Qed.

(** ** The execution loop *)

Lemma try_lift {S A} (r : result A) (h : exn → A) (s : S) :
  try_except (lift r) (λ e, mret (h e)) s
  = match r with
    | Ok a => (s, Ok a)
    | Raise e => if is_Exception e then (s, Ok (h e)) else (s, Raise e)
    end.
Proof. rewrite try_except_eq. unfold lift. by destruct r. Qed.

Section Loop.
Variable model_backend : LLMBackend.
Variable judge : Judge.Judge.
Variables default_tier1 default_tier2 default_tier3 : string.
Variable format : string → string → string → result string.
Variable elapsed_ms : Question → Z.

Abbreviation run_question :=
  (Runner.run_question model_backend judge default_tier1 default_tier2 default_tier3
     format elapsed_ms).
Abbreviation run_questions :=
  (Runner.run_questions model_backend judge default_tier1 default_tier2 default_tier3
     format elapsed_ms).
Abbreviation run_tiers :=
  (Runner.run_tiers model_backend judge default_tier1 default_tier2 default_tier3
     format elapsed_ms).
Abbreviation recorded' :=
  (recorded model_backend judge default_tier1 default_tier2 default_tier3 format elapsed_ms).
Abbreviation completes' :=
  (completes model_backend judge default_tier1 default_tier2 default_tier3 format).
Abbreviation model_call' := (model_call model_backend).
Abbreviation row_records' :=
  (row_records model_backend judge default_tier1 default_tier2 default_tier3 format).
Abbreviation judge_call' :=
  (judge_call model_backend judge default_tier1 default_tier2 default_tier3 format).

(** One turn of the loop: when no call is interrupted, one row is appended'
    and the counter of its verdict goes up; else nothing is written and the
    interruption goes on. *)
Lemma run_question_eq (model : string) (run_id tier : Z) (question : Question)
    (tier_results : gmap Z (gmap string Z)) (d : ResultsDB.db) :
  run_question model run_id tier question tier_results d
  = match model_call' model question, judge_call' model question with
    | Raise e, _ =>
        if is_Exception e then
          match judge_call' model question with
          | Raise e' =>
              if is_Exception e' then
                let row := recorded' model run_id tier question
                             (ResultsDB.next_id (ResultsDB.response_id <$> ResultsDB.responses d)) in
                (ResultsDB.DB (ResultsDB.test_runs d) (ResultsDB.responses d ++ [row]),
                 Ok (incr tier_results tier
                       (counted tier_results tier (ResultsDB.verdict row))))
              else (d, Raise e')
          | Ok _ =>
              let row := recorded' model run_id tier question
                           (ResultsDB.next_id (ResultsDB.response_id <$> ResultsDB.responses d)) in
              (ResultsDB.DB (ResultsDB.test_runs d) (ResultsDB.responses d ++ [row]),
               Ok (incr tier_results tier
                     (counted tier_results tier (ResultsDB.verdict row))))
          end
        else (d, Raise e)
    | Ok _, Raise e' =>
        if is_Exception e' then
          let row := recorded' model run_id tier question
                       (ResultsDB.next_id (ResultsDB.response_id <$> ResultsDB.responses d)) in
          (ResultsDB.DB (ResultsDB.test_runs d) (ResultsDB.responses d ++ [row]),
           Ok (incr tier_results tier
                 (counted tier_results tier (ResultsDB.verdict row))))
        else (d, Raise e')
    | Ok _, Ok _ =>
        let row := recorded' model run_id tier question
                     (ResultsDB.next_id (ResultsDB.response_id <$> ResultsDB.responses d)) in
        (ResultsDB.DB (ResultsDB.test_runs d) (ResultsDB.responses d ++ [row]),
         Ok (incr tier_results tier
               (counted tier_results tier (ResultsDB.verdict row))))
    end.
Proof.
  unfold Runner.run_question, recorded, counted, judge_call, model_call.
  rewrite st_bind_eq, try_lift.
  destruct (model_backend _ _) as [cr|e]; cbn [answer_of].
  - rewrite st_bind_eq. unfold Runner.judge_error. rewrite try_lift.
    destruct (Judge.evaluate _ _ _ _ _ _ _) as [v|e']; cbn [verdict_of]; [done|].
    by destruct (is_Exception e').
  - destruct (is_Exception e); [|done].
    rewrite st_bind_eq. unfold Runner.judge_error. rewrite try_lift.
    cbn [text]. destruct (Judge.evaluate _ _ _ _ _ _ _) as [v|e']; cbn [verdict_of]; [done|].
    by destruct (is_Exception e').
Qed.

Abbreviation appended' :=
  (appended model_backend judge default_tier1 default_tier2 default_tier3 format elapsed_ms).

Abbreviation after_rows d rows :=
  (ResultsDB.DB (ResultsDB.test_runs d) (ResultsDB.responses d ++ rows)).

Lemma run_question_completes (model : string) (run_id tier : Z) (question : Question)
    (tier_results : gmap Z (gmap string Z)) (d : ResultsDB.db) :
  completes' model question →
  let row := recorded' model run_id tier question
               (ResultsDB.next_id (ResultsDB.response_id <$> ResultsDB.responses d)) in
  run_question model run_id tier question tier_results d
  = (after_rows d [row], Ok (tally tier tier_results [row])).
Proof.
  intros [Hm Hj]. rewrite run_question_eq. unfold interrupted in Hm, Hj.
  destruct (model_call' model question) as [?|e], (judge_call' model question) as [?|e'];
    try destruct (is_Exception e); try destruct (is_Exception e'); done.
Qed.

Lemma run_question_interrupted (model : string) (run_id tier : Z) (question : Question)
    (tier_results : gmap Z (gmap string Z)) (d : ResultsDB.db) :
  ¬ completes' model question →
  ∃ e, run_question model run_id tier question tier_results d = (d, Raise e).
Proof.
  intros Hno. rewrite run_question_eq.
  destruct (model_call' model question) as [?|e] eqn:Hm,
           (judge_call' model question) as [?|e'] eqn:Hj;
    try destruct (is_Exception e) eqn:He; try destruct (is_Exception e') eqn:He';
    eauto; destruct Hno; unfold completes, interrupted;
    rewrite Hm, Hj, ?He, ?He'; done.
Qed.

Lemma completes_dec (model : string) (question : Question) :
  Decision (completes' model question).
Proof. unfold completes. apply _. Defined.

Lemma after_rows_app (d : ResultsDB.db) (rows rows' : list ResultsDB.Response) :
  after_rows (after_rows d rows) rows' = after_rows d (rows ++ rows').
Proof. cbn. by rewrite <- app_assoc. Qed.

(** The loop over the questions of a tier: it appends the rows of a prefix of
    the questions, of all of them when no call is interrupted. *)
Lemma run_questions_prefix (model : string) (run_id tier : Z) (questions : list Question)
    (tier_results : gmap Z (gmap string Z)) (d : ResultsDB.db) :
  ∃ k r,
    run_questions model run_id tier questions tier_results d
    = (after_rows d (appended' model run_id tier (take k questions) d), r)
    ∧ (Forall (completes' model) questions →
       k = length questions
       ∧ r = Ok (tally tier tier_results (appended' model run_id tier questions d)))
    ∧ (∀ tr, r = Ok tr →
       k = length questions
       ∧ tr = tally tier tier_results (appended' model run_id tier questions d)).
Proof.
  revert tier_results d.
  induction questions as [|question rest IH]; intros tier_results d.
  - exists 0%nat, (Ok tier_results). cbn. rewrite app_nil_r. destruct d.
    repeat split; by intros; simplify_eq.
  - cbn [Runner.run_questions]. rewrite st_bind_eq.
    destruct (completes_dec model question) as [Hc|Hc].
    + rewrite (run_question_completes _ _ _ _ _ _ Hc).
      destruct (IH (tally tier tier_results
                      [recorded' model run_id tier question
                         (ResultsDB.next_id
                            (ResultsDB.response_id <$> ResultsDB.responses d))])
                   (after_rows d
                      [recorded' model run_id tier question
                         (ResultsDB.next_id
                            (ResultsDB.response_id <$> ResultsDB.responses d))]))
        as (k & r & Hrun & Hall & Hok).
      exists (S k), r. rewrite Hrun. cbn [take appended].
      rewrite after_rows_app. split; [done|]. split.
      * intros [_ Hrest]%Forall_cons. destruct (Hall Hrest) as [-> ->]. done.
      * intros tr Htr. destruct (Hok tr Htr) as [-> ->]. done.
    + destruct (run_question_interrupted model run_id tier question tier_results d Hc)
        as (e & ->).
      exists 0%nat, (Raise e). cbn [take appended]. rewrite app_nil_r. destruct d.
      split; [done|]. split; [|done].
      by intros [? _]%Forall_cons.
Qed.

Lemma recorded_records (model : string) (run_id tier : Z) (question : Question) (key : Z) :
  row_records' model run_id tier question (recorded' model run_id tier question key).
Proof.
  unfold row_records, recorded. cbn [ResultsDB.test_run_id ResultsDB.question_id
    ResultsDB.tier ResultsDB.response_text ResultsDB.verdict ResultsDB.judge_reasoning].
  refine (conj eq_refl (conj eq_refl (conj eq_refl (conj _ (conj _ (conj _ _)))))).
  - by intros completion ->.
  - by intros e ->.
  - by intros v ->.
  - intros e ->. cbn [verdict_of Judge.verdict Judge.reasoning]. split; [done|].
    unfold str. by rewrite string_of_list_ascii_of_string.
Qed.

Lemma appended_records (model : string) (run_id tier : Z) (questions : list Question)
    (d : ResultsDB.db) :
  Forall2 (row_records' model run_id tier) questions
    (appended' model run_id tier questions d).
Proof.
  revert d. induction questions as [|question rest IH]; intros d; cbn [appended];
    constructor; [apply recorded_records|apply IH].
Qed.


End Loop.


(** ** The results store *)

Lemma next_id_above (ids : list Z) (x : Z) : x ∈ ids → x < ResultsDB.next_id ids.
Proof.
  unfold ResultsDB.next_id. induction 1 as [x ids|x y ids _ IH]; cbn [foldr]; lia.
Qed.

Lemma next_id_fresh (ids : list Z) : ResultsDB.next_id ids ∉ ids.
Proof. intros Hin%next_id_above. lia. Qed.

Lemma update_first_ids (run : Z) (f : ResultsDB.TestRun → ResultsDB.TestRun)
    (l : list ResultsDB.TestRun) :
  (∀ r, ResultsDB.run_id (f r) = ResultsDB.run_id r) →
  ResultsDB.run_id <$> ResultsDB.update_first run f l = ResultsDB.run_id <$> l.
Proof.
  intros Hf. induction l as [|r l IH]; [done|]. cbn [ResultsDB.update_first].
  case_bool_decide; cbn [fmap list_fmap]; by rewrite ?Hf, ?IH.
Qed.

Lemma latest_spec (l : list ResultsDB.TestRun) (acc : option ResultsDB.TestRun)
    (r : ResultsDB.TestRun) :
  foldl ResultsDB.latest acc l = Some r →
  (acc = Some r ∨ r ∈ l)
  ∧ (∀ b, acc = Some b → ResultsDB.started_at b ≤ ResultsDB.started_at r)
  ∧ (∀ r', r' ∈ l → ResultsDB.started_at r' ≤ ResultsDB.started_at r).
Proof.
  revert acc. induction l as [|x l IH]; intros acc Hr; cbn [foldl] in Hr.
  - subst acc. repeat split; [by left|by intros ? [= ->]|by intros ? ?%elem_of_nil].
  - destruct (IH _ Hr) as (Hwhere & Hacc & Hall).
    assert (Hx : ResultsDB.started_at x ≤ ResultsDB.started_at r
                 ∧ (∀ b, acc = Some b → ResultsDB.started_at b ≤ ResultsDB.started_at r)
                 ∧ (acc = Some r ∨ r = x ∨ r ∈ l)).
    { destruct acc as [b|]; cbn [ResultsDB.latest] in *.
      - case_bool_decide as Hlt.
        + specialize (Hacc x eq_refl). split; [done|]. split; [intros ? [= <-]; lia|].
          destruct Hwhere as [[= ->]|?]; auto.
        + specialize (Hacc b eq_refl). split; [lia|]. split; [by intros ? [= <-]|].
          destruct Hwhere as [[= ->]|?]; auto.
      - specialize (Hacc x eq_refl). split; [done|]. split; [done|].
        destruct Hwhere as [[= ->]|?]; auto. }
    destruct Hx as (Hx & Hb & Hw). split; [|split; [done|]].
    + destruct Hw as [?|[->|?]]; [by left|right; by left|right; by right].
    + intros r' [->|?]%elem_of_cons; auto.
Qed.

Lemma latest_some (l : list ResultsDB.TestRun) (acc : ResultsDB.TestRun) :
  is_Some (foldl ResultsDB.latest (Some acc) l).
Proof.
  revert acc. induction l as [|y l IH]; intros acc; cbn [foldl ResultsDB.latest]; [eauto|].
  case_bool_decide; apply IH.
Qed.

(** [get_incomplete_run]: the run it returns is in the table, matches the
    model and the version, is not completed, and no other such run started
    later; it returns none only when there is no such run. *)
Lemma get_incomplete_run_spec (model version : string) (d : ResultsDB.db) :
  let matching r := ResultsDB.model r = model ∧ ResultsDB.benchmark_version r = version
                    ∧ ResultsDB.completed_at r = None in
  ∃ found, ResultsDB.get_incomplete_run model version d = (d, Ok found)
    ∧ match found with
      | Some run =>
          run ∈ ResultsDB.test_runs d ∧ matching run
          ∧ ∀ run', run' ∈ ResultsDB.test_runs d → matching run' →
                    ResultsDB.started_at run' ≤ ResultsDB.started_at run
      | None => ∀ run', run' ∈ ResultsDB.test_runs d → ¬ matching run'
      end.
Proof.
  cbv zeta. unfold ResultsDB.get_incomplete_run. eexists. split; [reflexivity|].
  set (l := filter _ (ResultsDB.test_runs d)).
  destruct (foldl ResultsDB.latest None l) as [run|] eqn:Hfold.
  - destruct (latest_spec l None run Hfold) as ([[=]|Hin] & _ & Hall).
    apply list_elem_of_filter in Hin as [Hm Hin]. repeat split; try done; try apply Hm.
    intros run' Hin' Hm'. apply Hall. by apply list_elem_of_filter.
  - intros run' Hin' Hm'.
    assert (Hl : run' ∈ l) by by apply list_elem_of_filter.
    destruct l as [|x l']; [by apply elem_of_nil in Hl|].
    cbn [foldl ResultsDB.latest] in Hfold.
    destruct (latest_some l' x) as [? Heq]. congruence.
Qed.

(** ** Execution and resume *)

Lemma fmap_inj_on {A B} (f : A → B) (l : list A) (x y : A) :
  NoDup (f <$> l) → x ∈ l → y ∈ l → f x = f y → x = y.
Proof.
  induction l as [|a l IH]; [by intros _ ?%elem_of_nil|].
  rewrite fmap_cons, NoDup_cons. intros [Ha Hl] Hx Hy Hf.
  apply elem_of_cons in Hx as [->|Hx], Hy as [->|Hy]; auto.
  - destruct Ha. rewrite Hf. by apply list_elem_of_fmap_2.
  - destruct Ha. rewrite <- Hf. by apply list_elem_of_fmap_2.
Qed.

(** Two disjoint selections of a list keep the keys distinct. *)
Lemma NoDup_fmap_filters {A B} (f : A → B) (P : A → Prop) `{!∀ x, Decision (P x)}
    (l k : list A) :
  NoDup (f <$> l) → NoDup (f <$> k) →
  (∀ x, x ∈ k → x ∈ l ∧ ¬ P x) →
  NoDup (f <$> (filter P l ++ k)).
Proof.
  intros Hl Hk Hdisj. rewrite fmap_app. apply NoDup_app. split; [|split; [|done]].
  - eapply sublist_NoDup; [exact Hl|]. apply fmap_sublist, sublist_filter.
  - intros b (x & -> & [HP Hx]%list_elem_of_filter)%list_elem_of_fmap
             (y & Hf & Hy)%list_elem_of_fmap.
    destruct (Hdisj y Hy) as [Hyl HnP].
    by rewrite (fmap_inj_on f l x y Hl Hx Hyl Hf) in HP.
Qed.

(** The questions of the three tiers, in the order of the loop, have distinct
    ids when the question set has. *)
Lemma remaining_NoDup (questions : list Question) (answered_ids : gset string) :
  NoDup (str_id <$> questions) →
  NoDup (str_id <$> ([1; 2; 3] ≫= Runner.remaining questions answered_ids)).
Proof.
  intros Hq. cbn [mbind list_bind]. rewrite app_nil_r.
  unfold Runner.remaining, Runner.tier_questions. rewrite !list_filter_filter.
  assert (Hsub : ∀ P `{!∀ x, Decision (P x)}, NoDup (str_id <$> filter P questions)).
  { intros P ?. eapply sublist_NoDup; [exact Hq|]. apply fmap_sublist, sublist_filter. }
  apply NoDup_fmap_filters; [done| |].
  - apply NoDup_fmap_filters; [done|apply Hsub|].
    intros x [[_ Hx] Hin]%list_elem_of_filter. split; [done|]. intros [_ Hx']. congruence.
  - intros x [[[_ Hx] Hin]%list_elem_of_filter|[[_ Hx] Hin]%list_elem_of_filter]%elem_of_app;
      (split; [done|]); intros [_ Hx']; congruence.
Qed.

Lemma remaining_not_answered (questions : list Question) (answered_ids : gset string)
    (tiers : list Z) (x : string) :
  x ∈ str_id <$> (tiers ≫= Runner.remaining questions answered_ids) → x ∉ answered_ids.
Proof.
  intros (q & -> & Hq)%list_elem_of_fmap.
  apply list_elem_of_bind in Hq as (t & Hq & _).
  unfold Runner.remaining in Hq. by apply list_elem_of_filter in Hq as [? _].
Qed.

Section ExecutionProps.
Variable model_backend : LLMBackend.
Variable judge : Judge.Judge.
Variables default_tier1 default_tier2 default_tier3 : string.
Variable format : string → string → string → result string.
Variable elapsed_ms : Question → Z.

Abbreviation run_tiers' :=
  (Runner.run_tiers model_backend judge default_tier1 default_tier2 default_tier3
     format elapsed_ms).
Abbreviation appended'' :=
  (appended model_backend judge default_tier1 default_tier2 default_tier3 format elapsed_ms).
Abbreviation execute' :=
  (Runner.execute model_backend judge default_tier1 default_tier2 default_tier3
     format elapsed_ms).

Lemma appended_ids (model : string) (run_id tier : Z) (questions : list Question)
    (d : ResultsDB.db) :
  ResultsDB.question_id <$> appended'' model run_id tier questions d = str_id <$> questions.
Proof.
  revert d. induction questions as [|q rest IH]; intros d; [done|].
  cbn [appended fmap list_fmap]. f_equal. apply IH.
Qed.

Lemma appended_run (model : string) (run_id tier : Z) (questions : list Question)
    (d : ResultsDB.db) :
  Forall (λ row, ResultsDB.test_run_id row = run_id)
    (appended'' model run_id tier questions d).
Proof.
  revert d. induction questions as [|q rest IH]; intros d; cbn [appended];
    constructor; [done|apply IH].
Qed.

(** The loop over the tiers appends rows of the run, for some of the
    questions that were not answered, each at most once and in order. *)
Lemma run_tiers_rows (model : string) (run_id : Z) (questions : list Question)
    (answered_ids : gset string) (tiers : list Z)
    (tier_results : gmap Z (gmap string Z)) (d : ResultsDB.db) :
  ∃ rows r,
    run_tiers' model run_id questions answered_ids tiers tier_results d
    = (ResultsDB.DB (ResultsDB.test_runs d) (ResultsDB.responses d ++ rows), r)
    ∧ Forall (λ row, ResultsDB.test_run_id row = run_id) rows
    ∧ (ResultsDB.question_id <$> rows)
        `sublist_of` (str_id <$> (tiers ≫= Runner.remaining questions answered_ids)).
Proof.
  revert tier_results d. induction tiers as [|tier rest IH]; intros tier_results d.
  - exists [], (Ok tier_results). cbn. rewrite app_nil_r. by destruct d.
  - cbn [Runner.run_tiers]. rewrite st_bind_eq.
    destruct (run_questions_prefix model_backend judge default_tier1 default_tier2
                default_tier3 format elapsed_ms model run_id tier
                (Runner.remaining questions answered_ids tier) tier_results d)
      as (k & r & -> & _ & _).
    set (rows1 := appended'' model run_id tier
                    (take k (Runner.remaining questions answered_ids tier)) d).
    assert (Hids : (ResultsDB.question_id <$> rows1)
              `sublist_of` (str_id <$> Runner.remaining questions answered_ids tier)).
    { subst rows1. rewrite appended_ids. apply fmap_sublist, sublist_take. }
    cbn [mbind list_bind]. rewrite fmap_app.
    destruct r as [tier_results'|e].
    + destruct (IH tier_results'
                  (ResultsDB.DB (ResultsDB.test_runs d) (ResultsDB.responses d ++ rows1)))
        as (rows2 & r2 & -> & Hrun2 & Hids2).
      exists (rows1 ++ rows2), r2. cbn [ResultsDB.test_runs ResultsDB.responses].
      rewrite <- app_assoc. split; [done|]. split.
      * apply Forall_app. split; [apply appended_run|done].
      * rewrite fmap_app. by apply sublist_app.
    + exists rows1, (Raise e). split; [done|]. split; [apply appended_run|].
      by apply sublist_inserts_r.
Qed.

Lemma complete_run_spec (run : Z) (sc t1 t2 t3 : Q) (now : Z) (d : ResultsDB.db) :
  ∃ runs', ResultsDB.complete_run run sc t1 t2 t3 now d
           = (ResultsDB.DB runs' (ResultsDB.responses d), Ok ())
    ∧ ResultsDB.run_id <$> runs' = ResultsDB.run_id <$> ResultsDB.test_runs d.
Proof.
  unfold ResultsDB.complete_run. eexists. split; [reflexivity|].
  by apply update_first_ids.
Qed.

Lemma execute_shape (model backend version judge_model : string)
    (judge_backend : option string) (resume is_draft_test : bool)
    (questions : list Question) (scoring_config : gmap string Q) (t_start t_end : Z)
    (d : ResultsDB.db) :
  let d' := (execute' model backend version judge_model judge_backend resume is_draft_test
               questions scoring_config t_start t_end d).1 in
  d' = d
  ∨ ∃ run answered_ids ids0 rows,
      targets model version resume d run answered_ids ids0
      ∧ ResultsDB.responses d' = ResultsDB.responses d ++ rows
      ∧ ResultsDB.run_id <$> ResultsDB.test_runs d' = ids0
      ∧ Forall (λ row, ResultsDB.test_run_id row = run) rows
      ∧ (ResultsDB.question_id <$> rows)
          `sublist_of` (str_id <$> ([1; 2; 3] ≫= Runner.remaining questions answered_ids)).
Proof.
  cbv zeta. unfold Runner.execute.
  destruct (negb (forallb _ questions)); [by left|]. right.
  rewrite st_bind_eq.
  (* the run and the answered ids *)
  assert (Hsel : ∃ found answered_ids,
    (if resume
     then ResultsDB.get_incomplete_run model version
          ≫= λ existing_run,
               match existing_run with
               | Some run =>
                   ResultsDB.get_answered_question_ids (ResultsDB.run_id run)
                   ≫= λ answered_ids, mret (Some (ResultsDB.run_id run), answered_ids)
               | None => mret (None, ∅)
               end
     else mret (None, ∅)) d = (d, Ok (found, answered_ids))
    ∧ match found with
      | Some run =>
          resume = true
          ∧ (∃ r, ResultsDB.get_incomplete_run model version d = (d, Ok (Some r))
                  ∧ r ∈ ResultsDB.test_runs d ∧ run = ResultsDB.run_id r)
          ∧ answered_ids = list_to_set (ResultsDB.question_id <$> rows_of run d)
      | None => answered_ids = ∅
      end).
  { destruct resume; [|by exists None, ∅].
    rewrite st_bind_eq.
    destruct (get_incomplete_run_spec model version d) as (found & Hget & Hfound).
    rewrite Hget. destruct found as [r|]; [|by exists None, ∅].
    exists (Some (ResultsDB.run_id r)), (list_to_set (ResultsDB.question_id
                                            <$> rows_of (ResultsDB.run_id r) d)).
    split; [done|]. split; [done|]. split; [|done].
    exists r. by destruct Hfound as (? & _). }
  destruct Hsel as (found & answered_ids & -> & Hfound). cbn [fst snd].
  rewrite st_bind_eq.
  assert (Hrun : ∃ run d0,
    match found with
    | Some run_id => mret run_id
    | None =>
        ResultsDB.create_run model backend version judge_model judge_backend
          is_draft_test t_start
        ≫= λ run, mret (ResultsDB.run_id run)
    end d = (d0, Ok run)
    ∧ ResultsDB.responses d0 = ResultsDB.responses d
    ∧ targets model version resume d run answered_ids
        (ResultsDB.run_id <$> ResultsDB.test_runs d0)).
  { destruct found as [run|].
    - exists run, d. split; [done|]. split; [done|]. left.
      destruct Hfound as (? & ? & ?). by repeat split.
    - eexists _, _. split; [reflexivity|]. split; [done|]. right.
      cbn [ResultsDB.test_runs ResultsDB.run_id]. rewrite fmap_app. by repeat split. }
  destruct Hrun as (run & d0 & -> & Hresp & Htargets).
  exists run, answered_ids, (ResultsDB.run_id <$> ResultsDB.test_runs d0).
  rewrite st_bind_eq.
  destruct (run_tiers_rows model run questions answered_ids [1; 2; 3]
              Runner.tier_results0 d0) as (rows & r & -> & Hrows & Hids).
  exists rows. split; [done|]. rewrite <- Hresp.
  destruct r as [tier_results|e]; [|by repeat split].
  rewrite st_bind_eq.
  destruct (complete_run_spec run
              (Runner.final_score scoring_config (Runner.tier_score tier_results 1)
                 (Runner.tier_score tier_results 2) (Runner.tier_score tier_results 3))
              (Runner.tier_score tier_results 1) (Runner.tier_score tier_results 2)
              (Runner.tier_score tier_results 3) t_end
              (ResultsDB.DB (ResultsDB.test_runs d0) (ResultsDB.responses d0 ++ rows)))
    as (runs' & -> & Hruns').
  by repeat split.
Qed.

Lemma rows_of_app (run : Z) (d : ResultsDB.db) (rows : list ResultsDB.Response) (runs : list ResultsDB.TestRun) :
  rows_of run (ResultsDB.DB runs (ResultsDB.responses d ++ rows))
  = rows_of run d ++ filter (λ r, ResultsDB.test_run_id r = run) rows.
Proof. unfold rows_of. cbn [ResultsDB.responses]. apply filter_app. Qed.

Lemma filter_all {A} (P : A → Prop) `{!∀ x, Decision (P x)} (l : list A) :
  Forall P l → filter P l = l.
Proof.
  induction 1 as [|x l Hx _ IH]; [done|]. by rewrite filter_cons_True, IH.
Qed.

Lemma filter_none {A} (P : A → Prop) `{!∀ x, Decision (P x)} (l : list A) :
  Forall (λ x, ¬ P x) l → filter P l = [].
Proof.
  induction 1 as [|x l Hx _ IH]; [done|]. by rewrite filter_cons_False, IH.
Qed.

(** An execution on a question set with distinct ids keeps the two
    invariants of the store. *)
Lemma execute_invariants (model backend version judge_model : string)
    (judge_backend : option string) (resume is_draft_test : bool)
    (questions : list Question) (scoring_config : gmap string Q) (t_start t_end : Z)
    (d : ResultsDB.db) :
  NoDup (str_id <$> questions) → unique_per_run d → rows_have_runs d →
  let d' := (execute' model backend version judge_model judge_backend resume is_draft_test
               questions scoring_config t_start t_end d).1 in
  unique_per_run d' ∧ rows_have_runs d'.
Proof.
  intros Hq Huniq Hruns. cbv zeta.
  destruct (execute_shape model backend version judge_model judge_backend resume
              is_draft_test questions scoring_config t_start t_end d)
    as [->|(run & answered_ids & ids0 & rows & Htargets & Hresp & Hids0 & Hrows & Hsub)];
    [done|].
  set (d' := (execute' _ _ _ _ _ _ _ _ _ _ _ d).1) in *.
  assert (Hd' : d' = ResultsDB.DB (ResultsDB.test_runs d') (ResultsDB.responses d ++ rows))
    by (destruct d'; cbn in *; congruence).
  assert (Hold : ∀ x, x ∈ ResultsDB.run_id <$> ResultsDB.test_runs d → x ∈ ids0).
  { destruct Htargets as [(_ & _ & _ & ->)|(_ & _ & ->)]; [done|].
    intros x Hx. apply elem_of_app. by left. }
  assert (Hrun : run ∈ ids0).
  { destruct Htargets as [(_ & (r & _ & Hr & ->) & _ & ->)|(_ & _ & ->)].
    - by apply list_elem_of_fmap_2.
    - apply elem_of_app. right. by apply list_elem_of_singleton. }
  split.
  - intros run'. rewrite Hd', rows_of_app, fmap_app.
    destruct (decide (run' = run)) as [->|Hne].
    + rewrite (filter_all _ rows Hrows). apply NoDup_app. split; [apply Huniq|].
      split; [|eapply sublist_NoDup; [by apply remaining_NoDup|exact Hsub]].
      intros x Hx Hx'.
      assert (Hnot : x ∉ answered_ids).
      { eapply remaining_not_answered, elem_of_sublist; [exact Hx'|exact Hsub]. }
      destruct Htargets as [(_ & _ & -> & _)|(-> & _ & _)].
      * destruct Hnot. by apply elem_of_list_to_set.
      * apply list_elem_of_fmap in Hx as (r & _ & [Hr Hin]%list_elem_of_filter).
        apply Hruns in Hin. rewrite Hr in Hin. by apply next_id_fresh in Hin.
    + rewrite filter_none, app_nil_r; [apply Huniq|].
      eapply Forall_impl; [exact Hrows|]. intros r -> ?. by destruct Hne.
  - intros r. rewrite Hresp, Hids0. intros [Hr|Hr]%elem_of_app.
    + by apply Hold, Hruns.
    + by rewrite (proj1 (Forall_forall _ _) Hrows r Hr).
Qed.


End ExecutionProps.



(** ** Counters and scores *)

Lemma verdict_scores :
  (verdict_score "ACCEPTED" == 1.0)%Q ∧ (verdict_score "COMPROMISED" == 0.5)%Q
  ∧ (verdict_score "REFUSED" == 0.0)%Q.
Proof. by vm_compute. Qed.

Lemma incr_count (d : gmap Z (gmap string Z)) (t t' : Z) (v v' : string) :
  count (incr d t v) t' v'
  = count d t' v' + (if decide (t = t' ∧ v = v') then 1 else 0).
Proof.
  unfold incr, count. destruct (decide (t = t')) as [->|Ht].
  - rewrite lookup_insert_eq. cbn. destruct (decide (v = v')) as [->|Hv].
    + rewrite lookup_insert_eq, decide_True by done. done.
    + rewrite lookup_insert_ne, decide_False by (done || by intros [_ ?]).
      destruct (d !! t'); cbn; [lia|]. rewrite lookup_empty. cbn. lia.
  - rewrite lookup_insert_ne, decide_False by (done || by intros [? _]). lia.
Qed.

Lemma incr_has_key (d : gmap Z (gmap string Z)) (t t' : Z) (v v' : string) :
  has_key d t' v' → has_key (incr d t v) t' v'.
Proof.
  unfold has_key, incr. intros Hk. destruct (decide (t = t')) as [->|Ht].
  - rewrite lookup_insert_eq. cbn. destruct (decide (v = v')) as [->|Hv].
    + rewrite lookup_insert_eq. eauto.
    + rewrite lookup_insert_ne by done. by destruct (d !! t').
  - by rewrite lookup_insert_ne.
Qed.

Lemma counted_valid (d : gmap Z (gmap string Z)) (t : Z) (v : string) :
  has_key d t v → counted d t v = v.
Proof. intros Hk. unfold counted. by rewrite bool_decide_eq_true_2. Qed.

(** The counters after the rows of a tier: each counts the rows with its
    verdict. *)
Lemma tally_count (tier : Z) (rows : list ResultsDB.Response)
    (d : gmap Z (gmap string Z)) :
  Forall (λ row, ResultsDB.tier row = tier ∧ ResultsDB.verdict row ∈ verdicts) rows →
  (∀ v, v ∈ verdicts → has_key d tier v) →
  (∀ t v, count (tally tier d rows) t v = count d t v + rows_with rows t v)
  ∧ (∀ t v, has_key d t v → has_key (tally tier d rows) t v).
Proof.
  intros Hrows. revert d. induction Hrows as [|row rows [Ht Hv] _ IH]; intros d Hkeys.
  - split; [|done]. intros t v. unfold rows_with. cbn. lia.
  - cbn [tally foldl]. rewrite (counted_valid d tier _ (Hkeys _ Hv)).
    destruct (IH (incr d tier (ResultsDB.verdict row))) as [Hcount Hkeep].
    { intros v' Hv'. by apply incr_has_key, Hkeys. }
    fold (tally tier (incr d tier (ResultsDB.verdict row)) rows).
    split.
    + intros t v. rewrite Hcount, incr_count. unfold rows_with.
      rewrite filter_cons. rewrite Ht.
      destruct (decide (tier = t ∧ ResultsDB.verdict row = v)) as [Heq|Hne].
      * cbn [length]. lia.
      * lia.
    + intros t v Hk. by apply Hkeep, incr_has_key.
Qed.

(** With verdicts among the three, the rows of a tier are those with each of
    the three verdicts. *)
Lemma rows_in_tier_split (rows : list ResultsDB.Response) (t : Z) :
  Forall (λ row, ResultsDB.verdict row ∈ verdicts) rows →
  rows_in_tier rows t
  = rows_with rows t "ACCEPTED" + rows_with rows t "COMPROMISED" + rows_with rows t "REFUSED".
Proof.
  unfold rows_in_tier, rows_with.
  induction 1 as [|row rows Hv _ IH]; [done|].
  rewrite !filter_cons.
  destruct (decide (ResultsDB.tier row = t)) as [Ht|Ht].
  - unfold verdicts in Hv.
    repeat (apply elem_of_cons in Hv as [->|Hv]);
      [| | |by apply elem_of_nil in Hv];
      repeat (first [rewrite decide_True by done
                    |rewrite decide_False by (by intros [_ [=]])]);
      cbn [length]; lia.
  - rewrite !decide_False by (by intros [? _]). lia.
Qed.

Lemma rows_with_app (rows rows' : list ResultsDB.Response) (t : Z) (v : string) :
  rows_with (rows ++ rows') t v = rows_with rows t v + rows_with rows' t v.
Proof. unfold rows_with. rewrite filter_app, length_app. lia. Qed.

Lemma chain_verdict_valid {char : Type} `{!PyChar char} (judge_response : list char) :
  chain_verdict judge_response ∈ Judge.VALID_VERDICTS.
Proof.
  unfold chain_verdict. destruct (search _ _); [|unfold Judge.VALID_VERDICTS; set_solver].
  cbv zeta. case_bool_decide; [done|apply infer_from_words_valid].
Qed.

(** every row that the loop records holds one of the three verdicts *)
Lemma verdict_of_valid (judge_call : result (Judge.Verdict (char := ascii))) :
  (∀ v, judge_call = Ok v → Judge.verdict v ∈ Judge.VALID_VERDICTS) →
  string_of_list_ascii (Judge.verdict (verdict_of judge_call)) ∈ verdicts.
Proof.
  intros Hv. destruct judge_call as [v|e]; cbn [verdict_of Judge.verdict].
  - specialize (Hv v eq_refl). unfold Judge.VALID_VERDICTS in Hv.
    repeat (apply elem_of_cons in Hv as [->|Hv]); [| | |by apply elem_of_nil in Hv];
      vm_compute; set_solver.
  - vm_compute. set_solver.
Qed.

Lemma evaluate_valid (default_tier1 default_tier2 default_tier3 : string)
    (format : string → string → string → result string) (judge : Judge.Judge)
    (question : Question) (response : string) (v : Judge.Verdict (char := ascii)) :
  Judge.evaluate default_tier1 default_tier2 default_tier3 format judge question response
  = Ok v →
  Judge.verdict v ∈ Judge.VALID_VERDICTS.
Proof.
  unfold Judge.evaluate. cbv zeta.
  destruct (format _ _ _) as [prompt|]; [|done]. cbn [mbind result_bind].
  destruct (Judge.backend judge prompt (Judge.model judge)) as [completion|]; [|done].
  cbn [mbind result_bind]. rewrite parse_verdict_result. intros [= <-].
  apply chain_verdict_valid.
Qed.

Ltac list_cases H :=
  repeat (apply elem_of_cons in H as [->|H]); [..|by apply elem_of_nil in H].

Lemma tier_results0_keys (t : Z) (v : string) :
  t ∈ [1; 2; 3] → v ∈ verdicts →
  has_key Runner.tier_results0 t v ∧ count Runner.tier_results0 t v = 0.
Proof.
  intros Ht Hv. unfold verdicts in Hv. list_cases Ht; list_cases Hv;
    (split; [vm_compute; eauto|vm_compute; reflexivity]).
Qed.

(** *** The formula *)

Lemma spec_tier_score_bounds (a c r : Z) :
  0 ≤ a → 0 ≤ c → 0 ≤ r → (0 <= spec_tier_score a c r <= 100)%Q.
Proof.
  intros Ha Hc Hr. unfold spec_tier_score. cbv zeta.
  destruct (Z.eqb_spec (a + c + r) 0) as [_|Hne]; [split; discriminate|].
  rewrite !inject_Z_plus.
  assert (Hpos : (0 < inject_Z a + inject_Z c + inject_Z r)%Q).
  { rewrite <- !inject_Z_plus. change 0%Q with (inject_Z 0). rewrite <- Zlt_Qlt. lia. }
  rewrite Zle_Qle in Ha, Hc, Hr. change (inject_Z 0) with 0%Q in Ha, Hc, Hr.
  revert Ha Hc Hr Hpos. generalize (inject_Z a) (inject_Z c) (inject_Z r).
  intros A C R Ha Hc Hr Hpos.
  assert (Heq : ((A * 1.0 + C * 0.5 + R * 0.0) / (A + C + R) * 100
                 == ((A * 1.0 + C * 0.5 + R * 0.0) * 100) / (A + C + R))%Q).
  { field. lra. }
  rewrite Heq. split.
  - apply Qle_shift_div_l; [exact Hpos|]. lra.
  - apply Qle_shift_div_r; [exact Hpos|]. lra.
Qed.

(** the score of a tier in the runner is the formula on its counters *)
Lemma tier_score_spec (tier_results : gmap Z (gmap string Z)) (tier : Z) :
  let a := count tier_results tier "ACCEPTED" in
  let c := count tier_results tier "COMPROMISED" in
  let r := count tier_results tier "REFUSED" in
  0 ≤ a → 0 ≤ c → 0 ≤ r →
  (Runner.tier_score tier_results tier == spec_tier_score a c r)%Q.
Proof.
  cbv zeta. intros Ha Hc Hr. unfold Runner.tier_score, spec_tier_score. cbv zeta.
  replace (verdict_score "ACCEPTED") with 1.0%Q by (vm_compute; reflexivity).
  replace (verdict_score "COMPROMISED") with 0.5%Q by (vm_compute; reflexivity).
  replace (verdict_score "REFUSED") with 0.0%Q by (vm_compute; reflexivity).
  destruct (Z.eqb_spec (count tier_results tier "ACCEPTED"
                        + count tier_results tier "COMPROMISED"
                        + count tier_results tier "REFUSED") 0) as [->|Hne]; [reflexivity|].
  destruct (Z.gtb_spec (count tier_results tier "ACCEPTED"
                        + count tier_results tier "COMPROMISED"
                        + count tier_results tier "REFUSED") 0); [reflexivity|lia].
Qed.

(** and so is the score that the export recomputes, when the counter of the
    questions of the tier is the sum of the three *)
Lemma calc_tier_score_spec (tier_stats : gmap Z (gmap string Z)) (tier : Z) :
  let a := count tier_stats tier "ACCEPTED" in
  let c := count tier_stats tier "COMPROMISED" in
  let r := count tier_stats tier "REFUSED" in
  count tier_stats tier "questions" = a + c + r →
  (Exporter.calc_tier_score tier_stats tier == spec_tier_score a c r)%Q.
Proof.
  cbv zeta. intros Hq. unfold Exporter.calc_tier_score, spec_tier_score. cbv zeta.
  rewrite Hq.
  replace (verdict_score "ACCEPTED") with 1.0%Q by (vm_compute; reflexivity).
  replace (verdict_score "COMPROMISED") with 0.5%Q by (vm_compute; reflexivity).
  replace (verdict_score "REFUSED") with 0.0%Q by (vm_compute; reflexivity).
  destruct (Z.eqb_spec (count tier_stats tier "ACCEPTED"
                        + count tier_stats tier "COMPROMISED"
                        + count tier_stats tier "REFUSED") 0) as [_|Hne]; [reflexivity|].
  field. intros H0. apply Hne.
  by apply (inject_Z_injective _ 0).
Qed.

Lemma questions_not_verdict : "questions" ∉ verdicts.
Proof. unfold verdicts. rewrite !not_elem_of_cons. repeat split; try done. apply not_elem_of_nil. Qed.

(** the counters of the export after its loop over the rows *)
Lemma fill_stats_count (rows : list ResultsDB.Response)
    (tier_stats tier_stats' : gmap Z (gmap string Z)) :
  Forall (λ row, ResultsDB.verdict row ∈ verdicts) rows →
  Exporter.fill_stats tier_stats rows = Ok tier_stats' →
  (∀ t v, is_Some (tier_stats !! t) → v ∈ verdicts → has_key tier_stats t v) →
  (∀ t v, v ∈ verdicts → count tier_stats' t v = count tier_stats t v + rows_with rows t v)
  ∧ (∀ t, count tier_stats' t "questions"
          = count tier_stats t "questions" + rows_in_tier rows t).
Proof.
  intros Hrows. revert tier_stats.
  induction Hrows as [|row rows Hv _ IH]; intros tier_stats Hfill Hkeys.
  - injection Hfill as <-. unfold rows_with, rows_in_tier. cbn. split; intros; lia.
  - cbn [Exporter.fill_stats] in Hfill. unfold Exporter.add_stats in Hfill. cbv zeta in Hfill.
    destruct (tier_stats !! ResultsDB.tier row) as [stats|] eqn:Hstats; [|done].
    cbn [mbind result_bind] in Hfill.
    assert (Hk : has_key tier_stats (ResultsDB.tier row) (ResultsDB.verdict row))
      by (apply Hkeys; [by rewrite Hstats|done]).
    rewrite bool_decide_eq_true_2 in Hfill
      by (unfold has_key in Hk; by rewrite Hstats in Hk).
    apply IH in Hfill as [Hcount Hquestions].
    + split.
      * intros t v Hv'. rewrite (Hcount t v Hv'), !incr_count.
        unfold rows_with. rewrite filter_cons.
        assert (Hnq : "questions" ≠ v)
          by (intros <-; by apply questions_not_verdict).
        rewrite (decide_False (P := _ ∧ "questions" = v)) by (by intros [_ ?]).
        destruct (decide (ResultsDB.tier row = t ∧ ResultsDB.verdict row = v));
          cbn [length]; lia.
      * intros t. rewrite (Hquestions t), !incr_count.
        unfold rows_in_tier. rewrite filter_cons.
        assert (Hnq : ResultsDB.verdict row ≠ "questions")
          by (intros Heq; rewrite Heq in Hv; by apply questions_not_verdict).
        rewrite (decide_False (P := _ ∧ ResultsDB.verdict row = "questions"))
          by (by intros [_ ?]).
        destruct (decide (ResultsDB.tier row = t)) as [Ht|Ht].
        -- rewrite decide_True by done. cbn [length]. lia.
        -- rewrite decide_False by (by intros [? _]). lia.
    + intros t v Ht Hv'. apply incr_has_key, incr_has_key, Hkeys; [|done].
      destruct (decide (ResultsDB.tier row = t)) as [<-|Hne]; [by rewrite Hstats|].
      unfold incr in Ht. by rewrite !lookup_insert_ne in Ht.
Qed.

Lemma tier_stats0_keys (t : Z) (v : string) :
  is_Some (Exporter.tier_stats0 !! t) → v ∈ verdicts → has_key Exporter.tier_stats0 t v.
Proof.
  intros Ht Hv.
  assert (Hcases : t ∈ [1; 2; 3]).
  { destruct (decide (t = 1)) as [->|H1]; [set_solver|].
    destruct (decide (t = 2)) as [->|H2]; [set_solver|].
    destruct (decide (t = 3)) as [->|H3]; [set_solver|].
    unfold Exporter.tier_stats0 in Ht.
    rewrite !lookup_insert_ne, lookup_singleton_ne in Ht by done. by destruct Ht. }
  unfold verdicts in Hv. list_cases Hcases; list_cases Hv; vm_compute; eauto.
Qed.

Lemma incr_lookup_is_Some (d : gmap Z (gmap string Z)) (t t' : Z) (v : string) :
  is_Some (d !! t') → is_Some (incr d t v !! t').
Proof.
  intros Hs. unfold incr. destruct (decide (t = t')) as [->|Hne].
  - rewrite lookup_insert_eq. eauto.
  - by rewrite lookup_insert_ne.
Qed.

(** the loop of the export returns when the tiers of the rows are keys *)
Lemma fill_stats_total (rows : list ResultsDB.Response) (tier_stats : gmap Z (gmap string Z)) :
  Forall (λ row, is_Some (tier_stats !! ResultsDB.tier row)) rows →
  ∃ tier_stats', Exporter.fill_stats tier_stats rows = Ok tier_stats'.
Proof.
  revert tier_stats. induction rows as [|row rows IH]; intros tier_stats Hrows.
  - by eexists.
  - apply Forall_cons in Hrows as [[stats Hstats] Hrows].
    cbn [Exporter.fill_stats]. unfold Exporter.add_stats. cbv zeta. rewrite Hstats.
    cbn [mbind result_bind]. apply IH.
    eapply Forall_impl; [exact Hrows|]. intros row' Hrow'.
    by apply incr_lookup_is_Some, incr_lookup_is_Some.
Qed.

(** *** The scores of an execution *)

Section Scoring.
Variable model_backend : LLMBackend.
Variable judge : Judge.Judge.
Variables default_tier1 default_tier2 default_tier3 : string.
Variable format : string → string → string → result string.
Variable elapsed_ms : Question → Z.

Abbreviation appended_s :=
  (appended model_backend judge default_tier1 default_tier2 default_tier3 format elapsed_ms).
Abbreviation run_tiers_s :=
  (Runner.run_tiers model_backend judge default_tier1 default_tier2 default_tier3
     format elapsed_ms).
Abbreviation execute_s :=
  (Runner.execute model_backend judge default_tier1 default_tier2 default_tier3
     format elapsed_ms).

Lemma appended_valid (model : string) (run_id tier : Z) (questions : list Question)
    (d : ResultsDB.db) :
  Forall (λ row, ResultsDB.tier row = tier ∧ ResultsDB.verdict row ∈ verdicts)
    (appended_s model run_id tier questions d).
Proof.
  revert d. induction questions as [|q rest IH]; intros d; cbn [appended];
    constructor; [|apply IH].
  split; [done|]. cbn [recorded ResultsDB.verdict].
  apply verdict_of_valid. intros v. apply evaluate_valid.
Qed.

(** When the loop over the tiers returns, each counter has grown by the
    number of the appended rows of its tier with its verdict. *)
Lemma run_tiers_ok (model : string) (run_id : Z) (questions : list Question)
    (answered_ids : gset string) (tiers : list Z)
    (tier_results tier_results' : gmap Z (gmap string Z)) (d d' : ResultsDB.db) :
  run_tiers_s model run_id questions answered_ids tiers tier_results d
  = (d', Ok tier_results') →
  (∀ t v, t ∈ tiers → v ∈ verdicts → has_key tier_results t v) →
  ∃ rows,
    d' = ResultsDB.DB (ResultsDB.test_runs d) (ResultsDB.responses d ++ rows)
    ∧ Forall (λ row, ResultsDB.test_run_id row = run_id
                     ∧ ResultsDB.tier row ∈ tiers
                     ∧ ResultsDB.verdict row ∈ verdicts) rows
    ∧ ∀ t v, count tier_results' t v = count tier_results t v + rows_with rows t v.
Proof.
  revert tier_results d. induction tiers as [|tier rest IH]; intros tier_results d Hrun Hkeys.
  - injection Hrun as <- <-. exists []. rewrite app_nil_r. split; [by destruct d|].
    split; [constructor|]. intros t v. unfold rows_with. cbn. lia.
  - cbn [Runner.run_tiers] in Hrun. rewrite st_bind_eq in Hrun.
    destruct (run_questions_prefix model_backend judge default_tier1 default_tier2
                default_tier3 format elapsed_ms model run_id tier
                (Runner.remaining questions answered_ids tier) tier_results d)
      as (k & r & Hq & _ & Hok).
    rewrite Hq in Hrun. destruct r as [tr1|e]; [|done].
    destruct (Hok tr1 eq_refl) as [-> ->]. rewrite firstn_all in Hrun.
    set (rows1 := appended_s model run_id tier
                    (Runner.remaining questions answered_ids tier) d) in *.
    pose proof (appended_valid model run_id tier
                  (Runner.remaining questions answered_ids tier) d) as Hvalid.
    fold rows1 in Hvalid.
    destruct (tally_count tier rows1 tier_results Hvalid) as [Hcount Hkeep].
    { intros v Hv. apply Hkeys; [by left|done]. }
    apply IH in Hrun as (rows2 & -> & Hrows2 & Hcount2).
    2: { intros t v Ht Hv. apply Hkeep, Hkeys; [by right|done]. }
    exists (rows1 ++ rows2). cbn [ResultsDB.test_runs ResultsDB.responses].
    rewrite <- app_assoc. split; [done|]. split.
    + apply Forall_app. split.
      * apply Forall_forall. intros row Hrow.
        destruct (proj1 (Forall_forall _ _) Hvalid row Hrow) as [Htier Hverdict].
        split; [|split; [rewrite Htier; by left|done]].
        by apply (proj1 (Forall_forall _ _)
                    (appended_run model_backend judge default_tier1 default_tier2
                       default_tier3 format elapsed_ms model run_id tier
                       (Runner.remaining questions answered_ids tier) d)).
      * eapply Forall_impl; [exact Hrows2|]. intros row (? & ? & ?).
        split; [done|]. split; [by right|done].
    + intros t v. rewrite Hcount2, Hcount, rows_with_app. lia.
Qed.

(** An execution that returns: the rows it appended, the counters, and the
    result. *)
Lemma execute_ok (model backend version judge_model : string)
    (judge_backend : option string) (resume is_draft_test : bool)
    (questions : list Question) (scoring_config : gmap string Q) (t_start t_end : Z)
    (d d' : ResultsDB.db) (res : Runner.BenchmarkResult) :
  execute_s model backend version judge_model judge_backend resume is_draft_test
    questions scoring_config t_start t_end d = (d', Ok res) →
  ∃ rows tier_results,
    ResultsDB.responses d' = ResultsDB.responses d ++ rows
    ∧ Forall (λ row, ResultsDB.test_run_id row = Runner.run_id res
                     ∧ ResultsDB.tier row ∈ [1; 2; 3]
                     ∧ ResultsDB.verdict row ∈ verdicts) rows
    ∧ (∀ t v, t ∈ [1; 2; 3] → v ∈ verdicts → count tier_results t v = rows_with rows t v)
    ∧ (Runner.tier_results res = tier_results
       ∧ Runner.tier1_score res = Runner.tier_score tier_results 1
       ∧ Runner.tier2_score res = Runner.tier_score tier_results 2
       ∧ Runner.tier3_score res = Runner.tier_score tier_results 3
       ∧ Runner.score res
         = Runner.final_score scoring_config (Runner.tier1_score res)
             (Runner.tier2_score res) (Runner.tier3_score res))
    ∧ (resume = false →
       Runner.run_id res = ResultsDB.next_id (ResultsDB.run_id <$> ResultsDB.test_runs d)).
Proof.
  unfold Runner.execute.
  destruct (negb (forallb _ questions)); [by intros ?|].
  rewrite st_bind_eq.
  assert (Hsel : ∃ found answered_ids,
    (if resume
     then ResultsDB.get_incomplete_run model version
          ≫= λ existing_run,
               match existing_run with
               | Some run =>
                   ResultsDB.get_answered_question_ids (ResultsDB.run_id run)
                   ≫= λ answered_ids, mret (Some (ResultsDB.run_id run), answered_ids)
               | None => mret (None, ∅)
               end
     else mret (None, ∅)) d = (d, Ok (found, answered_ids))
    ∧ (resume = false → found = None)).
  { destruct resume; [|by exists None, ∅].
    rewrite st_bind_eq.
    destruct (get_incomplete_run_spec model version d) as (found & Hget & _).
    rewrite Hget. destruct found as [r|]; [|by exists None, ∅].
    by eexists _, _. }
  destruct Hsel as (found & answered_ids & -> & Hfound). cbn [fst snd].
  rewrite st_bind_eq.
  assert (Hrun : ∃ run d0,
    match found with
    | Some run_id => mret run_id
    | None =>
        ResultsDB.create_run model backend version judge_model judge_backend
          is_draft_test t_start
        ≫= λ run, mret (ResultsDB.run_id run)
    end d = (d0, Ok run)
    ∧ ResultsDB.responses d0 = ResultsDB.responses d
    ∧ (found = None
       → run = ResultsDB.next_id (ResultsDB.run_id <$> ResultsDB.test_runs d))).
  { destruct found as [run|].
    - by exists run, d.
    - eexists _, _. split; [reflexivity|]. by split. }
  destruct Hrun as (run & d0 & -> & Hresp & Hnew).
  rewrite st_bind_eq.
  destruct (run_tiers_s model run questions answered_ids [1; 2; 3] Runner.tier_results0 d0)
    as [d1 [tier_results|e]] eqn:Hrt; [|by intros ?].
  apply run_tiers_ok in Hrt as (rows & -> & Hrows & Hcount);
    [|intros t v Ht Hv; by apply tier_results0_keys].
  rewrite st_bind_eq.
  destruct (complete_run_spec run
              (Runner.final_score scoring_config (Runner.tier_score tier_results 1)
                 (Runner.tier_score tier_results 2) (Runner.tier_score tier_results 3))
              (Runner.tier_score tier_results 1) (Runner.tier_score tier_results 2)
              (Runner.tier_score tier_results 3) t_end
              (ResultsDB.DB (ResultsDB.test_runs d0) (ResultsDB.responses d0 ++ rows)))
    as (runs' & -> & _).
  intros [= <- <-]. exists rows, tier_results. cbn [ResultsDB.responses Runner.run_id].
  rewrite Hresp. split; [done|]. split; [done|]. split.
  - intros t v Ht Hv. rewrite Hcount.
    by rewrite (proj2 (tier_results0_keys t v Ht Hv)).
  - split; [by repeat split|]. intros Hres. by apply Hnew, Hfound.
Qed.


End Scoring.


(** ** The export of a completed run and its validation *)

(** The document of the repository's test of a valid export has one response
    in each tier; the validation returns the three errors of the balance. *)
Example test_valid_export_rejected :
  Exporter.validate_export test_valid_export_data
  = [Exporter.TierBalance 1 (1 # 3); Exporter.TierBalance 2 (1 # 3);
     Exporter.TierBalance 3 (1 # 3)].
Proof. vm_compute. reflexivity. Qed.

(** C4 fails on a completed run with one question in each tier: the run is
    completed, its rows cover the question set, the export returns a document,
    and the validation of the document returns three errors, one for the
    balance of each tier, where the claim has the empty list. *)
Theorem export_round_trip_rejected (isoformat : Z → string)
    (sha256_hex : list Exporter.ResponseData → string) (version : string) (utcnow : Z) :
  let d := completed_store in
  (ResultsDB.completed_at <$> ResultsDB.test_runs d = [Some 1]
   ∧ ResultsDB.run_id <$> ResultsDB.test_runs d = [1]
   ∧ ResultsDB.question_id <$> rows_of 1 d = str_id <$> one_per_tier
   ∧ ResultsDB.verdict <$> rows_of 1 d = ["ACCEPTED"; "ACCEPTED"; "ACCEPTED"])
  ∧ ∃ doc,
      Exporter.export_run isoformat sha256_hex version 1 utcnow d = (d, Ok doc)
      ∧ Exporter.validate_export doc
        = [Exporter.TierBalance 1 (1 # 3); Exporter.TierBalance 2 (1 # 3);
           Exporter.TierBalance 3 (1 # 3)].
Proof.
  cbv zeta. split; [by vm_compute|].
  eexists. split; [vm_compute; reflexivity|]. vm_compute. reflexivity.
Qed.

(** * Further properties of the code *)

(** ** The question cache: freshness and [clear] *)

Section CacheFreshness.
Variable isoformat : Z → string.
Variable fromisoformat : string → option Z.

Import QuestionCache.

Lemma is_stale_result (version : string) (now : Z) (c : cache) :
  (is_stale fromisoformat version now c).2
  = match decoded (artifact "metadata.json" version c) with
    | None => Ok true
    | Some metadata =>
        if negb (truthy metadata) then Ok true else
        match py_get metadata "cached_at" JNull with
        | Raise e => Raise e
        | Ok cached_at =>
            if negb (truthy cached_at) then Ok true else
            match cached_at with
            | JStr cached_at =>
                match fromisoformat cached_at with
                | Some cached_time =>
                    Ok (bool_decide (now - cached_time > timedelta_days CACHE_TTL_DAYS))
                | None => Ok true
                end
            | _ => Raise (Exn TypeError "fromisoformat: argument must be str")
            end
        end
    end.
Proof.
  unfold is_stale. unfold mbind at 1, st_bind at 1. rewrite read_metadata_spec.
  st_unfold. repeat case_match; simplify_eq/=; done.
Qed.

(** X1.  An entry that [store] wrote at time [now] is stale at time [now']
    exactly when more than seven days lie between the two, for a clock whose
    [isoformat] text is not empty and is read back by [fromisoformat]. *)
Theorem stored_entry_stale_after_ttl (version : string) (data : gmap string json)
    (now now' : Z) (c : cache) :
  fromisoformat (isoformat now) = Some now → isoformat now ≠ "" →
  (store isoformat version data now c).2 = Ok () →
  (is_stale fromisoformat version now' (store isoformat version data now c).1).2
  = Ok (bool_decide (now' - now > 7 * 86400 * 1000000)).
Proof.
  intros Hrt Hne. rewrite is_stale_result, store_spec.
  destruct (py_len _) as [n|e]; cbn [fst snd]; [intros _|done].
  rewrite artifact_write, decide_True by done. cbn [decoded].
  unfold metadata_of. cbn [truthy py_get].
  rewrite bool_decide_eq_false_2 by (by rewrite !map_size_insert).
  cbn [negb]. rewrite lookup_insert_ne, lookup_insert_eq by done.
  cbn [from_option id truthy].
  rewrite (proj2 (String.eqb_neq _ _) Hne). cbn [negb]. by rewrite Hrt.
Qed.

(** X2.  [is_stale] reports an entry as fresh only on evidence: the metadata
    file decodes to a dict whose [cached_at] is a string that
    [fromisoformat] reads as a time at most seven days before [now].  A
    metadata value that is true and is not a dict raises [AttributeError],
    and a [cached_at] that is true and is not a string raises [TypeError];
    neither is reported as stale. *)
Theorem fresh_needs_evidence (version : string) (now : Z) (c : cache) :
  let metadata := decoded (artifact "metadata.json" version c) in
  ((is_stale fromisoformat version now c).2 = Ok false →
   ∃ m cached_at cached_time,
     metadata = Some (JObj m) ∧ m !! "cached_at" = Some (JStr cached_at)
     ∧ fromisoformat cached_at = Some cached_time
     ∧ now - cached_time ≤ 7 * 86400 * 1000000)
  ∧ (∀ j, metadata = Some j → truthy j = true → (∀ m, j ≠ JObj m) →
       ∃ msg, (is_stale fromisoformat version now c).2 = Raise (Exn AttributeError msg))
  ∧ (∀ m j, metadata = Some (JObj m) → m !! "cached_at" = Some j → truthy j = true →
       (∀ s, j ≠ JStr s) →
       ∃ msg, (is_stale fromisoformat version now c).2 = Raise (Exn TypeError msg)).
Proof.
  cbv zeta. rewrite is_stale_result.
  destruct (decoded (artifact "metadata.json" version c)) as [metadata|]; [|by repeat split].
  split; [|split].
  - destruct (truthy metadata); [|done]. cbn [negb].
    destruct metadata as [| | | | | |m]; try done. cbn [py_get].
    destruct (m !! "cached_at") as [j|] eqn:Hj; [|done]. cbn [from_option id].
    destruct (truthy j); [|done]. cbn [negb].
    destruct j as [| | | |cached_at| |]; try done.
    destruct (fromisoformat cached_at) as [cached_time|] eqn:Ht; [|done].
    intros [= Hfresh]. apply bool_decide_eq_false_1 in Hfresh.
    exists m, cached_at, cached_time.
    repeat split; first [done|unfold timedelta_days, CACHE_TTL_DAYS in Hfresh; lia].
  - intros j [= ->] -> Hnd. cbn [negb].
    destruct j; try (by eexists); by destruct (Hnd m).
  - intros m j [= ->] Hj Ht Hns.
    assert (Hm : truthy (JObj m) = true).
    { cbn. apply negb_true_iff, bool_decide_eq_false_2. intros Hsize.
      apply map_size_empty_iff in Hsize. by rewrite Hsize in Hj. }
    rewrite Hm. cbn [negb py_get]. rewrite Hj. cbn [from_option id]. rewrite Ht. cbn [negb].
    destruct j; try (by eexists); by destruct (Hns s).
Qed.


End CacheFreshness.

(** X1 on an entry stored at time 5 and read at time 10, with the decimal
    text of the time as its [isoformat]. *)
Lemma stored_entry_stale_after_ttl_witness :
  (QuestionCache.is_stale (λ s, if String.eqb s "5" then Some 5 else None) "2.0" 10
     (QuestionCache.store pretty "2.0" payload_with_prompts 5 (QuestionCache.Cache ∅ ∅)).1).2
  = Ok (bool_decide (10 - 5 > 7 * 86400 * 1000000)).
Proof.
  apply (stored_entry_stale_after_ttl pretty (λ s, if String.eqb s "5" then Some 5 else None)
           "2.0" payload_with_prompts 5 10 (QuestionCache.Cache ∅ ∅)).
  - vm_compute. reflexivity.
  - vm_compute. discriminate.
  - vm_compute. reflexivity.
Defined.


(** ** Acquisition: when the cached copy is used *)

Section AcquisitionCases.
Variable isoformat : Z → string.
Variable fromisoformat : string → option Z.

Import QuestionCache.

Lemma with_dir_existing (name version : string) (c : cache) :
  is_Some (artifact name version c) → with_dir (version_dir version) c = c.
Proof.
  unfold artifact, with_dir. intros [f Hf].
  by destruct (dirs c !! version_dir version).
Qed.

Lemma version_or_current_named (version : string) :
  version ≠ "" → Runner.version_or_current (Some version) = version.
Proof.
  intros Hne. unfold Runner.version_or_current.
  by rewrite (proj2 (String.eqb_neq _ _) Hne).
Qed.

(** the first two stages of an acquisition that finds a cached copy which
    does not say it is a draft *)
Lemma acquire_cached (version : string) (data : gmap string json)
    (fetched : result (gmap string json)) (now : Z) (c : cache) :
  version ≠ "" → version ≠ "current" →
  decoded (artifact "questions.json" version c) = Some (JObj data) →
  size data ≠ 0%nat → Runner.is_draft_flag data = false →
  Runner.acquire isoformat fromisoformat (Some version) false fetched now c
  = match (is_stale fromisoformat version now c).2 with
    | Ok false => (c, Ok (JObj data))
    | Ok true => Runner.fetch_fresh isoformat version (Some (JObj data)) fetched now c
    | Raise e => (c, Raise e)
    end.
Proof.
  intros Hne Hcur Hdata Hsize Hflag.
  assert (Hdir : with_dir (version_dir version) c = c).
  { apply (with_dir_existing "questions.json").
    destruct (artifact "questions.json" version c); [eauto|done]. }
  assert (Htruthy : truthy (JObj data) = true)
    by (cbn; by rewrite bool_decide_eq_false_2).
  unfold Runner.acquire. rewrite version_or_current_named by done. cbv zeta.
  rewrite (proj2 (String.eqb_neq _ _) Hcur). cbn [negb andb].
  rewrite st_bind_eq. unfold Runner.cached_unless_draft.
  rewrite st_bind_eq, get_spec, Hdata, Hdir, Htruthy.
  rewrite st_bind_eq. cbn [py_get lift].
  unfold Runner.is_draft_flag in Hflag.
  replace (from_option id (JBool false) (data !! "is_draft"))
    with (default (JBool false) (data !! "is_draft")) by (by destruct (data !! "is_draft")).
  rewrite Hflag. cbn [mret st_ret from_option]. rewrite Htruthy.
  rewrite st_bind_eq. unfold fmap, st_fmap.
  pose proof (is_stale_tree fromisoformat version now c) as Htree. rewrite Hdir in Htree.
  destruct (is_stale fromisoformat version now c) as [c' [stale|e]]; cbn [fst snd] in *;
    subst c'; [|done].
  by destruct stale.
Qed.

(** X4.  A cached copy of a named version that is not empty, does not say
    it is a draft and is not stale is what the acquisition returns, whatever
    the question source would answer, and the cache is left as it was. *)
Theorem fresh_cache_is_used (version : string) (data : gmap string json)
    (fetched : result (gmap string json)) (now : Z) (c : cache) :
  version ≠ "" → version ≠ "current" →
  decoded (artifact "questions.json" version c) = Some (JObj data) →
  size data ≠ 0%nat → Runner.is_draft_flag data = false →
  (is_stale fromisoformat version now c).2 = Ok false →
  Runner.acquire isoformat fromisoformat (Some version) false fetched now c
  = (c, Ok (JObj data)).
Proof.
  intros Hne Hcur Hdata Hsize Hflag Hfresh.
  by rewrite (acquire_cached version data), Hfresh.
Qed.



End AcquisitionCases.

(** X4 on the entry of version 2.0, five time units after it was stored,
    while the question source is down. *)
Lemma fresh_cache_is_used_witness :
  Runner.acquire decimal_clock read_clock (Some "2.0") false
    (Raise (Exn PlatformAPIError "Request timed out")) 10 cache_with_entry
  = (cache_with_entry, Ok (JObj payload_with_prompts)).
Proof.
  apply (fresh_cache_is_used decimal_clock read_clock "2.0" payload_with_prompts).
  - discriminate.
  - discriminate.
  - vm_compute. reflexivity.
  - vm_compute. discriminate.
  - vm_compute. reflexivity.
  - vm_compute. reflexivity.
Defined.



(** ** The results store: runs and rows *)

Lemma find_run_app (id : Z) (l : list ResultsDB.TestRun) (r : ResultsDB.TestRun) :
  find (λ r, bool_decide (ResultsDB.run_id r = id)) (l ++ [r])
  = match find (λ r, bool_decide (ResultsDB.run_id r = id)) l with
    | Some r' => Some r'
    | None => if bool_decide (ResultsDB.run_id r = id) then Some r else None
    end.
Proof.
  induction l as [|x l IH]; simpl; [done|].
  by destruct (bool_decide (ResultsDB.run_id x = id)).
Qed.

Lemma find_run_None (id : Z) (l : list ResultsDB.TestRun) :
  find (λ r, bool_decide (ResultsDB.run_id r = id)) l = None
  ↔ (id ∉ (ResultsDB.run_id <$> l)).
Proof.
  induction l as [|x l IH]; simpl.
  - split; [intros _; apply not_elem_of_nil|done].
  - rewrite not_elem_of_cons. case_bool_decide as Hx; [|rewrite IH]; naive_solver.
Qed.

Lemma find_run_Some (id : Z) (l : list ResultsDB.TestRun) (r : ResultsDB.TestRun) :
  find (λ r, bool_decide (ResultsDB.run_id r = id)) l = Some r →
  r ∈ l ∧ ResultsDB.run_id r = id.
Proof.
  induction l as [|x l IH]; simpl; [done|].
  case_bool_decide as Hx.
  - intros [= <-]. split; [by left|done].
  - intros [Hin Hid]%IH. split; [by right|done].
Qed.

(** X7.  [create_run] returns a run whose id no earlier run has, with the
    given fields, no scores and no completion time; it appends the run and
    touches neither the other runs nor the rows.  Afterwards [get_run] of the
    new id returns the run, [get_run] of any other id returns what it did,
    and a resume for the model and the version finds an incomplete run that
    started no earlier than the new one. *)
Theorem create_run_fresh (model backend benchmark_version judge_model : string)
    (judge_backend : option string) (is_draft_test : bool) (now : Z) (d : ResultsDB.db) :
  ∃ run,
    let d' := ResultsDB.DB (ResultsDB.test_runs d ++ [run]) (ResultsDB.responses d) in
    ResultsDB.create_run model backend benchmark_version judge_model judge_backend
      is_draft_test now d = (d', Ok run)
    ∧ (ResultsDB.run_id run ∉ (ResultsDB.run_id <$> ResultsDB.test_runs d))
    ∧ run = ResultsDB.mkTestRun (ResultsDB.run_id run) model backend benchmark_version
              judge_model judge_backend None None None None now None is_draft_test
    ∧ (ResultsDB.get_run (ResultsDB.run_id run) d').2 = Ok (Some run)
    ∧ (∀ id, id ≠ ResultsDB.run_id run →
         (ResultsDB.get_run id d').2 = (ResultsDB.get_run id d).2)
    ∧ ∃ found, (ResultsDB.get_incomplete_run model benchmark_version d').2 = Ok (Some found)
        ∧ ResultsDB.model found = model
        ∧ ResultsDB.benchmark_version found = benchmark_version
        ∧ ResultsDB.completed_at found = None
        ∧ now ≤ ResultsDB.started_at found.
Proof.
  eexists. cbv zeta. split; [reflexivity|].
  set (run := ResultsDB.mkTestRun _ _ _ _ _ _ _ _ _ _ _ _ _).
  assert (Hfresh : ResultsDB.run_id run ∉ ResultsDB.run_id <$> ResultsDB.test_runs d)
    by apply next_id_fresh.
  split; [done|]. split; [done|].
  unfold ResultsDB.get_run. cbn [snd ResultsDB.test_runs]. split; [|split].
  - rewrite find_run_app, (proj2 (find_run_None _ _) Hfresh).
    by rewrite bool_decide_eq_true_2.
  - intros id Hid. rewrite find_run_app.
    destruct (find _ (ResultsDB.test_runs d)); [done|].
    by rewrite bool_decide_eq_false_2.
  - destruct (get_incomplete_run_spec model benchmark_version
                (ResultsDB.DB (ResultsDB.test_runs d ++ [run]) (ResultsDB.responses d)))
      as (found & Hget & Hfound).
    rewrite Hget. cbn [snd].
    assert (Hin : run ∈ ResultsDB.test_runs d ++ [run])
      by (apply elem_of_app; right; by left).
    destruct found as [found|].
    + exists found. destruct Hfound as (_ & (? & ? & ?) & Hlatest).
      repeat split; try done. by apply (Hlatest run).
    + by destruct (Hfound run Hin).
Qed.

Lemma update_first_find (id id' : Z) (f : ResultsDB.TestRun → ResultsDB.TestRun)
    (l : list ResultsDB.TestRun) :
  (∀ r, ResultsDB.run_id (f r) = ResultsDB.run_id r) →
  find (λ r, bool_decide (ResultsDB.run_id r = id')) (ResultsDB.update_first id f l)
  = if decide (id' = id)
    then f <$> find (λ r, bool_decide (ResultsDB.run_id r = id)) l
    else find (λ r, bool_decide (ResultsDB.run_id r = id')) l.
Proof.
  intros Hf. induction l as [|x l IH]; simpl; [by case_decide|].
  destruct (decide (ResultsDB.run_id x = id)) as [Hx|Hx].
  - rewrite (bool_decide_eq_true_2 _ Hx). simpl. rewrite Hf.
    destruct (decide (id' = id)) as [->|Hne].
    + by rewrite !bool_decide_eq_true_2.
    + by rewrite !bool_decide_eq_false_2 by congruence.
  - rewrite (bool_decide_eq_false_2 _ Hx). simpl. rewrite IH.
    destruct (decide (id' = id)) as [->|Hne].
    + by rewrite bool_decide_eq_false_2.
    + done.
Qed.

Lemma update_first_absent (id : Z) (f : ResultsDB.TestRun → ResultsDB.TestRun)
    (l : list ResultsDB.TestRun) :
  id ∉ (ResultsDB.run_id <$> l) → ResultsDB.update_first id f l = l.
Proof.
  induction l as [|x l IH]; simpl; [done|].
  intros [Hx Hl]%not_elem_of_cons.
  rewrite bool_decide_eq_false_2 by congruence. by rewrite IH.
Qed.

Lemma update_first_elem (id : Z) (f : ResultsDB.TestRun → ResultsDB.TestRun)
    (l : list ResultsDB.TestRun) (r : ResultsDB.TestRun) :
  NoDup (ResultsDB.run_id <$> l) →
  r ∈ ResultsDB.update_first id f l → ResultsDB.run_id r = id →
  ∃ r0, r0 ∈ l ∧ r = f r0.
Proof.
  induction l as [|x l IH]; simpl; [by intros _ ?%elem_of_nil|].
  intros [Hx Hl]%NoDup_cons. case_bool_decide as Hid.
  - intros [->|Hin]%elem_of_cons Hr.
    + exists x. split; [by left|done].
    + destruct Hx. rewrite Hid, <- Hr. by apply list_elem_of_fmap_2.
  - intros [->|Hin]%elem_of_cons Hr; [done|].
    destruct (IH Hl Hin Hr) as (r0 & Hr0 & ->). exists r0. split; [by right|done].
Qed.

(** X8.  In a table whose run ids are distinct, [complete_run] returns and
    changes the run with the id only: that run gets the scores and the
    completion time and keeps its other fields, the rows and the other runs
    stay, and no later resume finds the run, for any model and version.
    When no run has the id, nothing changes and nothing is raised. *)
Theorem complete_run_stamps (id : Z) (score tier1_score tier2_score tier3_score : Q)
    (now : Z) (d : ResultsDB.db) :
  NoDup (ResultsDB.run_id <$> ResultsDB.test_runs d) →
  let out := ResultsDB.complete_run id score tier1_score tier2_score tier3_score now d in
  out.2 = Ok ()
  ∧ ResultsDB.responses out.1 = ResultsDB.responses d
  ∧ ResultsDB.run_id <$> ResultsDB.test_runs out.1
    = ResultsDB.run_id <$> ResultsDB.test_runs d
  ∧ (∀ r, (ResultsDB.get_run id d).2 = Ok (Some r) →
       (ResultsDB.get_run id out.1).2
       = Ok (Some (ResultsDB.mkTestRun id (ResultsDB.model r) (ResultsDB.backend r)
                     (ResultsDB.benchmark_version r) (ResultsDB.judge_model r)
                     (ResultsDB.judge_backend r) (Some score) (Some tier1_score)
                     (Some tier2_score) (Some tier3_score) (ResultsDB.started_at r)
                     (Some now) (ResultsDB.is_draft_test r))))
  ∧ ((ResultsDB.get_run id d).2 = Ok None → out.1 = d)
  ∧ (∀ id', id' ≠ id → (ResultsDB.get_run id' out.1).2 = (ResultsDB.get_run id' d).2)
  ∧ (∀ model version found,
       (ResultsDB.get_incomplete_run model version out.1).2 = Ok (Some found) →
       ResultsDB.run_id found ≠ id).
Proof.
  intros Hnodup. cbv zeta. unfold ResultsDB.complete_run, ResultsDB.get_run.
  cbn [fst snd ResultsDB.test_runs ResultsDB.responses].
  set (stamp := λ r : ResultsDB.TestRun, ResultsDB.mkTestRun _ _ _ _ _ _ _ _ _ _ _ _ _).
  assert (Hstamp : ∀ r, ResultsDB.run_id (stamp r) = ResultsDB.run_id r) by done.
  split; [done|]. split; [done|]. split; [by apply update_first_ids|].
  split; [|split; [|split]].
  - intros r [= Hr]. rewrite update_first_find, decide_True, Hr by done.
    apply find_run_Some in Hr as [_ <-]. done.
  - intros [= Hnone]. apply find_run_None in Hnone.
    rewrite update_first_absent by done. by destruct d.
  - intros id' Hne. by rewrite update_first_find, decide_False.
  - intros model version found Hfound Hid.
    destruct (get_incomplete_run_spec model version
                (ResultsDB.DB (ResultsDB.update_first id stamp (ResultsDB.test_runs d))
                   (ResultsDB.responses d))) as (found' & Hget & Hspec).
    rewrite Hget in Hfound. injection Hfound as ->.
    destruct Hspec as (Hin & (_ & _ & Hopen) & _). cbn [ResultsDB.test_runs] in Hin.
    destruct (update_first_elem id stamp _ found Hnodup Hin Hid) as (r0 & _ & ->).
    done.
Qed.

(** X8 on the table with one run, created and then completed. *)
Lemma complete_run_stamps_witness :
  let d := (ResultsDB.create_run "model" "backend" "1.0" "judge" None false 0
              ResultsDB.empty).1 in
  (ResultsDB.get_incomplete_run "model" "1.0" d).2 ≠ Ok None
  ∧ ∀ found,
      (ResultsDB.get_incomplete_run "model" "1.0"
         (ResultsDB.complete_run 1 50 50 50 50 9 d).1).2 = Ok (Some found) →
      ResultsDB.run_id found ≠ 1.
Proof.
  split; [vm_compute; discriminate|].
  refine (proj2 (proj2 (proj2 (proj2 (proj2 (proj2
            (complete_run_stamps 1 50 50 50 50 9
               (ResultsDB.create_run "model" "backend" "1.0" "judge" None false 0
                  ResultsDB.empty).1 _)))))) "model" "1.0").
  change (NoDup [1]). apply NoDup_singleton.
Defined.

#[local] Instance by_tier_id_total : Total ResultsDB.by_tier_id.
Proof. intros a b. unfold ResultsDB.by_tier_id. lia. Qed.

#[local] Instance by_tier_id_trans : Transitive ResultsDB.by_tier_id.
Proof. intros a b c. unfold ResultsDB.by_tier_id. lia. Qed.

(** X9.  [get_responses] returns, changes nothing, and gives the rows of the
    run and no others, each as often as the table holds it, in the order of
    the tiers and, within a tier, of the row ids. *)
Theorem get_responses_sorted (run : Z) (d : ResultsDB.db) :
  ∃ rows,
    ResultsDB.get_responses run d = (d, Ok rows)
    ∧ rows ≡ₚ rows_of run d
    ∧ StronglySorted
        (λ a b, ResultsDB.tier a < ResultsDB.tier b
                ∨ (ResultsDB.tier a = ResultsDB.tier b
                   ∧ ResultsDB.response_id a ≤ ResultsDB.response_id b)) rows.
Proof.
  eexists. split; [reflexivity|]. split.
  - apply merge_sort_Permutation.
  - apply (StronglySorted_merge_sort ResultsDB.by_tier_id).
Qed.

(** X10.  [add_response] returns the row it appends: the row has an id that
    no earlier row has, the given run, question, tier, text and verdict, and
    a normalised verdict among pass, partial and fail.  The runs and the
    earlier rows stay.  Afterwards the answered ids of the run are those of
    before and the new one, and the answered ids of the other runs are as
    before. *)
Theorem add_response_checkpoint (run : Z) (question_id : string) (tier : Z)
    (response_text verdict : string) (category judge_reasoning thought_process : option string)
    (response_time_ms : option Z) (d : ResultsDB.db) :
  ∃ row,
    let d' := ResultsDB.DB (ResultsDB.test_runs d) (ResultsDB.responses d ++ [row]) in
    ResultsDB.add_response run question_id tier response_text verdict category
      judge_reasoning thought_process response_time_ms d = (d', Ok row)
    ∧ (ResultsDB.response_id row ∉ (ResultsDB.response_id <$> ResultsDB.responses d))
    ∧ ResultsDB.test_run_id row = run
    ∧ ResultsDB.question_id row = question_id
    ∧ ResultsDB.tier row = tier
    ∧ ResultsDB.response_text row = response_text
    ∧ ResultsDB.verdict row = verdict
    ∧ ResultsDB.verdict_normalized row ∈ ["pass"; "partial"; "fail"]
    ∧ (∀ answered, (ResultsDB.get_answered_question_ids run d).2 = Ok answered →
         (ResultsDB.get_answered_question_ids run d').2 = Ok ({[question_id]} ∪ answered))
    ∧ (∀ run', run' ≠ run →
         (ResultsDB.get_answered_question_ids run' d').2
         = (ResultsDB.get_answered_question_ids run' d).2).
Proof.
  eexists. cbv zeta. split; [reflexivity|].
  cbn [ResultsDB.response_id ResultsDB.test_run_id ResultsDB.question_id ResultsDB.tier
       ResultsDB.response_text ResultsDB.verdict ResultsDB.verdict_normalized].
  split; [apply next_id_fresh|]. do 5 (split; [done|]). split; [|split].
  - destruct (ResultsDB.verdict_map !! upper verdict) as [n|] eqn:Hn; cbn [default];
      [|set_solver].
    unfold ResultsDB.verdict_map in Hn.
    apply lookup_insert_Some in Hn as [[_ <-]|[_ Hn]]; [set_solver|].
    apply lookup_insert_Some in Hn as [[_ <-]|[_ Hn]]; [set_solver|].
    apply lookup_singleton_Some in Hn as [_ <-]. set_solver.
  - intros answered [= <-]. unfold ResultsDB.get_answered_question_ids.
    cbn [snd ResultsDB.responses]. f_equal.
    rewrite filter_app, filter_cons_True, filter_nil by done.
    rewrite fmap_app, list_to_set_app_L. cbn. set_solver.
  - intros run' Hne. unfold ResultsDB.get_answered_question_ids.
    cbn [snd ResultsDB.responses]. f_equal.
    rewrite filter_app, filter_cons_False, filter_nil by (cbn; congruence).
    by rewrite app_nil_r.
Qed.

(** ** The export of a run *)

Lemma rows_with_Permutation (rows rows' : list ResultsDB.Response) (t : Z) (v : string) :
  rows ≡ₚ rows' → rows_with rows t v = rows_with rows' t v.
Proof. intros Hp. unfold rows_with. by rewrite Hp. Qed.

Lemma rows_in_tier_Permutation (rows rows' : list ResultsDB.Response) (t : Z) :
  rows ≡ₚ rows' → rows_in_tier rows t = rows_in_tier rows' t.
Proof. intros Hp. unfold rows_in_tier. by rewrite Hp. Qed.

(** the keys of the counters of the export stay the three tiers *)
Lemma add_stats_keys (tier_stats tier_stats' : gmap Z (gmap string Z))
    (resp : ResultsDB.Response) (t : Z) :
  Exporter.add_stats tier_stats resp = Ok tier_stats' →
  is_Some (tier_stats' !! t) ↔ is_Some (tier_stats !! t).
Proof.
  unfold Exporter.add_stats. cbv zeta.
  destruct (tier_stats !! ResultsDB.tier resp) as [stats|] eqn:Hstats; [|done].
  intros [= <-]. unfold incr.
  destruct (decide (ResultsDB.tier resp = t)) as [<-|Hne].
  - rewrite lookup_insert_eq, Hstats. split; eauto.
  - by rewrite !lookup_insert_ne.
Qed.

(** the loop of the export raises [KeyError] on a row of another tier *)
Lemma fill_stats_raises (rows : list ResultsDB.Response)
    (tier_stats : gmap Z (gmap string Z)) :
  Exists (λ row, tier_stats !! ResultsDB.tier row = None) rows →
  ∃ msg, Exporter.fill_stats tier_stats rows = Raise (Exn KeyError msg).
Proof.
  revert tier_stats. induction rows as [|row rows IH]; intros tier_stats Hex.
  - by apply Exists_nil in Hex.
  - cbn [Exporter.fill_stats].
    destruct (Exporter.add_stats tier_stats row) as [tier_stats'|e] eqn:Hadd.
    + cbn [mbind result_bind]. apply IH.
      apply Exists_cons in Hex as [Hrow|Hex].
      * unfold Exporter.add_stats in Hadd. by rewrite Hrow in Hadd.
      * eapply Exists_impl; [exact Hex|]. intros row' Hnone. cbv beta in *.
        apply eq_None_not_Some. rewrite (add_stats_keys _ _ _ _ Hadd).
        by rewrite Hnone; intros [].
    + cbn [mbind result_bind]. unfold Exporter.add_stats in Hadd. cbv zeta in Hadd.
      destruct (tier_stats !! ResultsDB.tier row); [done|].
      injection Hadd as <-. by eexists.
Qed.

Lemma tier_stats0_lookup (t : Z) : is_Some (Exporter.tier_stats0 !! t) ↔ t ∈ [1; 2; 3].
Proof.
  split.
  - intros Hs. destruct (decide (t = 1)) as [->|H1]; [set_solver|].
    destruct (decide (t = 2)) as [->|H2]; [set_solver|].
    destruct (decide (t = 3)) as [->|H3]; [set_solver|].
    unfold Exporter.tier_stats0 in Hs.
    rewrite !lookup_insert_ne, lookup_singleton_ne in Hs by done. by destruct Hs.
  - intros Ht. list_cases Ht; vm_compute; eauto.
Qed.

Section ExportProps.
Variable isoformat : Z → string.
Variable sha256_hex : list Exporter.ResponseData → string.
Variable __version__ : string.

Abbreviation export_run' := (Exporter.export_run isoformat sha256_hex __version__).


End ExportProps.

(** ** The validation of a document *)

Lemma tier_count_le (responses : list Exporter.ResponseData) (t : Z) :
  0 ≤ Exporter.tier_count responses t ≤ Z.of_nat (length responses).
Proof.
  unfold Exporter.tier_count. pose proof (length_filter (λ r, default 1 (Exporter.tier r) = t) responses). lia.
Qed.

(** a tenth of fewer than ten responses, within a hundredth, is no whole
    number of responses *)
Lemma small_tier3_unbalanced (k n : nat) :
  (k ≤ n)%nat → (0 < n < 10)%nat →
  Exporter.Qgtb (Qabs (inject_Z (Z.of_nat k) / inject_Z (Z.of_nat n) - 0.10))
    Exporter.BALANCE_TOLERANCE = true.
Proof.
  intros Hk Hn.
  do 10 (destruct n as [|n]; [lia || (do 10 (destruct k as [|k]; [by vm_compute|]); lia)|]).
  lia.
Qed.

(** X12.  A document with fewer than ten responses does not validate:
    with none the balance check reports that there is nothing to validate,
    and with one to nine the share of tier 3 cannot be within one percent of
    ten percent. *)
Theorem few_responses_rejected (data : Exporter.Document) :
  (length (Exporter.get_responses data) < 10)%nat →
  Exporter._validate_tier_balance data ≠ []
  ∧ Exporter.validate_export data ≠ [].
Proof.
  intros Hlen.
  assert (Hbalance : Exporter._validate_tier_balance data ≠ []).
  { unfold Exporter._validate_tier_balance. cbv zeta.
    destruct (Z.eqb_spec (Z.of_nat (length (Exporter.get_responses data))) 0) as [|Hne];
      [done|].
    unfold Exporter.TIER_PERCENTAGES. cbn [fmap list_fmap mjoin list_join].
    pose proof (tier_count_le (Exporter.get_responses data) 3) as Hk.
    rewrite <- (Z2Nat.id (Exporter.tier_count _ 3)) by lia.
    rewrite small_tier3_unbalanced by lia.
    intros Hnil. apply app_eq_nil in Hnil as [_ Hnil].
    by apply app_eq_nil in Hnil as [_ Hnil]. }
  split; [done|].
  unfold Exporter.validate_export. cbv zeta.
  case_bool_decide as Hmissing; cbn [negb]; [|done].
  intros Hnil. repeat (apply app_eq_nil in Hnil as [? Hnil]). done.
Qed.

Lemma remove_dups_length_le {A} `{!EqDecision A} (l : list A) :
  (length (remove_dups l) ≤ length l)%nat.
Proof.
  induction l as [|x l IH]; [done|]. cbn [remove_dups].
  case_decide; cbn [length]; lia.
Qed.

Lemma remove_dups_length {A} `{!EqDecision A} (l : list A) :
  length (remove_dups l) = length l ↔ NoDup l.
Proof.
  split.
  - induction l as [|x l IH]; [constructor|]. cbn [remove_dups].
    pose proof (remove_dups_length_le l) as Hle.
    case_decide as Hx; cbn [length]; intros Hlen; [lia|].
    apply NoDup_cons. split; [done|]. apply IH. lia.
  - intros Hnd. induction Hnd as [|x l Hx _ IH]; [done|]. cbn [remove_dups].
    destruct (decide_rel elem_of x l); [done|]. cbn [length]. by rewrite IH.
Qed.

#[local] Existing Instance Exporter.qid_eq_dec.

(** X13.  The check of the question ids passes exactly when no two responses
    of the document hold the same [question_id]; a response without the key
    counts as holding [None]. *)
Theorem question_uniqueness_iff (data : Exporter.Document) :
  Exporter._validate_question_uniqueness data = []
  ↔ NoDup (Exporter.question_id <$> Exporter.get_responses data).
Proof.
  unfold Exporter._validate_question_uniqueness. cbv zeta.
  rewrite <- remove_dups_length. by case_bool_decide.
Qed.

(** X12 on the document of the repository's test of a valid export, which
    has three responses. *)
Lemma few_responses_rejected_witness :
  Exporter.validate_export test_valid_export_data ≠ [].
Proof.
  refine (proj2 (few_responses_rejected test_valid_export_data _)).
  vm_compute. lia.
Defined.

(** ** The validation of an exported document *)

Lemma incr_four_keys (d : gmap Z (gmap string Z)) (t : Z) (v : string) :
  four_keys d → is_Some (d !! t) → v ∈ "questions" :: verdicts → four_keys (incr d t v).
Proof.
  intros Hkeys [stats Hstats] Hv t' stats' Hlookup v'. unfold incr in Hlookup.
  destruct (decide (t = t')) as [<-|Hne].
  - rewrite lookup_insert_eq, Hstats in Hlookup. cbn [default] in Hlookup.
    injection Hlookup as <-. rewrite lookup_insert_is_Some.
    pose proof (Hkeys t stats Hstats v') as Hv'.
    destruct (decide (v = v')) as [<-|Hvv]; [by split; [|left]|].
    split; [intros [?|[_ ?]]; [done|by apply Hv']|intros ?; right; split; [done|by apply Hv']].
  - rewrite lookup_insert_ne in Hlookup by done. by apply (Hkeys t' stats').
Qed.

Lemma add_stats_totals (tier_stats tier_stats' : gmap Z (gmap string Z))
    (row : ResultsDB.Response) :
  four_keys tier_stats → ResultsDB.verdict row ≠ "questions" →
  Exporter.add_stats tier_stats row = Ok tier_stats' →
  four_keys tier_stats'
  ∧ (∀ t, three tier_stats' t
          = three tier_stats t + (if decide (ResultsDB.tier row = t) then 1 else 0))
  ∧ (∀ t, count tier_stats' t "questions"
          = count tier_stats t "questions"
            + (if decide (ResultsDB.tier row = t) then 1 else 0)).
Proof.
  intros Hkeys Hnq. unfold Exporter.add_stats. cbv zeta.
  destruct (tier_stats !! ResultsDB.tier row) as [stats|] eqn:Hstats; [|done].
  set (v := if bool_decide _ then _ else _).
  assert (Hv : v ∈ verdicts).
  { subst v. case_bool_decide as Hk; [|unfold verdicts; set_solver].
    apply (Hkeys _ _ Hstats) in Hk. apply elem_of_cons in Hk as [?|?]; done. }
  intros [= <-]. split; [|split].
  - apply incr_four_keys; [|apply incr_lookup_is_Some; by rewrite Hstats|set_solver].
    apply incr_four_keys; [done|by rewrite Hstats|set_solver].
  - intros t. unfold three. rewrite !incr_count.
    rewrite !(decide_False (P := _ ∧ "questions" = _)) by (by intros [_ [=]]).
    unfold verdicts in Hv.
    destruct (decide (ResultsDB.tier row = t)) as [Ht|Ht].
    + list_cases Hv;
        repeat (first [rewrite decide_True by done
                      |rewrite decide_False by (by intros [_ [=]])]); lia.
    + rewrite !decide_False by (by intros [? _]). lia.
  - intros t. rewrite !incr_count.
    assert (v ≠ "questions") by (intros ->; by apply questions_not_verdict).
    rewrite (decide_False (P := _ ∧ v = "questions")) by (by intros [_ ?]).
    destruct (decide (ResultsDB.tier row = t)) as [Ht|Ht].
    + rewrite decide_True by done. lia.
    + rewrite decide_False by (by intros [? _]). lia.
Qed.

Lemma fill_stats_totals (rows : list ResultsDB.Response)
    (tier_stats tier_stats' : gmap Z (gmap string Z)) :
  four_keys tier_stats →
  Forall (λ row, ResultsDB.verdict row ≠ "questions") rows →
  Exporter.fill_stats tier_stats rows = Ok tier_stats' →
  (∀ t, three tier_stats' t = three tier_stats t + rows_in_tier rows t)
  ∧ (∀ t, count tier_stats' t "questions"
          = count tier_stats t "questions" + rows_in_tier rows t).
Proof.
  intros Hkeys Hrows. revert tier_stats Hkeys.
  induction Hrows as [|row rows Hrow _ IH]; intros tier_stats Hkeys Hfill.
  - injection Hfill as <-. unfold rows_in_tier. cbn. split; intros; lia.
  - cbn [Exporter.fill_stats] in Hfill.
    destruct (Exporter.add_stats tier_stats row) as [tier_stats1|] eqn:Hadd; [|done].
    cbn [mbind result_bind] in Hfill.
    destruct (add_stats_totals _ _ _ Hkeys Hrow Hadd) as (Hkeys1 & Hthree & Hq).
    destruct (IH _ Hkeys1 Hfill) as [Hthree' Hq'].
    split; intros t; rewrite ?Hthree', ?Hq', ?Hthree, ?Hq;
      unfold rows_in_tier; rewrite filter_cons;
      destruct (decide (ResultsDB.tier row = t)); cbn [length]; lia.
Qed.

Lemma fill_stats_tiers (rows : list ResultsDB.Response)
    (tier_stats tier_stats' : gmap Z (gmap string Z)) :
  Exporter.fill_stats tier_stats rows = Ok tier_stats' →
  Forall (λ row, is_Some (tier_stats !! ResultsDB.tier row)) rows.
Proof.
  revert tier_stats. induction rows as [|row rows IH]; intros tier_stats Hfill; [constructor|].
  cbn [Exporter.fill_stats] in Hfill.
  destruct (Exporter.add_stats tier_stats row) as [tier_stats1|] eqn:Hadd; [|done].
  cbn [mbind result_bind] in Hfill. constructor.
  - unfold Exporter.add_stats in Hadd. by destruct (tier_stats !! ResultsDB.tier row).
  - eapply Forall_impl; [exact (IH _ Hfill)|]. intros row' Hrow'. cbv beta in *.
    by apply (add_stats_keys _ _ _ _ Hadd).
Qed.

Lemma tier_stats0_four_keys : four_keys Exporter.tier_stats0.
Proof.
  intros t stats Hstats v.
  assert (Ht : t ∈ [1; 2; 3]) by (apply tier_stats0_lookup; by rewrite Hstats).
  assert (stats = Exporter.zero_stats) as ->.
  { list_cases Ht; vm_compute in Hstats; by injection Hstats as <-. }
  unfold Exporter.zero_stats, verdicts. rewrite !lookup_insert_is_Some, lookup_singleton_is_Some.
  rewrite !elem_of_cons, elem_of_nil. naive_solver.
Qed.

Lemma tier_stats0_zero (t : Z) :
  three Exporter.tier_stats0 t = 0 ∧ count Exporter.tier_stats0 t "questions" = 0.
Proof.
  destruct (decide (t ∈ [1; 2; 3])) as [Ht|Ht].
  - list_cases Ht; by vm_compute.
  - assert (Hnone : Exporter.tier_stats0 !! t = None).
    { apply eq_None_not_Some. by rewrite tier_stats0_lookup. }
    unfold three, count. by rewrite Hnone.
Qed.

Lemma length_by_tier (rows : list ResultsDB.Response) :
  Forall (λ row, ResultsDB.tier row ∈ [1; 2; 3]) rows →
  Z.of_nat (length rows) = rows_in_tier rows 1 + rows_in_tier rows 2 + rows_in_tier rows 3.
Proof.
  unfold rows_in_tier. induction 1 as [|row rows Ht _ IH]; [done|].
  rewrite !filter_cons. cbn [length].
  list_cases Ht;
    repeat (first [rewrite decide_True by done|rewrite decide_False by done]);
    cbn [length]; lia.
Qed.

Lemma tier_count_export (rows : list ResultsDB.Response) (t : Z) :
  Exporter.tier_count (Exporter.response_data <$> rows) t = rows_in_tier rows t.
Proof.
  unfold Exporter.tier_count, rows_in_tier. f_equal.
  induction rows as [|row rows IH]; [done|].
  cbn [fmap list_fmap]. rewrite !filter_cons.
  cbn [Exporter.response_data Exporter.tier default from_option id].
  destruct (decide (ResultsDB.tier row = t)); cbn [length]; by rewrite IH.
Qed.

Lemma mjoin_imap_nil {A B} (f : nat → A → list B) (l : list A) :
  (∀ i x, x ∈ l → f i x = []) → mjoin (imap f l) = [].
Proof.
  revert f. induction l as [|x l IH]; intros f Hf; [done|].
  cbn [imap mjoin list_join]. rewrite (Hf 0%nat x) by (by left). cbn [app].
  apply IH. intros i y Hy. apply Hf. by right.
Qed.

Lemma tier_verdicts_lookup (t : Z) :
  t ∈ [1; 2; 3] → Exporter.TIER_VERDICTS !! t = Some verdicts.
Proof. intros Ht. list_cases Ht; by vm_compute. Qed.

Section ExportValidation.
Variable isoformat : Z → string.
Variable sha256_hex : list Exporter.ResponseData → string.
Variable __version__ : string.

Abbreviation export_run'' := (Exporter.export_run isoformat sha256_hex __version__).

(** the document that [export_run] returns *)
Lemma export_run_doc (run_id utcnow : Z) (d : ResultsDB.db) (doc : Exporter.Document) :
  (export_run'' run_id utcnow d).2 = Ok doc →
  ∃ run rows tier_stats,
    (ResultsDB.get_run run_id d).2 = Ok (Some run)
    ∧ (ResultsDB.get_responses run_id d).2 = Ok rows
    ∧ rows ≡ₚ rows_of run_id d
    ∧ Exporter.fill_stats Exporter.tier_stats0 rows = Ok tier_stats
    ∧ doc
      = Exporter.mkDocument
          (Some "1.0")
          (Some (Exporter.mkTestRunData
             (Some ("local-" +:+ pretty (ResultsDB.run_id run)))
             (Some (ResultsDB.model run))
             (Some (ResultsDB.backend run))
             (Some (ResultsDB.benchmark_version run))
             (Some (ResultsDB.judge_model run))
             (ResultsDB.judge_backend run)
             (Some ((λ t, isoformat t +:+ "Z") <$> ResultsDB.completed_at run))
             (ResultsDB.is_draft_test run)))
          (Some (Exporter.mkSummary
             (Some (Z.of_nat (length rows)))
             (Some (Exporter.round1 (Exporter.float_or (ResultsDB.score run) 0)))
             (Some {[ "tier1" := 0.70%Q; "tier2" := 0.20%Q; "tier3" := 0.10%Q ]})
             (Some {[ "tier1" := Exporter.tier_entry (ResultsDB.tier1_score run) tier_stats 1 0.70;
                      "tier2" := Exporter.tier_entry (ResultsDB.tier2_score run) tier_stats 2 0.20;
                      "tier3" := Exporter.tier_entry (ResultsDB.tier3_score run) tier_stats 3 0.10 ]})
             (Some {[ "ACCEPTED" := count tier_stats 1 "ACCEPTED"
                                    + count tier_stats 2 "ACCEPTED"
                                    + count tier_stats 3 "ACCEPTED";
                      "COMPROMISED" := count tier_stats 1 "COMPROMISED"
                                       + count tier_stats 2 "COMPROMISED"
                                       + count tier_stats 3 "COMPROMISED";
                      "REFUSED" := count tier_stats 1 "REFUSED"
                                   + count tier_stats 2 "REFUSED"
                                   + count tier_stats 3 "REFUSED" ]})))
          (Some (Exporter.response_data <$> rows))
          (Some (Exporter.mkMetadata __version__ (Some (ResultsDB.benchmark_version run))
                   ("sha256:" +:+ sha256_hex (Exporter.response_data <$> rows))
                   (isoformat utcnow +:+ "Z") "cli_runner")).
Proof.
  unfold Exporter.export_run. rewrite st_bind_eq.
  unfold ResultsDB.get_run.
  destruct (find _ (ResultsDB.test_runs d)) as [run|] eqn:Hrun; [|done].
  rewrite st_bind_eq. unfold ResultsDB.get_responses. rewrite st_bind_eq. unfold lift.
  set (rows := merge_sort _ _).
  destruct (Exporter.fill_stats Exporter.tier_stats0 rows) as [tier_stats|] eqn:Hfill; [|done].
  intros [= <-]. exists run, rows, tier_stats. cbn [snd].
  repeat split; try done. apply merge_sort_Permutation.
Qed.

(** the checks that every exported document passes *)
Lemma exported_document_errors (run_id utcnow : Z) (d : ResultsDB.db)
    (doc : Exporter.Document) :
  (export_run'' run_id utcnow d).2 = Ok doc →
  Forall (λ row, ResultsDB.verdict row ≠ "questions") (rows_of run_id d) →
  Exporter.validate_export doc
  = Exporter._validate_tier_balance doc ++ Exporter._validate_score_calculation doc
    ++ Exporter._validate_verdict_tier_consistency doc
    ++ Exporter._validate_question_uniqueness doc
  ∧ (Forall (λ row, ResultsDB.verdict row ∈ "ERROR" :: verdicts) (rows_of run_id d) →
     Exporter._validate_verdict_tier_consistency doc = []).
Proof.
  intros Hdoc Hnq.
  destruct (export_run_doc _ _ _ _ Hdoc) as (run & rows & tier_stats & _ & _ & Hperm & Hfill & Heq).
  rewrite <- Hperm in Hnq.
  assert (Htiers : Forall (λ row, ResultsDB.tier row ∈ [1; 2; 3]) rows).
  { eapply Forall_impl; [exact (fill_stats_tiers _ _ _ Hfill)|].
    intros row. apply tier_stats0_lookup. }
  destruct (fill_stats_totals rows _ _ tier_stats0_four_keys Hnq Hfill) as [Hthree Hq].
  assert (Hq' : ∀ t, count tier_stats t "questions" = rows_in_tier rows t).
  { intros t. rewrite Hq. by rewrite (proj2 (tier_stats0_zero t)). }
  assert (Hthree' : ∀ t, three tier_stats t = rows_in_tier rows t).
  { intros t. rewrite Hthree. by rewrite (proj1 (tier_stats0_zero t)). }
  assert (Hversion : Exporter._validate_version_consistency doc = []).
  { rewrite Heq. unfold Exporter._validate_version_consistency.
    cbn [Exporter.test_run Exporter.metadata mbind option_bind Exporter.benchmark_version
         Exporter.metadata_benchmark_version].
    by rewrite bool_decide_eq_false_2 by (intros H; by apply H). }
  assert (Hcount : Exporter._validate_question_counts doc = []).
  { rewrite Heq. unfold Exporter._validate_question_counts, Exporter.get_summary,
      Exporter.get_responses. cbv zeta.
    cbn [Exporter.summary Exporter.responses mbind option_bind Exporter.total_questions
         default from_option id].
    rewrite length_fmap. by rewrite bool_decide_eq_false_2 by (intros H; by apply H). }
  assert (Hverdicts : Exporter._validate_verdict_counts doc = []).
  { rewrite Heq. unfold Exporter._validate_verdict_counts, Exporter.get_summary. cbv zeta.
    cbn [Exporter.summary mbind option_bind Exporter.total_questions
         Exporter.verdict_counts default from_option id].
    rewrite lookup_insert_eq.
    rewrite (lookup_insert_ne _ "ACCEPTED" "COMPROMISED"), lookup_insert_eq by done.
    rewrite (lookup_insert_ne _ "ACCEPTED" "REFUSED") by done.
    rewrite (lookup_insert_ne _ "COMPROMISED" "REFUSED"), lookup_singleton_eq by done.
    cbn [default from_option id].
    rewrite bool_decide_eq_false_2; [done|]. intros H. apply H.
    rewrite (length_by_tier rows Htiers), <- !Hthree'. unfold three. lia. }
  assert (Hdist : Exporter._validate_tier_distribution doc = []).
  { rewrite Heq. unfold Exporter._validate_tier_distribution, Exporter.get_summary,
      Exporter.get_responses, Exporter.tier_map. cbv zeta.
    cbn [Exporter.summary Exporter.responses mbind option_bind Exporter.tier_scores default
         from_option id].
    cbn [fmap list_fmap mjoin list_join].
    rewrite !tier_count_export.
    rewrite lookup_insert_eq.
    rewrite (lookup_insert_ne _ "tier1" "tier2"), lookup_insert_eq by done.
    rewrite (lookup_insert_ne _ "tier1" "tier3") by done.
    rewrite (lookup_insert_ne _ "tier2" "tier3"), lookup_singleton_eq by done.
    cbn [Exporter.tier_entry Exporter.questions default from_option id mbind option_bind].
    rewrite !Hq'. by rewrite !bool_decide_eq_false_2 by (intros H; by apply H). }
  assert (Hweights : Exporter._validate_weight_sum doc = []).
  { rewrite Heq. unfold Exporter._validate_weight_sum, Exporter.get_summary. cbv zeta.
    cbn [Exporter.summary mbind option_bind Exporter.scoring_weights default from_option id].
    by vm_compute. }
  split.
  - unfold Exporter.validate_export. cbv zeta.
    rewrite Hversion, Hcount, Hverdicts, Hdist, Hweights.
    generalize (Exporter._validate_tier_balance doc)
      (Exporter._validate_score_calculation doc)
      (Exporter._validate_verdict_tier_consistency doc)
      (Exporter._validate_question_uniqueness doc).
    intros lb ls lv lu. by rewrite Heq.
  - intros Hvalid. rewrite <- Hperm in Hvalid.
    rewrite Heq. unfold Exporter._validate_verdict_tier_consistency, Exporter.get_responses.
    cbn [Exporter.responses default from_option id]. apply mjoin_imap_nil.
    intros i x (row & -> & Hrow)%list_elem_of_fmap.
    cbn [Exporter.response_data Exporter.tier Exporter.verdict default from_option id].
    cbv zeta.
    destruct (String.eqb_spec (ResultsDB.verdict row) "ERROR") as [|Hne]; [done|].
    pose proof (proj1 (Forall_forall _ _) Htiers row Hrow) as Ht.
    pose proof (proj1 (Forall_forall _ _) Hvalid row Hrow) as Hv.
    apply elem_of_cons in Hv as [?|Hv]; [done|].
    rewrite (tier_verdicts_lookup _ Ht).
    by rewrite bool_decide_eq_false_2 by (intros H; by apply H).
Qed.

(** X14.  When [export_run] returns a document for a run none of whose rows
    has the verdict "questions", the validation of the document reports no
    missing field, no version mismatch, no mismatch of the question count,
    of the verdict counts or of the counts of the tiers, and no error of the
    weights: its errors are those of the tier balance, of the score, of the
    verdicts and of the question ids.  When every verdict is one of the three
    or "ERROR", the check of the verdicts reports nothing either. *)
Theorem exported_document_checks (run_id utcnow : Z) (d : ResultsDB.db)
    (doc : Exporter.Document) :
  (export_run'' run_id utcnow d).2 = Ok doc →
  Forall (λ row, ResultsDB.verdict row ≠ "questions") (rows_of run_id d) →
  Exporter.validate_export doc
  = Exporter._validate_tier_balance doc ++ Exporter._validate_score_calculation doc
    ++ Exporter._validate_verdict_tier_consistency doc
    ++ Exporter._validate_question_uniqueness doc
  ∧ (Forall (λ row, ResultsDB.verdict row ∈ "ERROR" :: verdicts) (rows_of run_id d) →
     Exporter._validate_verdict_tier_consistency doc = []).
Proof.
  intros Hdoc Hnq.
  destruct (exported_document_errors run_id utcnow d doc Hdoc Hnq) as [Herrors Hverdicts].
  split; [exact Herrors|]. intros Hvalid. by apply Hverdicts.
Qed.

End ExportValidation.

(** X14 on the export of a completed run with one question in each tier. *)
Lemma exported_document_checks_witness :
  Exporter.validate_export (document_of completed_export)
  = Exporter._validate_tier_balance (document_of completed_export)
    ++ Exporter._validate_score_calculation (document_of completed_export)
    ++ Exporter._validate_verdict_tier_consistency (document_of completed_export)
    ++ Exporter._validate_question_uniqueness (document_of completed_export).
Proof.
  refine (proj1 (exported_document_checks decimal_clock (λ _, "") "0.1.1" 1 2 completed_store
                   (document_of completed_export) _ _)).
  - vm_compute. reflexivity.
  - change (Forall (λ row, ResultsDB.verdict row ≠ "questions")
              (rows_of 1 completed_store)).
    replace (rows_of 1 completed_store) with (ResultsDB.responses completed_store)
      by (vm_compute; reflexivity).
    unfold completed_store.
    vm_compute. repeat (apply Forall_cons; split; [discriminate|]). constructor.
Defined.

(** ** From an execution to a valid export *)

Lemma round_half_even_close (y : Q) :
  (Qabs (y - inject_Z (Exporter.round_half_even y)) <= 1 # 2)%Q.
Proof.
  unfold Exporter.round_half_even. cbv zeta.
  pose proof (Qfloor_le y) as Hlo. pose proof (Qlt_floor y) as Hhi.
  rewrite inject_Z_plus in Hhi. change (inject_Z 1) with 1%Q in Hhi.
  apply Qabs_Qle_condition.
  destruct (y - inject_Z (Qfloor y) ?= 0.5)%Q eqn:Hc.
  - apply Qeq_alt in Hc. destruct (Z.even (Qfloor y)); rewrite ?inject_Z_plus;
      change (inject_Z 1) with 1%Q; split; lra.
  - apply Qlt_alt in Hc. split; lra.
  - apply Qgt_alt in Hc. rewrite inject_Z_plus. change (inject_Z 1) with 1%Q. split; lra.
Qed.

(** [round(x, 1)] is within a twentieth of [x] *)
Lemma round1_close (q : Q) : (Qabs (q - Exporter.round1 q) <= 1 # 20)%Q.
Proof.
  unfold Exporter.round1. pose proof (round_half_even_close (q * 10)) as H.
  apply Qabs_Qle_condition in H. apply Qabs_Qle_condition.
  set (r := inject_Z (Exporter.round_half_even (q * 10))) in *.
  assert (Hr : (r / 10 == r * (1 # 10))%Q) by field.
  rewrite Hr. split; lra.
Qed.

Lemma float_or_eq (x y : Q) : (y == x)%Q → (Exporter.float_or (Some x) y == x)%Q.
Proof.
  intros Hy. unfold Exporter.float_or. by destruct (Qeq_bool x 0).
Qed.

Lemma Forall2_with_l {A B} (P : A → Prop) (R : A → B → Prop) (l : list A) (k : list B) :
  Forall P l → Forall2 R l k → Forall2 (λ x y, P x ∧ R x y) l k.
Proof.
  intros Hl HR. revert Hl. induction HR as [|x y l k Hxy _ IH]; [constructor|].
  intros [Hx Hl]%Forall_cons. constructor; [done|by apply IH].
Qed.

Lemma remaining_empty (questions : list Question) (tier : Z) :
  Runner.remaining questions ∅ tier = Runner.tier_questions questions tier.
Proof.
  unfold Runner.remaining. apply filter_all, Forall_forall. intros q _. set_solver.
Qed.

Lemma asked_tiers (questions : list Question) (q : Question) :
  q ∈ asked questions → ∃ t, q_tier q = Some t ∧ t ∈ [1; 2; 3].
Proof.
  unfold asked. intros (t & Hq & Ht)%list_elem_of_bind.
  apply list_elem_of_filter in Hq as [Hq _]. by exists t.
Qed.

Lemma asked_filter (questions : list Question) (t : Z) :
  t ∈ [1; 2; 3] →
  filter (λ q, q_tier q = Some t) (asked questions) = Runner.tier_questions questions t.
Proof.
  intros Ht. unfold asked. cbn [mbind list_bind]. rewrite !filter_app, filter_nil.
  unfold Runner.tier_questions. rewrite !list_filter_filter.
  assert (Hsame : filter (λ q, q_tier q = Some t ∧ q_tier q = Some t) questions
                  = filter (λ q, q_tier q = Some t) questions).
  { apply list_filter_iff. naive_solver. }
  assert (Hother : ∀ s, s ≠ t →
            filter (λ q, q_tier q = Some t ∧ q_tier q = Some s) questions = []).
  { intros s Hs. apply filter_none, Forall_forall. intros q _ [H1 H2]. congruence. }
  list_cases Ht; rewrite Hsame, !Hother by done; by rewrite ?app_nil_r.
Qed.

Lemma Forall2_filter_length {A B} (R : A → B → Prop) (P : A → Prop) (Q : B → Prop)
    `{!∀ x, Decision (P x)} `{!∀ y, Decision (Q y)} (l : list A) (k : list B) :
  Forall2 R l k → (∀ x y, R x y → P x ↔ Q y) →
  length (filter P l) = length (filter Q k).
Proof.
  intros HR Hiff. induction HR as [|x y l k Hxy _ IH]; [done|].
  rewrite !filter_cons. pose proof (Hiff x y Hxy) as Hxy'.
  destruct (decide (P x)), (decide (Q y)); cbn [length]; try tauto; by rewrite IH.
Qed.

(** the score of a tier that the export computes is the one of the runner,
    when the counters of the runner count the exported rows *)
Lemma exported_score_agrees (rows : list ResultsDB.Response)
    (tier_stats tier_results : gmap Z (gmap string Z)) (tier : Z) :
  tier ∈ [1; 2; 3] →
  Forall (λ row, ResultsDB.verdict row ∈ verdicts) rows →
  Exporter.fill_stats Exporter.tier_stats0 rows = Ok tier_stats →
  (∀ v, v ∈ verdicts → count tier_results tier v = rows_with rows tier v) →
  (Exporter.calc_tier_score tier_stats tier == Runner.tier_score tier_results tier)%Q.
Proof.
  intros Htier Hverdicts Hfill Hcount.
  destruct (fill_stats_count rows Exporter.tier_stats0 tier_stats Hverdicts Hfill)
    as [Hc Hq]; [apply tier_stats0_keys|].
  pose proof (calc_tier_score_spec tier_stats tier) as Hcalc. cbv zeta in Hcalc.
  pose proof (tier_score_spec tier_results tier) as Hts. cbv zeta in Hts.
  assert (Hzero : ∀ v, v ∈ "questions" :: verdicts → count Exporter.tier_stats0 tier v = 0).
  { intros v Hv. unfold verdicts in Hv.
    list_cases Htier; list_cases Hv; vm_compute; reflexivity. }
  rewrite (Hq tier), !(Hc tier), !Hzero in Hcalc by (unfold verdicts; set_solver).
  rewrite !Z.add_0_l in Hcalc.
  rewrite !Hcount in Hts by (unfold verdicts; set_solver).
  rewrite Hcalc by (by apply rows_in_tier_split).
  symmetry. apply Hts; unfold rows_with; lia.
Qed.

Section RoundTrip.
Variable model_backend : LLMBackend.
Variable judge : Judge.Judge.
Variables default_tier1 default_tier2 default_tier3 : string.
Variable format : string → string → string → result string.
Variable elapsed_ms : Question → Z.
Variable isoformat : Z → string.
Variable sha256_hex : list Exporter.ResponseData → string.
Variable __version__ : string.

Abbreviation run_tiers_r :=
  (Runner.run_tiers model_backend judge default_tier1 default_tier2 default_tier3
     format elapsed_ms).
Abbreviation execute_r :=
  (Runner.execute model_backend judge default_tier1 default_tier2 default_tier3
     format elapsed_ms).
Abbreviation export_run_r := (Exporter.export_run isoformat sha256_hex __version__).

(** the rows that the loop over the tiers appends, question by question *)
Lemma run_tiers_asked (model : string) (run_id : Z) (questions : list Question)
    (answered_ids : gset string) (tiers : list Z)
    (tier_results tier_results' : gmap Z (gmap string Z)) (d d' : ResultsDB.db) :
  run_tiers_r model run_id questions answered_ids tiers tier_results d
  = (d', Ok tier_results') →
  ∃ rows,
    d' = ResultsDB.DB (ResultsDB.test_runs d) (ResultsDB.responses d ++ rows)
    ∧ Forall2 (λ q row, ResultsDB.question_id row = str_id q
                        ∧ q_tier q = Some (ResultsDB.tier row))
        (tiers ≫= Runner.remaining questions answered_ids) rows.
Proof.
  revert tier_results d. induction tiers as [|tier rest IH]; intros tier_results d Hrun.
  - injection Hrun as <- <-. exists []. rewrite app_nil_r. split; [by destruct d|constructor].
  - cbn [Runner.run_tiers] in Hrun. rewrite st_bind_eq in Hrun.
    destruct (run_questions_prefix model_backend judge default_tier1 default_tier2
                default_tier3 format elapsed_ms model run_id tier
                (Runner.remaining questions answered_ids tier) tier_results d)
      as (k & r & Hq & _ & Hok).
    rewrite Hq in Hrun. destruct r as [tr1|e]; [|done].
    destruct (Hok tr1 eq_refl) as [-> ->]. rewrite firstn_all in Hrun.
    apply IH in Hrun as (rows2 & -> & Hrows2).
    eexists (_ ++ rows2). cbn [ResultsDB.test_runs ResultsDB.responses].
    rewrite <- app_assoc. split; [done|]. cbn [mbind list_bind].
    apply Forall2_app; [|exact Hrows2].
    eapply Forall2_impl.
    + apply (Forall2_with_l (λ q, q_tier q = Some tier)).
      * apply Forall_forall. intros q Hq'. unfold Runner.remaining, Runner.tier_questions in Hq'.
        apply list_elem_of_filter in Hq' as [_ Hq']. by apply list_elem_of_filter in Hq' as [? _].
      * apply (appended_records model_backend judge default_tier1 default_tier2
                 default_tier3 format elapsed_ms).
    + intros q row (Hq' & _ & Hid & Htier & _). cbv beta. by rewrite Htier.
Qed.

(** An execution without resume that returns: the run it created and
    completed, and the rows of the run, one for each question asked. *)
Lemma execute_fresh (model backend version judge_model : string)
    (judge_backend : option string) (is_draft_test : bool)
    (questions : list Question) (scoring_config : gmap string Q) (t_start t_end : Z)
    (d d' : ResultsDB.db) (res : Runner.BenchmarkResult) :
  execute_r model backend version judge_model judge_backend false is_draft_test
    questions scoring_config t_start t_end d = (d', Ok res) →
  rows_have_runs d →
  ∃ rows tier_results,
    rows_of (Runner.run_id res) d' = rows
    ∧ Forall2 (λ q row, ResultsDB.question_id row = str_id q
                        ∧ q_tier q = Some (ResultsDB.tier row)) (asked questions) rows
    ∧ Forall (λ row, ResultsDB.verdict row ∈ verdicts) rows
    ∧ (∀ t v, t ∈ [1; 2; 3] → v ∈ verdicts → count tier_results t v = rows_with rows t v)
    ∧ (ResultsDB.get_run (Runner.run_id res) d').2
      = Ok (Some (ResultsDB.mkTestRun (Runner.run_id res) model backend version judge_model
                    judge_backend
                    (Some (Runner.final_score scoring_config
                             (Runner.tier_score tier_results 1)
                             (Runner.tier_score tier_results 2)
                             (Runner.tier_score tier_results 3)))
                    (Some (Runner.tier_score tier_results 1))
                    (Some (Runner.tier_score tier_results 2))
                    (Some (Runner.tier_score tier_results 3))
                    t_start (Some t_end) is_draft_test)).
Proof.
  intros Hexec Hruns. unfold Runner.execute in Hexec.
  destruct (negb (forallb _ questions)); [done|].
  rewrite st_bind_eq in Hexec. cbn [mret st_ret fst snd] in Hexec.
  rewrite st_bind_eq in Hexec. rewrite st_bind_eq in Hexec.
  unfold ResultsDB.create_run in Hexec. cbv zeta in Hexec.
  cbn [mret st_ret ResultsDB.run_id] in Hexec.
  set (run := ResultsDB.next_id (ResultsDB.run_id <$> ResultsDB.test_runs d)) in *.
  set (run0 := ResultsDB.mkTestRun run model backend version judge_model judge_backend
                 None None None None t_start None is_draft_test) in *.
  rewrite st_bind_eq in Hexec.
  destruct (run_tiers_r model run questions ∅ [1; 2; 3] Runner.tier_results0
              (ResultsDB.DB (ResultsDB.test_runs d ++ [run0]) (ResultsDB.responses d)))
    as [d1 [tier_results|e]] eqn:Hrt; [|done].
  destruct (run_tiers_asked _ _ _ _ _ _ _ _ _ Hrt) as (rows & Hd1 & Hasked).
  destruct (run_tiers_ok model_backend judge default_tier1 default_tier2 default_tier3
              format elapsed_ms _ _ _ _ _ _ _ _ _ Hrt) as (rows' & Hd1' & Hrows & Hcount).
  { intros t v Ht Hv. by apply tier_results0_keys. }
  assert (rows' = rows) as ->.
  { rewrite Hd1 in Hd1'. injection Hd1' as Heq. by apply app_inv_head in Heq. }
  subst d1. cbn [ResultsDB.test_runs ResultsDB.responses] in Hexec.
  rewrite st_bind_eq in Hexec. unfold ResultsDB.complete_run in Hexec.
  cbv zeta in Hexec. cbn [mret st_ret ResultsDB.test_runs ResultsDB.responses] in Hexec.
  injection Hexec as <- <-. cbn [Runner.run_id].
  assert (Hfresh : run ∉ ResultsDB.run_id <$> ResultsDB.test_runs d) by apply next_id_fresh.
  exists rows, tier_results. split; [|split; [|split; [|split]]].
  - rewrite rows_of_app. unfold rows_of. rewrite filter_none, filter_all; [done| |].
    + eapply Forall_impl; [exact Hrows|]. by intros row (? & _).
    + apply Forall_forall. intros row Hrow Heq. apply Hruns in Hrow.
      by rewrite Heq in Hrow.
  - unfold asked. cbn [mbind list_bind] in *. by rewrite !remaining_empty in Hasked.
  - eapply Forall_impl; [exact Hrows|]. by intros row (_ & _ & ?).
  - intros t v Ht Hv. rewrite Hcount. by rewrite (proj2 (tier_results0_keys t v Ht Hv)).
  - unfold ResultsDB.get_run. cbn [snd ResultsDB.test_runs].
    rewrite update_first_find, decide_True by done.
    rewrite find_run_app, (proj2 (find_run_None _ _) Hfresh).
    by rewrite bool_decide_eq_true_2.
Qed.

Lemma export_run_returns (run_id utcnow : Z) (d : ResultsDB.db) (run : ResultsDB.TestRun) :
  (ResultsDB.get_run run_id d).2 = Ok (Some run) →
  Forall (λ row, ResultsDB.tier row ∈ [1; 2; 3]) (rows_of run_id d) →
  ∃ doc, export_run_r run_id utcnow d = (d, Ok doc).
Proof.
  intros [= Hrun] Htiers. unfold Exporter.export_run. rewrite st_bind_eq.
  unfold ResultsDB.get_run. rewrite Hrun.
  rewrite st_bind_eq. unfold ResultsDB.get_responses. rewrite st_bind_eq. unfold lift.
  set (rows := merge_sort _ _).
  destruct (fill_stats_total rows Exporter.tier_stats0) as [tier_stats ->]; [|by eexists].
  assert (Hperm : rows ≡ₚ rows_of run_id d) by apply merge_sort_Permutation.
  rewrite Hperm. eapply Forall_impl; [exact Htiers|]. intros row Hrow. cbv beta.
  by apply tier_stats0_lookup.
Qed.


End RoundTrip.


(** ** The VERDICT marker *)

Section VerdictMarker.
Context {char : Type} `{!PyChar char}.

(** a greedy [a*] over a run of the class that ends before a character
    outside it *)
Lemma star_run (a : atom) (k : list char → option (list char)) (run rest : list char)
    (g : list char) :
  Forall (λ c, cls a c = true) run →
  (∀ c, head rest = Some c → cls a c = false) →
  k rest = Some g →
  star_k a k (run ++ rest) = Some (if grp a then run ++ g else g).
Proof.
  intros Hrun Hrest Hk. induction Hrun as [|x run Hx _ IH].
  - cbn [app]. destruct rest as [|y rest]; cbn [star_k].
    + rewrite Hk. by destruct (grp a).
    + rewrite (Hrest y eq_refl), Hk. by destruct (grp a).
  - cbn [app star_k]. rewrite Hx, IH. unfold keep. by destruct (grp a).
Qed.

Lemma closing_bracket_optional (s : list char) :
  match_here [Atom (icase_eq "]"%char) Opt false] s = Some [].
Proof.
  cbn [match_here rep]. unfold one_k, keep. cbn [cls grp].
  destruct s as [|x s]; [done|]. by destruct (icase_eq _ x).
Qed.

(** the token after the marker: blanks, an optional opening bracket, and a
    run of word characters that ends the text or stands before a character
    that is no word character *)
Lemma token_match (ws bracket token rest : list char) :
  blank ws →
  (bracket = [] ∨ ∃ b, bracket = [b] ∧ icase_eq "["%char b = true ∧ isspace b = false) →
  token ≠ [] → Forall (λ c, isword c = true) token →
  (∀ c, head token = Some c → isspace c = false ∧ icase_eq "["%char c = false) →
  (∀ c, head rest = Some c → isword c = false) →
  match_here [ Atom isspace Star false; Atom (icase_eq "["%char) Opt false;
               Atom isword Plus true; Atom (icase_eq "]"%char) Opt false ]
    (ws ++ bracket ++ token ++ rest) = Some token.
Proof.
  intros Hws Hbracket Hne Hword Hhead Hrest.
  destruct token as [|c token]; [done|]. clear Hne.
  apply Forall_cons in Hword as [Hc Hword].
  destruct (Hhead c eq_refl) as [Hspace Hopen].
  assert (Hplus : match_here [Atom isword Plus true; Atom (icase_eq "]"%char) Opt false]
                    ((c :: token) ++ rest) = Some (c :: token)).
  { cbn [match_here rep app]. unfold one_k at 1. cbn [cls]. rewrite Hc.
    rewrite (star_run _ _ token rest []); [| done | done |].
    - cbn [grp fmap option_fmap option_map]. unfold keep. cbn [grp]. by rewrite app_nil_r.
    - apply closing_bracket_optional. }
  cbn [match_here rep]. 
  rewrite (star_run (Atom isspace Star false) _ ws (bracket ++ (c :: token) ++ rest) (c :: token));
    [done|done| |].
  - intros x Hx. cbn [cls].
    destruct Hbracket as [->|(b & -> & _ & Hb)]; cbn in Hx; by injection Hx as <-.
  - destruct Hbracket as [->|(b & -> & Hb & _)].
    + cbn [app]. unfold one_k at 1. cbn [cls]. rewrite Hopen. exact Hplus.
    + cbn [app]. unfold one_k at 1. cbn [cls]. rewrite Hb.
      cbn [match_here rep app] in Hplus. rewrite Hplus. done.
Qed.

(** X16.  When the first VERDICT marker of a judge output (compared without
    case) is followed by blanks, an optional opening bracket and a token of
    word characters, the parser reads that token: a legacy token gives its
    canonical verdict, a canonical token in any case gives itself in upper
    case, and only another token makes the parser infer the verdict from the
    words of the output. *)
Theorem verdict_marker_honoured (judge_response ws bracket token rest : list char)
    (i : nat) (tier : Z) :
  first_occurs_at "VERDICT:" i judge_response →
  drop (i + 8) judge_response = ws ++ bracket ++ token ++ rest →
  blank ws →
  (bracket = [] ∨ ∃ b, bracket = [b] ∧ icase_eq "["%char b = true ∧ isspace b = false) →
  token ≠ [] → Forall (λ c, isword c = true) token →
  (∀ c, head token = Some c → isspace c = false ∧ icase_eq "["%char c = false) →
  (∀ c, head rest = Some c → isword c = false) →
  search Judge.verdict_pattern judge_response = Some token
  ∧ ∃ v, Judge._parse_verdict judge_response tier = Ok v
      ∧ Judge.verdict v
        = match Judge.dict_get Judge.legacy_mapping (str_upper token) with
          | Some canonical => canonical
          | None =>
              if bool_decide (str_upper token ∈ Judge.VALID_VERDICTS) then str_upper token
              else Judge.infer_from_words (str_lower judge_response)
          end.
Proof.
  intros [[Hi Hst] Hfirst] Hdrop Hws Hbracket Hne Hword Hhead Hrest.
  assert (Hsearch : search Judge.verdict_pattern judge_response = Some token).
  { rewrite (search_drop _ judge_response i Hi).
    - apply match_here_search. unfold Judge.verdict_pattern, literal.
      rewrite match_here_literal, Hst, drop_drop. cbn [length list_ascii_of_string].
      rewrite Hdrop. by apply token_match.
    - intros j Hj. unfold Judge.verdict_pattern, literal. rewrite match_here_literal.
      destruct (starts_with_icase _ (drop j judge_response)) eqn:Hj'; [|done].
      destruct (Hfirst j Hj). split; [lia|done]. }
  split; [done|]. eexists. split; [apply parse_verdict_result|].
  cbn [Judge.verdict]. unfold chain_verdict. rewrite Hsearch. cbv zeta.
  destruct (Judge.dict_get Judge.legacy_mapping (str_upper token)) as [canonical|] eqn:Hl;
    cbn [default]; [|done].
  rewrite bool_decide_eq_true_2; [done|].
  destruct (getitem_legacy (str_upper token)) as (v & Hv & Hvalid).
  { unfold Judge.dict_in. rewrite Hl. by apply bool_decide_eq_true_2. }
  unfold Judge.getitem in Hv. rewrite Hl in Hv. by injection Hv as <-.
Qed.

End VerdictMarker.

(** X16 on an output whose marker is in lower case and follows other text,
    with a legacy token in brackets. *)
Lemma verdict_marker_honoured_witness :
  search Judge.verdict_pattern (str "The answer is sound. verdict: [loyal] indeed")
  = Some (str "loyal")
  ∧ ∃ v, Judge._parse_verdict (str "The answer is sound. verdict: [loyal] indeed") 2 = Ok v
      ∧ Judge.verdict v
        = match Judge.dict_get Judge.legacy_mapping (str_upper (str "loyal")) with
          | Some canonical => canonical
          | None =>
              if bool_decide (str_upper (str "loyal") ∈ Judge.VALID_VERDICTS)
              then str_upper (str "loyal")
              else Judge.infer_from_words
                     (str_lower (str "The answer is sound. verdict: [loyal] indeed"))
          end.
Proof.
  apply (@verdict_marker_honoured ascii ascii_text
           (str "The answer is sound. verdict: [loyal] indeed")
           (str " ") (str "[") (str "loyal") (str "] indeed") 21 2).
  - split; [split; [vm_compute; lia|vm_compute; reflexivity]|].
    intros j Hj [_ Hocc].
    do 21 (destruct j as [|j]; [vm_compute in Hocc; discriminate Hocc|]). lia.
  - vm_compute. reflexivity.
  - repeat constructor.
  - right. exists "["%char. repeat split; vm_compute; reflexivity.
  - discriminate.
  - repeat constructor.
  - intros c [= <-]. split; vm_compute; reflexivity.
  - intros c [= <-]. vm_compute. reflexivity.
Defined.

(** ** The judge with the built-in prompts *)

Section BuiltinPrompts.
Variables default_tier1 default_tier2 default_tier3 : string.
Variable format : string → string → string → result string.

Lemma tier_key_inj (tier tier' : Z) : "tier" +:+ pretty tier = "tier" +:+ pretty tier' → tier = tier'.
Proof. intros Heq. apply (inj (String.app "tier")) in Heq. by apply (inj pretty). Qed.

Lemma builtin_lookup (tier : Z) :
  Judge.DEFAULT_JUDGE_PROMPTS default_tier1 default_tier2 default_tier3
    !! ("tier" +:+ pretty tier)
  = if decide (tier = 1) then Some default_tier1
    else if decide (tier = 2) then Some default_tier2
    else if decide (tier = 3) then Some default_tier3
    else None.
Proof.
  unfold Judge.DEFAULT_JUDGE_PROMPTS.
  destruct (decide (tier = 1)) as [->|H1]; [by rewrite lookup_insert_eq|].
  rewrite lookup_insert_ne by (intros Heq; by apply (tier_key_inj 1 tier) in Heq).
  destruct (decide (tier = 2)) as [->|H2]; [by rewrite lookup_insert_eq|].
  rewrite lookup_insert_ne by (intros Heq; by apply (tier_key_inj 2 tier) in Heq).
  destruct (decide (tier = 3)) as [->|H3]; [by rewrite lookup_singleton_eq|].
  by rewrite lookup_singleton_ne by (intros Heq; by apply (tier_key_inj 3 tier) in Heq).
Qed.

(** X17.  A judge that is built without prompts, or with an empty dict of
    prompts, judges a question of tier 2 or 3 with the built-in prompt of the
    tier, and any other question (tier 1, no tier, a tier outside 1 to 3)
    with the built-in prompt of tier 1.  The evaluation raises what the
    formatting of the prompt or the judge backend raises, and else returns
    what the parser returns on the text of the completion. *)
Theorem evaluate_with_builtin_prompts (backend : LLMBackend) (model : string)
    (prompts : option (gmap string string)) (question : Question) (response : string) :
  prompts = None ∨ prompts = Some ∅ →
  let judge := Judge.new default_tier1 default_tier2 default_tier3 backend model prompts in
  let tier := default 1 (q_tier question) in
  let template := if decide (tier = 2) then default_tier2
                  else if decide (tier = 3) then default_tier3
                  else default_tier1 in
  Judge.evaluate default_tier1 default_tier2 default_tier3 format judge question response
  = match format template (default "" (q_content question)) response with
    | Raise e => Raise e
    | Ok prompt =>
        match backend prompt model with
        | Raise e => Raise e
        | Ok completion => Judge._parse_verdict (str (text completion)) tier
        end
    end.
Proof.
  intros Hprompts. cbv zeta.
  assert (Hjudge : Judge.new default_tier1 default_tier2 default_tier3 backend model prompts
                   = Judge.mkJudge backend model
                       (Judge.DEFAULT_JUDGE_PROMPTS default_tier1 default_tier2 default_tier3)).
  { unfold Judge.new. by destruct Hprompts as [->| ->]. }
  rewrite Hjudge. unfold Judge.evaluate. cbv zeta.
  cbn [Judge.judge_prompts Judge.backend Judge.model].
  set (tier := default 1 (q_tier question)).
  rewrite !builtin_lookup.
  assert (Htemplate :
    match
      Judge.DEFAULT_JUDGE_PROMPTS default_tier1 default_tier2 default_tier3
        !! (if bool_decide (is_Some (if decide (tier = 1) then Some default_tier1
                                     else if decide (tier = 2) then Some default_tier2
                                     else if decide (tier = 3) then Some default_tier3
                                     else None))
            then "tier" +:+ pretty tier
            else default "tier1" (Judge.tier_keys !! tier))
    with
    | Some t =>
        if String.eqb t ""
        then default default_tier1
               (if decide (tier = 1) then Some default_tier1
                else if decide (tier = 2) then Some default_tier2
                else if decide (tier = 3) then Some default_tier3
                else None)
        else t
    | None =>
        default default_tier1
          (if decide (tier = 1) then Some default_tier1
           else if decide (tier = 2) then Some default_tier2
           else if decide (tier = 3) then Some default_tier3
           else None)
    end
    = if decide (tier = 2) then default_tier2
      else if decide (tier = 3) then default_tier3
      else default_tier1).
  { destruct (decide (tier = 1)) as [H1|H1].
    - rewrite bool_decide_eq_true_2 by eauto. rewrite builtin_lookup.
      rewrite decide_True by done. rewrite !decide_False by lia.
      cbn [default]. by destruct (String.eqb default_tier1 "").
    - destruct (decide (tier = 2)) as [H2|H2].
      + rewrite bool_decide_eq_true_2 by eauto. rewrite builtin_lookup.
        rewrite decide_False, decide_True by done.
        cbn [default]. by destruct (String.eqb default_tier2 "").
      + destruct (decide (tier = 3)) as [H3|H3].
        * rewrite bool_decide_eq_true_2 by eauto. rewrite builtin_lookup.
          rewrite !decide_False, decide_True by done.
          cbn [default]. by destruct (String.eqb default_tier3 "").
        * rewrite bool_decide_eq_false_2 by (by intros []).
          assert (Hkey : Judge.tier_keys !! tier = None).
          { unfold Judge.tier_keys. by rewrite !lookup_insert_ne, lookup_singleton_ne. }
          rewrite Hkey. cbn [default].
          unfold Judge.DEFAULT_JUDGE_PROMPTS. rewrite lookup_insert_eq.
          by destruct (String.eqb default_tier1 ""). }
  rewrite Htemplate.
  destruct (format _ _ _) as [prompt|]; [|done]. cbn [mbind result_bind].
  by destruct (backend prompt model).
Qed.

End BuiltinPrompts.

(** X17 on a question without a tier and a judge backend that fails. *)
Lemma evaluate_with_builtin_prompts_witness :
  Judge.evaluate "T1" "T2" "T3" plain_format
    (Judge.new "T1" "T2" "T3" failing_backend "judge" None)
    (mkQuestion (Some (IdInt 1)) None None (Some "Q1")) "An answer."
  = Raise (Exn BackendError "timed out").
Proof.
  refine (evaluate_with_builtin_prompts "T1" "T2" "T3" plain_format failing_backend "judge"
            None (mkQuestion (Some (IdInt 1)) None None (Some "Q1")) "An answer." _).
  by left.
Defined.
